(** * Workspace service: authorization, membership, quota, cache and audit core

    A shallow embedding of the Go packages [models], [repositories] and
    [services] of the workspace service.  The durable store (PostgreSQL behind
    gorm) is a record of tables, the cache store (redis) a finite map from
    keys to marshalled values.  Every repository method is a computation in a
    state-and-error monad over that store; every round trip to the database or
    to redis may fail, as decided by a fault oracle of the environment. *)

From stdpp Require Import base strings list gmap pretty sorting.
From Stdlib Require Import ZArith Lia Ascii.

Set Warnings "-register-all".

Local Open Scope string_scope.
Local Open Scope Z_scope.
Local Open Scope list_scope.

(** ** Scalars *)

(** Go's [int] and [int64] are 64-bit two's-complement integers. *)
Definition int_wrap (z : Z) : Z := (z + 2 ^ 63) mod 2 ^ 64 - 2 ^ 63.

(** [time.Time] as a number of ticks; the zero time is [0]. *)
Abbreviation time_Time := Z (only parsing).

(** [map[string]interface{}]: a nil map is [None]. *)
Inductive JSON : Type :=
| JNull
| JString (s : string)
| JBool (b : bool)
| JObject (fields : list (string * JSON)).

Abbreviation JSONMap := (option (list (string * JSON))) (only parsing).

Definition json_of_map (m : JSONMap) : JSON :=
  match m with
  | None => JNull
  | Some fields => JObject fields
  end.

(** ** Package models *)

Abbreviation WorkspaceMemberRole := string (only parsing).

Definition WorkspaceRoleOwner : WorkspaceMemberRole := "owner".
Definition WorkspaceRoleAdmin : WorkspaceMemberRole := "admin".
Definition WorkspaceRoleMember : WorkspaceMemberRole := "member".
Definition WorkspaceRoleViewer : WorkspaceMemberRole := "viewer".

(** The embedded [BaseModel] is flattened into each struct. Associations that
    no service ever loads ([Workspace.Projects], [Workspace.Members],
    [Project.AirtableBases], [WorkspaceMember.Workspace],
    [WorkspaceAuditLog.Workspace]) are left out. *)
Record Workspace : Type := mkWorkspace {
  Workspace_ID : string;
  Workspace_CreatedAt : time_Time;
  Workspace_UpdatedAt : time_Time;
  Workspace_DeletedAt : option time_Time;
  Workspace_TenantID : string;
  Workspace_Name : string;
  Workspace_Description : string;
  Workspace_Settings : JSONMap;
  Workspace_CreatedBy : string
}.

Record Project : Type := mkProject {
  Project_ID : string;
  Project_CreatedAt : time_Time;
  Project_UpdatedAt : time_Time;
  Project_DeletedAt : option time_Time;
  Project_WorkspaceID : string;
  Project_Name : string;
  Project_Description : string;
  Project_Status : string;
  Project_Settings : JSONMap;
  Project_CreatedBy : string;
  Project_Workspace : option Workspace
}.

Record AirtableBase : Type := mkAirtableBase {
  AirtableBase_ID : string;
  AirtableBase_CreatedAt : time_Time;
  AirtableBase_UpdatedAt : time_Time;
  AirtableBase_DeletedAt : option time_Time;
  AirtableBase_ProjectID : string;
  AirtableBase_BaseID : string;
  AirtableBase_Name : string;
  AirtableBase_Description : string;
  AirtableBase_SyncEnabled : bool;
  AirtableBase_LastSyncAt : option time_Time;
  AirtableBase_Project : option Project
}.

Record WorkspaceMember : Type := mkWorkspaceMember {
  WorkspaceMember_WorkspaceID : string;
  WorkspaceMember_UserID : string;
  WorkspaceMember_Role : WorkspaceMemberRole;
  WorkspaceMember_JoinedAt : time_Time
}.

Record WorkspaceAuditLog : Type := mkWorkspaceAuditLog {
  WorkspaceAuditLog_ID : string;
  WorkspaceAuditLog_WorkspaceID : string;
  WorkspaceAuditLog_UserID : string;
  WorkspaceAuditLog_Action : string;
  WorkspaceAuditLog_ResourceType : string;
  WorkspaceAuditLog_ResourceID : string;
  WorkspaceAuditLog_Changes : JSONMap;
  WorkspaceAuditLog_CreatedAt : time_Time
}.

(** Requests. A Go pointer field ([*string]) is an [option]. *)
Record CreateWorkspaceRequest : Type := mkCreateWorkspaceRequest {
  CreateWorkspaceRequest_Name : string;
  CreateWorkspaceRequest_Description : string;
  CreateWorkspaceRequest_Settings : JSONMap
}.

Record UpdateWorkspaceRequest : Type := mkUpdateWorkspaceRequest {
  UpdateWorkspaceRequest_Name : option string;
  UpdateWorkspaceRequest_Description : option string;
  UpdateWorkspaceRequest_Settings : option JSONMap
}.

Record CreateProjectRequest : Type := mkCreateProjectRequest {
  CreateProjectRequest_Name : string;
  CreateProjectRequest_Description : string;
  CreateProjectRequest_Settings : JSONMap
}.

Record UpdateProjectRequest : Type := mkUpdateProjectRequest {
  UpdateProjectRequest_Name : option string;
  UpdateProjectRequest_Description : option string;
  UpdateProjectRequest_Status : option string;
  UpdateProjectRequest_Settings : option JSONMap
}.

Record CreateAirtableBaseRequest : Type := mkCreateAirtableBaseRequest {
  CreateAirtableBaseRequest_BaseID : string;
  CreateAirtableBaseRequest_Name : string;
  CreateAirtableBaseRequest_Description : string;
  CreateAirtableBaseRequest_SyncEnabled : bool
}.

Record UpdateAirtableBaseRequest : Type := mkUpdateAirtableBaseRequest {
  UpdateAirtableBaseRequest_Name : option string;
  UpdateAirtableBaseRequest_Description : option string;
  UpdateAirtableBaseRequest_SyncEnabled : option bool
}.

Record AddWorkspaceMemberRequest : Type := mkAddWorkspaceMemberRequest {
  AddWorkspaceMemberRequest_UserID : string;
  AddWorkspaceMemberRequest_Role : WorkspaceMemberRole
}.

Record UpdateWorkspaceMemberRequest : Type := mkUpdateWorkspaceMemberRequest {
  UpdateWorkspaceMemberRequest_Role : WorkspaceMemberRole
}.

(** Paginated responses. *)
Record ProjectListResponse : Type := mkProjectListResponse {
  ProjectListResponse_Projects : list Project;
  ProjectListResponse_Total : Z;
  ProjectListResponse_Page : Z;
  ProjectListResponse_PageSize : Z;
  ProjectListResponse_TotalPages : Z
}.

Record WorkspaceMemberListResponse : Type := mkWorkspaceMemberListResponse {
  WorkspaceMemberListResponse_Members : list WorkspaceMember;
  WorkspaceMemberListResponse_Total : Z;
  WorkspaceMemberListResponse_Page : Z;
  WorkspaceMemberListResponse_PageSize : Z;
  WorkspaceMemberListResponse_TotalPages : Z
}.

Record AuditLogListResponse : Type := mkAuditLogListResponse {
  AuditLogListResponse_Logs : list WorkspaceAuditLog;
  AuditLogListResponse_Total : Z;
  AuditLogListResponse_Page : Z;
  AuditLogListResponse_PageSize : Z;
  AuditLogListResponse_TotalPages : Z
}.

Record WorkspaceListResponse : Type := mkWorkspaceListResponse {
  WorkspaceListResponse_Workspaces : list Workspace;
  WorkspaceListResponse_Total : Z;
  WorkspaceListResponse_Page : Z;
  WorkspaceListResponse_PageSize : Z;
  WorkspaceListResponse_TotalPages : Z
}.

Record AirtableBaseListResponse : Type := mkAirtableBaseListResponse {
  AirtableBaseListResponse_Bases : list AirtableBase;
  AirtableBaseListResponse_Total : Z;
  AirtableBaseListResponse_Page : Z;
  AirtableBaseListResponse_PageSize : Z;
  AirtableBaseListResponse_TotalPages : Z
}.

(** Filters. *)
Record WorkspaceFilter : Type := mkWorkspaceFilter {
  WorkspaceFilter_TenantID : string;
  WorkspaceFilter_Search : string;
  WorkspaceFilter_CreatedBy : string;
  WorkspaceFilter_Page : Z;
  WorkspaceFilter_PageSize : Z;
  WorkspaceFilter_SortBy : string;
  WorkspaceFilter_SortOrder : string;
  WorkspaceFilter_IncludeDeleted : bool
}.

Record ProjectFilter : Type := mkProjectFilter {
  ProjectFilter_WorkspaceID : string;
  ProjectFilter_Status : string;
  ProjectFilter_Search : string;
  ProjectFilter_CreatedBy : string;
  ProjectFilter_Page : Z;
  ProjectFilter_PageSize : Z;
  ProjectFilter_SortBy : string;
  ProjectFilter_SortOrder : string;
  ProjectFilter_IncludeDeleted : bool
}.

Record AirtableBaseFilter : Type := mkAirtableBaseFilter {
  AirtableBaseFilter_ProjectID : string;
  AirtableBaseFilter_SyncEnabled : option bool;
  AirtableBaseFilter_Search : string;
  AirtableBaseFilter_Page : Z;
  AirtableBaseFilter_PageSize : Z;
  AirtableBaseFilter_SortBy : string;
  AirtableBaseFilter_SortOrder : string
}.

Record AuditLogFilter : Type := mkAuditLogFilter {
  AuditLogFilter_WorkspaceID : string;
  AuditLogFilter_UserID : string;
  AuditLogFilter_Action : string;
  AuditLogFilter_ResourceType : string;
  AuditLogFilter_ResourceID : string;
  AuditLogFilter_Page : Z;
  AuditLogFilter_PageSize : Z;
  AuditLogFilter_SortBy : string;
  AuditLogFilter_SortOrder : string
}.

(** Statistics. The two maps are made with [make] and are never nil. *)
Record WorkspaceStats : Type := mkWorkspaceStats {
  WorkspaceStats_TotalWorkspaces : Z;
  WorkspaceStats_ActiveWorkspaces : Z;
  WorkspaceStats_TotalProjects : Z;
  WorkspaceStats_ActiveProjects : Z;
  WorkspaceStats_TotalAirtableBases : Z;
  WorkspaceStats_WorkspacesByTenant : gmap string Z;
  WorkspaceStats_ProjectsByStatus : gmap string Z;
  WorkspaceStats_LastUpdated : time_Time
}.

(** ** Errors

    Go compares the sentinel errors by identity, so the two packages'
    [ErrWorkspaceNotFound] are different values. [io_failure] stands for any
    other error handed back by the database or redis driver. *)
Inductive error : Type :=
| io_failure
| gorm_ErrMissingWhereClause
| gorm_ErrInvalidTransaction
| json_UnmarshalTypeError
| repositories_ErrWorkspaceNotFound
| repositories_ErrProjectNotFound
| repositories_ErrAirtableBaseNotFound
| repositories_ErrMemberNotFound
| repositories_ErrDuplicateWorkspace
| repositories_ErrDuplicateProject
| repositories_ErrDuplicateAirtableBase
| repositories_ErrDuplicateMember
| repositories_ErrCannotDeleteOwner
| repositories_ErrLastOwner
| services_ErrWorkspaceNotFound
| services_ErrProjectNotFound
| services_ErrAirtableBaseNotFound
| services_ErrUnauthorized
| services_ErrQuotaExceeded
| services_ErrInvalidInput
| fmt_Errorf_d (format : string) (arg : Z)
| fmt_Errorf_s (format : string) (arg : string).

Inductive Result (A : Type) : Type :=
| Ok (a : A)
| Err (e : error).
Arguments Ok {A} a.
Arguments Err {A} e.

(** ** The role hierarchy evaluator (services/workspace_service.go) *)

Definition roleHierarchy : gmap string Z :=
  <[WorkspaceRoleOwner := 4]>
    (<[WorkspaceRoleAdmin := 3]>
       (<[WorkspaceRoleMember := 2]>
          (<[WorkspaceRoleViewer := 1]> ∅))).

Definition hasRequiredRole (userRole requiredRole : WorkspaceMemberRole) : bool :=
  match roleHierarchy !! userRole, roleHierarchy !! requiredRole with
  | Some userLevel, Some requiredLevel => bool_decide (userLevel >= requiredLevel)
  | _, _ => false
  end.

(** ** The stores and their environment *)

Inductive Table : Type :=
| workspaces_t
| projects_t
| airtable_bases_t
| workspace_members_t
| workspace_audit_logs_t.

(** One constructor per kind of round trip the repositories make. *)
Inductive Call : Type :=
| SELECT_COUNT (t : Table)
| SELECT_FIRST (t : Table)
| SELECT_FIND (t : Table)
| INSERT (t : Table)
| UPDATE (t : Table)
| DELETE (t : Table)
| TX_BEGIN
| TX_COMMIT
| REDIS_GET
| REDIS_SET
| REDIS_DEL
| REDIS_SCAN.

(** What the program takes from outside the repository: which round trips
    fail during the request, the values the database generates, the clock,
    Go's [strings] package and the SQL engine's [LIKE] and [ORDER BY]. *)
Record Env : Type := mkEnv {
  fails : Call -> bool;
  gen_random_uuid : nat -> string;
  time_Now : time_Time;
  strings_ToLower : string -> string;
  strings_ToUpper : string -> string;
  (* [sql_lower_like column pattern] is [LOWER(column) LIKE pattern] *)
  sql_lower_like : string -> string -> bool;
  order_workspaces : string -> list Workspace -> list Workspace;
  order_projects : string -> list Project -> list Project;
  order_airtable_bases : string -> list AirtableBase -> list AirtableBase;
  order_workspace_members : string -> list WorkspaceMember -> list WorkspaceMember;
  order_workspace_audit_logs : string -> list WorkspaceAuditLog -> list WorkspaceAuditLog
}.

(** What redis holds under a key: the value that was marshalled to JSON. *)
Inductive Blob : Type :=
| blob_Workspace (w : Workspace)
| blob_Project (p : Project)
| blob_strings (l : list string).

Record Store : Type := mkStore {
  workspaces : list Workspace;
  projects : list Project;
  airtable_bases : list AirtableBase;
  workspace_members : list WorkspaceMember;
  workspace_audit_logs : list WorkspaceAuditLog;
  redis : gmap string Blob;
  uuid_seq : nat
}.

Definition set_workspaces (f : list Workspace -> list Workspace) (s : Store) : Store :=
  mkStore (f (workspaces s)) (projects s) (airtable_bases s) (workspace_members s)
          (workspace_audit_logs s) (redis s) (uuid_seq s).
Definition set_projects (f : list Project -> list Project) (s : Store) : Store :=
  mkStore (workspaces s) (f (projects s)) (airtable_bases s) (workspace_members s)
          (workspace_audit_logs s) (redis s) (uuid_seq s).
Definition set_airtable_bases (f : list AirtableBase -> list AirtableBase) (s : Store) : Store :=
  mkStore (workspaces s) (projects s) (f (airtable_bases s)) (workspace_members s)
          (workspace_audit_logs s) (redis s) (uuid_seq s).
Definition set_workspace_members (f : list WorkspaceMember -> list WorkspaceMember) (s : Store) : Store :=
  mkStore (workspaces s) (projects s) (airtable_bases s) (f (workspace_members s))
          (workspace_audit_logs s) (redis s) (uuid_seq s).
Definition set_workspace_audit_logs (f : list WorkspaceAuditLog -> list WorkspaceAuditLog) (s : Store) : Store :=
  mkStore (workspaces s) (projects s) (airtable_bases s) (workspace_members s)
          (f (workspace_audit_logs s)) (redis s) (uuid_seq s).
Definition set_redis (f : gmap string Blob -> gmap string Blob) (s : Store) : Store :=
  mkStore (workspaces s) (projects s) (airtable_bases s) (workspace_members s)
          (workspace_audit_logs s) (f (redis s)) (uuid_seq s).
Definition next_uuid (s : Store) : Store :=
  mkStore (workspaces s) (projects s) (airtable_bases s) (workspace_members s)
          (workspace_audit_logs s) (redis s) (S (uuid_seq s)).

(** ** The monad of repository and service methods *)

Definition M (A : Type) : Type := Store -> Result A * Store.

Definition ret {A} (a : A) : M A := fun s => (Ok a, s).
Definition fail {A} (e : error) : M A := fun s => (Err e, s).
Definition bind {A B} (c : M A) (k : A -> M B) : M B :=
  fun s => match c s with
           | (Ok a, s') => k a s'
           | (Err e, s') => (Err e, s')
           end.
(** [catch c] hands the error to the caller, as [x, err := c()] does. *)
Definition catch {A} (c : M A) : M (Result A) :=
  fun s => let '(r, s') := c s in (Ok r, s').
(** [ignore c] is Go's [_ = c()]. *)
Definition ignore {A} (c : M A) : M unit :=
  fun s => let '(_, s') := c s in (Ok tt, s').
Definition read {A} (f : Store -> A) : M A := fun s => (Ok (f s), s).
Definition write (f : Store -> Store) : M unit := fun s => (Ok tt, f s).

Declare Scope go_scope.
Delimit Scope go_scope with go.
Notation "x <- c ;; k" := (bind c (fun x => k))
  (at level 100, c at next level, right associativity) : go_scope.
Notation "c ;; k" := (bind c (fun _ => k))
  (at level 100, right associativity) : go_scope.
Local Open Scope go_scope.

(** gorm's paging clauses: [Offset] with a value that is not positive and
    [Limit] with a negative value add no clause. *)
Definition gorm_Offset {A} (offset : Z) (rows : list A) : list A :=
  if bool_decide (offset > 0) then drop (Z.to_nat offset) rows else rows.
Definition gorm_Limit {A} (limit : Z) (rows : list A) : list A :=
  if bool_decide (limit >= 0) then take (Z.to_nat limit) rows else rows.

Definition count_rows {A} (rows : list A) : Z := Z.of_nat (length rows).

(** [l JOIN r ON on]: the pairs of rows that meet the join condition. *)
Definition sql_join {A B} (on : A -> B -> Prop) `{!∀ a b, Decision (on a b)}
    (l : list A) (r : list B) : list (A * B) :=
  a ← l; (fun b => (a, b)) <$> filter (on a) r.

(** [SELECT key, COUNT ... GROUP BY key]: one row for every key that occurs,
    with the number of rows of its group. *)
Definition sql_group_count {A} (key : A -> string) (rows : list A) : list (string * Z) :=
  (fun k => (k, count_rows (filter (fun a => key a = k) rows)))
    <$> remove_dups (key <$> rows).

Section Repositories.
Context (env : Env).

(** A round trip to the database or to redis. *)
Definition round_trip (c : Call) : M unit :=
  fun s => if fails env c then (Err io_failure, s) else (Ok tt, s).

(** *** repositories/workspace_member_repository.go *)

Definition member_where (workspaceID userID : string) (m : WorkspaceMember) : Prop :=
  WorkspaceMember_WorkspaceID m = workspaceID ∧ WorkspaceMember_UserID m = userID.
#[global] Instance member_where_dec w u m : Decision (member_where w u m).
Proof. unfold member_where. apply _. Defined.

Definition owner_where (workspaceID : string) (m : WorkspaceMember) : Prop :=
  WorkspaceMember_WorkspaceID m = workspaceID ∧ WorkspaceMember_Role m = WorkspaceRoleOwner.
#[global] Instance owner_where_dec w m : Decision (owner_where w m).
Proof. unfold owner_where. apply _. Defined.

Definition WorkspaceMember_with_Role (role : WorkspaceMemberRole) (m : WorkspaceMember) :=
  mkWorkspaceMember (WorkspaceMember_WorkspaceID m) (WorkspaceMember_UserID m) role
                    (WorkspaceMember_JoinedAt m).

(** The [joined_at] column has [default:now()]. *)
Definition WorkspaceMember_defaults (m : WorkspaceMember) : WorkspaceMember :=
  mkWorkspaceMember (WorkspaceMember_WorkspaceID m) (WorkspaceMember_UserID m)
                    (WorkspaceMember_Role m)
                    (if bool_decide (WorkspaceMember_JoinedAt m = 0) then time_Now env
                     else WorkspaceMember_JoinedAt m).

(** The method fills in the struct it is given; the model returns it. *)
Definition workspaceMemberRepository_Add (member : WorkspaceMember) : M WorkspaceMember :=
  round_trip (SELECT_COUNT workspace_members_t) ;;
  n <- read (fun s => count_rows (filter (member_where (WorkspaceMember_WorkspaceID member)
                                                  (WorkspaceMember_UserID member))
                                    (workspace_members s))) ;;
  if bool_decide (n > 0) then fail repositories_ErrDuplicateMember
  else
    round_trip (INSERT workspace_members_t) ;;
    let member := WorkspaceMember_defaults member in
    write (set_workspace_members (fun rows => rows ++ [member])) ;;
    ret member.

(** [First] orders by the primary key and takes one row; the rows selected
    here all have the same key. *)
Definition workspaceMemberRepository_GetByWorkspaceAndUser (workspaceID userID : string)
  : M WorkspaceMember :=
  round_trip (SELECT_FIRST workspace_members_t) ;;
  row <- read (fun s => head (filter (member_where workspaceID userID) (workspace_members s))) ;;
  match row with
  | None => fail repositories_ErrMemberNotFound
  | Some member => ret member
  end.

Definition workspaceMemberRepository_CountOwners (workspaceID : string) : M Z :=
  round_trip (SELECT_COUNT workspace_members_t) ;;
  read (fun s => count_rows (filter (owner_where workspaceID) (workspace_members s))).

Definition workspaceMemberRepository_IsLastOwner (workspaceID userID : string) : M bool :=
  member <- workspaceMemberRepository_GetByWorkspaceAndUser workspaceID userID ;;
  if bool_decide (WorkspaceMember_Role member ≠ WorkspaceRoleOwner) then ret false
  else
    ownerCount <- workspaceMemberRepository_CountOwners workspaceID ;;
    ret (bool_decide (ownerCount <= 1)).

Definition workspaceMemberRepository_UpdateRole
    (workspaceID userID : string) (role : WorkspaceMemberRole) : M unit :=
  (if bool_decide (role ≠ WorkspaceRoleOwner) then
     isLastOwner <- workspaceMemberRepository_IsLastOwner workspaceID userID ;;
     if isLastOwner : bool then fail repositories_ErrLastOwner else ret tt
   else ret tt) ;;
  round_trip (UPDATE workspace_members_t) ;;
  rowsAffected <- read (fun s => count_rows (filter (member_where workspaceID userID)
                                               (workspace_members s))) ;;
  write (set_workspace_members
           (fmap (fun m => if decide (member_where workspaceID userID m)
                           then WorkspaceMember_with_Role role m else m))) ;;
  if bool_decide (rowsAffected = 0) then fail repositories_ErrMemberNotFound
  else ret tt.

Definition workspaceMemberRepository_Remove (workspaceID userID : string) : M unit :=
  member <- workspaceMemberRepository_GetByWorkspaceAndUser workspaceID userID ;;
  (if bool_decide (WorkspaceMember_Role member = WorkspaceRoleOwner) then
     isLastOwner <- workspaceMemberRepository_IsLastOwner workspaceID userID ;;
     if isLastOwner : bool then fail repositories_ErrLastOwner else ret tt
   else ret tt) ;;
  round_trip (DELETE workspace_members_t) ;;
  rowsAffected <- read (fun s => count_rows (filter (member_where workspaceID userID)
                                               (workspace_members s))) ;;
  write (set_workspace_members
           (filter (fun m => ¬ member_where workspaceID userID m))) ;;
  if bool_decide (rowsAffected = 0) then fail repositories_ErrMemberNotFound
  else ret tt.

Definition workspaceMemberRepository_List (workspaceID : string) (page pageSize : Z)
  : M (list WorkspaceMember * Z) :=
  round_trip (SELECT_COUNT workspace_members_t) ;;
  total <- read (fun s => count_rows (filter (fun m => WorkspaceMember_WorkspaceID m = workspaceID)
                                        (workspace_members s))) ;;
  let page := if bool_decide (page < 1) then 1 else page in
  let pageSize := if bool_decide (pageSize < 1) then 20 else pageSize in
  let pageSize := if bool_decide (pageSize > 100) then 100 else pageSize in
  let offset := int_wrap ((page - 1) * pageSize) in
  round_trip (SELECT_FIND workspace_members_t) ;;
  members <- read (fun s =>
    gorm_Limit pageSize
      (gorm_Offset offset
         (order_workspace_members env "joined_at DESC"
            (filter (fun m => WorkspaceMember_WorkspaceID m = workspaceID)
                    (workspace_members s))))) ;;
  ret (members, total).

(** *** repositories/workspace_repository.go

    [Workspace], [Project] and [AirtableBase] carry a [gorm.DeletedAt]: gorm
    adds [deleted_at IS NULL] to every query, update and delete on them, and
    [Delete] sets the column instead of removing the row. *)

Definition Workspace_with_DeletedAt (t : option time_Time) (w : Workspace) : Workspace :=
  mkWorkspace (Workspace_ID w) (Workspace_CreatedAt w) (Workspace_UpdatedAt w) t
              (Workspace_TenantID w) (Workspace_Name w) (Workspace_Description w)
              (Workspace_Settings w) (Workspace_CreatedBy w).

Definition Workspace_with_UpdatedAt (t : time_Time) (w : Workspace) : Workspace :=
  mkWorkspace (Workspace_ID w) (Workspace_CreatedAt w) t (Workspace_DeletedAt w)
              (Workspace_TenantID w) (Workspace_Name w) (Workspace_Description w)
              (Workspace_Settings w) (Workspace_CreatedBy w).

(** What [Create] sends back in the struct: the generated primary key, the
    timestamps and the column default of [settings]. *)
Definition Workspace_defaults (uuid : string) (w : Workspace) : Workspace :=
  mkWorkspace (if bool_decide (Workspace_ID w = "") then uuid else Workspace_ID w)
              (if bool_decide (Workspace_CreatedAt w = 0) then time_Now env
               else Workspace_CreatedAt w)
              (if bool_decide (Workspace_UpdatedAt w = 0) then time_Now env
               else Workspace_UpdatedAt w)
              (Workspace_DeletedAt w)
              (Workspace_TenantID w) (Workspace_Name w) (Workspace_Description w)
              (match Workspace_Settings w with None => Some [] | m => m end)
              (Workspace_CreatedBy w).

(** [Updates] with a struct writes the fields that are not the zero value of
    their type, and the update time. *)
Definition Workspace_Updates (src row : Workspace) : Workspace :=
  mkWorkspace (Workspace_ID row)
              (if bool_decide (Workspace_CreatedAt src = 0) then Workspace_CreatedAt row
               else Workspace_CreatedAt src)
              (time_Now env)
              (match Workspace_DeletedAt src with
               | None => Workspace_DeletedAt row | t => t end)
              (if bool_decide (Workspace_TenantID src = "") then Workspace_TenantID row
               else Workspace_TenantID src)
              (if bool_decide (Workspace_Name src = "") then Workspace_Name row
               else Workspace_Name src)
              (if bool_decide (Workspace_Description src = "")
               then Workspace_Description row else Workspace_Description src)
              (match Workspace_Settings src with
               | None => Workspace_Settings row | m => m end)
              (if bool_decide (Workspace_CreatedBy src = "") then Workspace_CreatedBy row
               else Workspace_CreatedBy src).

Definition workspace_id_where (id : string) (w : Workspace) : Prop :=
  Workspace_ID w = id ∧ Workspace_DeletedAt w = None.
#[global] Instance workspace_id_where_dec id w : Decision (workspace_id_where id w).
Proof. unfold workspace_id_where. apply _. Defined.

Definition workspaceRepository_Create (workspace : Workspace) : M Workspace :=
  round_trip (SELECT_COUNT workspaces_t) ;;
  n <- read (fun s => count_rows (filter (fun w => Workspace_TenantID w = Workspace_TenantID workspace
                                              ∧ Workspace_Name w = Workspace_Name workspace
                                              ∧ Workspace_DeletedAt w = None)
                                    (workspaces s))) ;;
  if bool_decide (n > 0) then fail repositories_ErrDuplicateWorkspace
  else
    round_trip (INSERT workspaces_t) ;;
    uuid <- read (fun s => gen_random_uuid env (uuid_seq s)) ;;
    (if bool_decide (Workspace_ID workspace = "") then write next_uuid else ret tt) ;;
    let workspace := Workspace_defaults uuid workspace in
    write (set_workspaces (fun rows => rows ++ [workspace])) ;;
    ret workspace.

Definition workspaceRepository_GetByID (id : string) : M Workspace :=
  round_trip (SELECT_FIRST workspaces_t) ;;
  row <- read (fun s => head (filter (workspace_id_where id) (workspaces s))) ;;
  match row with
  | None => fail repositories_ErrWorkspaceNotFound
  | Some workspace => ret workspace
  end.

(** [First] adds [ORDER BY] the primary key to the query. *)
Definition workspaceRepository_GetByTenantAndName (tenantID name : string) : M Workspace :=
  round_trip (SELECT_FIRST workspaces_t) ;;
  row <- read (fun s =>
    head (order_workspaces env "workspaces.id"
            (filter (fun w => Workspace_TenantID w = tenantID
                            ∧ Workspace_Name w = name
                            ∧ Workspace_DeletedAt w = None)
                    (workspaces s)))) ;;
  match row with
  | None => fail repositories_ErrWorkspaceNotFound
  | Some workspace => ret workspace
  end.

(** [Updates] stamps the update time into the struct it is given; the model
    returns the struct. *)
Definition workspaceRepository_Update (workspace : Workspace) : M Workspace :=
  (if bool_decide (Workspace_Name workspace ≠ "") then
     round_trip (SELECT_COUNT workspaces_t) ;;
     n <- read (fun s => count_rows (filter (fun w => Workspace_TenantID w = Workspace_TenantID workspace
                                                 ∧ Workspace_Name w = Workspace_Name workspace
                                                 ∧ Workspace_ID w ≠ Workspace_ID workspace
                                                 ∧ Workspace_DeletedAt w = None)
                                       (workspaces s))) ;;
     if bool_decide (n > 0) then fail repositories_ErrDuplicateWorkspace else ret tt
   else ret tt) ;;
  (* without a primary key the statement has no condition of its own *)
  (if bool_decide (Workspace_ID workspace = "") then fail gorm_ErrMissingWhereClause
   else ret tt) ;;
  round_trip (UPDATE workspaces_t) ;;
  rowsAffected <- read (fun s => count_rows (filter (workspace_id_where (Workspace_ID workspace))
                                               (workspaces s))) ;;
  write (set_workspaces
           (fmap (fun row => if decide (workspace_id_where (Workspace_ID workspace) row)
                             then Workspace_Updates workspace row else row))) ;;
  if bool_decide (rowsAffected = 0) then fail repositories_ErrWorkspaceNotFound
  else ret (Workspace_with_UpdatedAt (time_Now env) workspace).

Definition workspaceRepository_Delete (id : string) : M unit :=
  round_trip (DELETE workspaces_t) ;;
  rowsAffected <- read (fun s => count_rows (filter (workspace_id_where id) (workspaces s))) ;;
  write (set_workspaces
           (fmap (fun row => if decide (workspace_id_where id row)
                             then Workspace_with_DeletedAt (Some (time_Now env)) row
                             else row))) ;;
  if bool_decide (rowsAffected = 0) then fail repositories_ErrWorkspaceNotFound
  else ret tt.

(** The conditions [List] adds for the filter; the last one is gorm's own,
    so [IncludeDeleted] makes no difference to what is selected. *)
Definition workspace_filter_where (filter : WorkspaceFilter) (w : Workspace) : Prop :=
  (WorkspaceFilter_TenantID filter = "" ∨ Workspace_TenantID w = WorkspaceFilter_TenantID filter)
  ∧ (WorkspaceFilter_CreatedBy filter = ""
     ∨ Workspace_CreatedBy w = WorkspaceFilter_CreatedBy filter)
  ∧ (WorkspaceFilter_Search filter = ""
     ∨ (let search := ("%" ++ strings_ToLower env (WorkspaceFilter_Search filter) ++ "%")%string in
        sql_lower_like env (Workspace_Name w) search = true
        ∨ sql_lower_like env (Workspace_Description w) search = true))
  ∧ (WorkspaceFilter_IncludeDeleted filter = true ∨ Workspace_DeletedAt w = None)
  ∧ Workspace_DeletedAt w = None.
#[global] Instance workspace_filter_where_dec f w : Decision (workspace_filter_where f w).
Proof. unfold workspace_filter_where. apply _. Defined.

(** The [ORDER BY] clause shared by the filtered listings. *)
Definition order_clause (filterSortBy filterSortOrder : string) : string :=
  let sortBy := if bool_decide (filterSortBy ≠ "") then filterSortBy else "created_at" in
  let sortOrder :=
    if bool_decide (filterSortOrder ≠ "")
       && bool_decide (strings_ToUpper env filterSortOrder = "ASC")
    then "ASC" else "DESC" in
  (sortBy ++ " " ++ sortOrder)%string.

(** The paging shared by the filtered listings: offset and limit. *)
Definition paging (filterPage filterPageSize default : Z) : Z * Z :=
  let page := if bool_decide (filterPage < 1) then 1 else filterPage in
  let pageSize := if bool_decide (filterPageSize < 1) then default else filterPageSize in
  let pageSize := if bool_decide (pageSize > 100) then 100 else pageSize in
  (int_wrap ((page - 1) * pageSize), pageSize).

Definition workspaceRepository_List (filter : WorkspaceFilter) : M (list Workspace * Z) :=
  round_trip (SELECT_COUNT workspaces_t) ;;
  total <- read (fun s => count_rows (base.filter (workspace_filter_where filter) (workspaces s))) ;;
  let '(offset, pageSize) :=
    paging (WorkspaceFilter_Page filter) (WorkspaceFilter_PageSize filter) 20 in
  round_trip (SELECT_FIND workspaces_t) ;;
  rows <- read (fun s =>
    gorm_Limit pageSize
      (gorm_Offset offset
         (order_workspaces env
            (order_clause (WorkspaceFilter_SortBy filter) (WorkspaceFilter_SortOrder filter))
            (base.filter (workspace_filter_where filter) (workspaces s))))) ;;
  ret (rows, total).

(** The joins of [GetStats] are written on the tables by name, without a
    model: gorm adds no condition of its own to them. *)
Definition ON_projects_workspace_id (p : Project) (w : Workspace) : Prop :=
  Project_WorkspaceID p = Workspace_ID w.
#[global] Instance ON_projects_workspace_id_dec p w : Decision (ON_projects_workspace_id p w).
Proof. unfold ON_projects_workspace_id. apply _. Defined.

Definition ON_airtable_bases_project_id (b : AirtableBase) (row : Project * Workspace)
  : Prop :=
  AirtableBase_ProjectID b = Project_ID row.1.
#[global] Instance ON_airtable_bases_project_id_dec b row
  : Decision (ON_airtable_bases_project_id b row).
Proof. unfold ON_airtable_bases_project_id. apply _. Defined.

Definition projects_JOIN_workspaces (s : Store) : list (Project * Workspace) :=
  sql_join ON_projects_workspace_id (projects s) (workspaces s).

Definition airtable_bases_JOIN_projects_JOIN_workspaces (s : Store)
  : list (AirtableBase * (Project * Workspace)) :=
  sql_join ON_airtable_bases_project_id (airtable_bases s) (projects_JOIN_workspaces s).

Definition tenant_project_where (tenantID : string) (row : Project * Workspace) : Prop :=
  Workspace_TenantID row.2 = tenantID ∧ Project_DeletedAt row.1 = None.
#[global] Instance tenant_project_where_dec t row : Decision (tenant_project_where t row).
Proof. unfold tenant_project_where. apply _. Defined.

Definition workspaceRepository_GetStats (tenantID : string) : M WorkspaceStats :=
  round_trip (SELECT_COUNT workspaces_t) ;;
  totalWorkspaces <- read (fun s =>
    count_rows (filter (fun w => Workspace_TenantID w = tenantID ∧ Workspace_DeletedAt w = None)
                       (workspaces s))) ;;
  let activeWorkspaces := totalWorkspaces in
  round_trip (SELECT_COUNT projects_t) ;;
  totalProjects <- read (fun s =>
    count_rows (filter (tenant_project_where tenantID) (projects_JOIN_workspaces s))) ;;
  round_trip (SELECT_COUNT projects_t) ;;
  activeProjects <- read (fun s =>
    count_rows (filter (fun row : Project * Workspace =>
                          Workspace_TenantID row.2 = tenantID
                          ∧ Project_Status row.1 = "active"
                          ∧ Project_DeletedAt row.1 = None)
                       (projects_JOIN_workspaces s))) ;;
  round_trip (SELECT_COUNT airtable_bases_t) ;;
  totalAirtableBases <- read (fun s =>
    count_rows (filter (fun row : AirtableBase * (Project * Workspace) =>
                          Workspace_TenantID row.2.2 = tenantID
                          ∧ AirtableBase_DeletedAt row.1 = None)
                       (airtable_bases_JOIN_projects_JOIN_workspaces s))) ;;
  round_trip (SELECT_FIND projects_t) ;;
  statusCounts <- read (fun s =>
    sql_group_count (fun row : Project * Workspace => Project_Status row.1)
      (filter (tenant_project_where tenantID) (projects_JOIN_workspaces s))) ;;
  let projectsByStatus :=
    foldl (fun (m : gmap string Z) sc => <[sc.1 := sc.2]> m) ∅ statusCounts in
  ret (mkWorkspaceStats totalWorkspaces activeWorkspaces totalProjects activeProjects
                        totalAirtableBases ∅ projectsByStatus (time_Now env)).

(** *** repositories/project_repository.go *)

Definition Project_with_DeletedAt (t : option time_Time) (p : Project) : Project :=
  mkProject (Project_ID p) (Project_CreatedAt p) (Project_UpdatedAt p) t
            (Project_WorkspaceID p) (Project_Name p) (Project_Description p)
            (Project_Status p) (Project_Settings p) (Project_CreatedBy p)
            (Project_Workspace p).

Definition Project_with_Workspace (w : option Workspace) (p : Project) : Project :=
  mkProject (Project_ID p) (Project_CreatedAt p) (Project_UpdatedAt p) (Project_DeletedAt p)
            (Project_WorkspaceID p) (Project_Name p) (Project_Description p)
            (Project_Status p) (Project_Settings p) (Project_CreatedBy p) w.

Definition Project_with_UpdatedAt (t : time_Time) (p : Project) : Project :=
  mkProject (Project_ID p) (Project_CreatedAt p) t (Project_DeletedAt p)
            (Project_WorkspaceID p) (Project_Name p) (Project_Description p)
            (Project_Status p) (Project_Settings p) (Project_CreatedBy p)
            (Project_Workspace p).

Definition Project_defaults (uuid : string) (p : Project) : Project :=
  mkProject (if bool_decide (Project_ID p = "") then uuid else Project_ID p)
            (if bool_decide (Project_CreatedAt p = 0) then time_Now env else Project_CreatedAt p)
            (if bool_decide (Project_UpdatedAt p = 0) then time_Now env else Project_UpdatedAt p)
            (Project_DeletedAt p)
            (Project_WorkspaceID p) (Project_Name p) (Project_Description p)
            (if bool_decide (Project_Status p = "") then "active" else Project_Status p)
            (match Project_Settings p with None => Some [] | m => m end)
            (Project_CreatedBy p) (Project_Workspace p).

Definition Project_Updates (src row : Project) : Project :=
  mkProject (Project_ID row)
            (if bool_decide (Project_CreatedAt src = 0) then Project_CreatedAt row
             else Project_CreatedAt src)
            (time_Now env)
            (match Project_DeletedAt src with None => Project_DeletedAt row | t => t end)
            (if bool_decide (Project_WorkspaceID src = "") then Project_WorkspaceID row
             else Project_WorkspaceID src)
            (if bool_decide (Project_Name src = "") then Project_Name row else Project_Name src)
            (if bool_decide (Project_Description src = "") then Project_Description row
             else Project_Description src)
            (if bool_decide (Project_Status src = "") then Project_Status row
             else Project_Status src)
            (match Project_Settings src with None => Project_Settings row | m => m end)
            (if bool_decide (Project_CreatedBy src = "") then Project_CreatedBy row
             else Project_CreatedBy src)
            (Project_Workspace row).

Definition project_id_where (id : string) (p : Project) : Prop :=
  Project_ID p = id ∧ Project_DeletedAt p = None.
#[global] Instance project_id_where_dec id p : Decision (project_id_where id p).
Proof. unfold project_id_where. apply _. Defined.

Definition project_workspace_where (workspaceID : string) (p : Project) : Prop :=
  Project_WorkspaceID p = workspaceID ∧ Project_DeletedAt p = None.
#[global] Instance project_workspace_where_dec w p : Decision (project_workspace_where w p).
Proof. unfold project_workspace_where. apply _. Defined.

(** [Preload("Workspace")]: a second query fills in the association. The
    table rows themselves hold no association. *)
Definition preload_Workspace (s : Store) (p : Project) : Project :=
  Project_with_Workspace
    (head (filter (workspace_id_where (Project_WorkspaceID p)) (workspaces s))) p.

Definition projectRepository_Create (project : Project) : M Project :=
  round_trip (SELECT_COUNT projects_t) ;;
  n <- read (fun s => count_rows (filter (fun p => Project_WorkspaceID p = Project_WorkspaceID project
                                              ∧ Project_Name p = Project_Name project
                                              ∧ Project_DeletedAt p = None)
                                    (projects s))) ;;
  if bool_decide (n > 0) then fail repositories_ErrDuplicateProject
  else
    round_trip (INSERT projects_t) ;;
    uuid <- read (fun s => gen_random_uuid env (uuid_seq s)) ;;
    (if bool_decide (Project_ID project = "") then write next_uuid else ret tt) ;;
    let project := Project_defaults uuid project in
    write (set_projects (fun rows => rows ++ [Project_with_Workspace None project])) ;;
    ret project.

Definition projectRepository_GetByID (id : string) : M Project :=
  round_trip (SELECT_FIRST projects_t) ;;
  row <- read (fun s => head (filter (project_id_where id) (projects s))) ;;
  match row with
  | None => fail repositories_ErrProjectNotFound
  | Some project =>
      round_trip (SELECT_FIND workspaces_t) ;;
      read (fun s => preload_Workspace s project)
  end.

Definition projectRepository_GetByWorkspaceAndName (workspaceID name : string) : M Project :=
  round_trip (SELECT_FIRST projects_t) ;;
  row <- read (fun s =>
    head (order_projects env "projects.id"
            (filter (fun p => Project_WorkspaceID p = workspaceID
                            ∧ Project_Name p = name
                            ∧ Project_DeletedAt p = None)
                    (projects s)))) ;;
  match row with
  | None => fail repositories_ErrProjectNotFound
  | Some project => ret project
  end.

Definition projectRepository_Update (project : Project) : M Project :=
  (if bool_decide (Project_Name project ≠ "") then
     round_trip (SELECT_COUNT projects_t) ;;
     n <- read (fun s => count_rows (filter (fun p => Project_WorkspaceID p = Project_WorkspaceID project
                                                 ∧ Project_Name p = Project_Name project
                                                 ∧ Project_ID p ≠ Project_ID project
                                                 ∧ Project_DeletedAt p = None)
                                       (projects s))) ;;
     if bool_decide (n > 0) then fail repositories_ErrDuplicateProject else ret tt
   else ret tt) ;;
  (if bool_decide (Project_ID project = "") then fail gorm_ErrMissingWhereClause
   else ret tt) ;;
  round_trip (UPDATE projects_t) ;;
  rowsAffected <- read (fun s => count_rows (filter (project_id_where (Project_ID project))
                                               (projects s))) ;;
  write (set_projects
           (fmap (fun row => if decide (project_id_where (Project_ID project) row)
                             then Project_Updates project row else row))) ;;
  if bool_decide (rowsAffected = 0) then fail repositories_ErrProjectNotFound
  else ret (Project_with_UpdatedAt (time_Now env) project).

Definition projectRepository_Delete (id : string) : M unit :=
  round_trip (DELETE projects_t) ;;
  rowsAffected <- read (fun s => count_rows (filter (project_id_where id) (projects s))) ;;
  write (set_projects
           (fmap (fun row => if decide (project_id_where id row)
                             then Project_with_DeletedAt (Some (time_Now env)) row
                             else row))) ;;
  if bool_decide (rowsAffected = 0) then fail repositories_ErrProjectNotFound
  else ret tt.

Definition project_filter_where (filter : ProjectFilter) (p : Project) : Prop :=
  (ProjectFilter_WorkspaceID filter = ""
   ∨ Project_WorkspaceID p = ProjectFilter_WorkspaceID filter)
  ∧ (ProjectFilter_Status filter = "" ∨ Project_Status p = ProjectFilter_Status filter)
  ∧ (ProjectFilter_CreatedBy filter = "" ∨ Project_CreatedBy p = ProjectFilter_CreatedBy filter)
  ∧ (ProjectFilter_Search filter = ""
     ∨ (let search := ("%" ++ strings_ToLower env (ProjectFilter_Search filter) ++ "%")%string in
        sql_lower_like env (Project_Name p) search = true
        ∨ sql_lower_like env (Project_Description p) search = true))
  ∧ (ProjectFilter_IncludeDeleted filter = true ∨ Project_DeletedAt p = None)
  ∧ Project_DeletedAt p = None.
#[global] Instance project_filter_where_dec f p : Decision (project_filter_where f p).
Proof. unfold project_filter_where. apply _. Defined.

Definition projectRepository_List (filter : ProjectFilter) : M (list Project * Z) :=
  round_trip (SELECT_COUNT projects_t) ;;
  total <- read (fun s => count_rows (base.filter (project_filter_where filter) (projects s))) ;;
  let '(offset, pageSize) :=
    paging (ProjectFilter_Page filter) (ProjectFilter_PageSize filter) 20 in
  round_trip (SELECT_FIND projects_t) ;;
  round_trip (SELECT_FIND workspaces_t) ;;
  rows <- read (fun s =>
    preload_Workspace s <$>
      gorm_Limit pageSize
        (gorm_Offset offset
           (order_projects env
              (order_clause (ProjectFilter_SortBy filter) (ProjectFilter_SortOrder filter))
              (base.filter (project_filter_where filter) (projects s))))) ;;
  ret (rows, total).

Definition projectRepository_CountByWorkspace (workspaceID : string) : M Z :=
  round_trip (SELECT_COUNT projects_t) ;;
  read (fun s => count_rows (filter (project_workspace_where workspaceID) (projects s))).

(** *** repositories/airtable_base_repository.go *)

Definition AirtableBase_with_DeletedAt (t : option time_Time) (b : AirtableBase) : AirtableBase :=
  mkAirtableBase (AirtableBase_ID b) (AirtableBase_CreatedAt b) (AirtableBase_UpdatedAt b) t
                 (AirtableBase_ProjectID b) (AirtableBase_BaseID b) (AirtableBase_Name b)
                 (AirtableBase_Description b) (AirtableBase_SyncEnabled b)
                 (AirtableBase_LastSyncAt b) (AirtableBase_Project b).

Definition AirtableBase_with_Project (p : option Project) (b : AirtableBase) : AirtableBase :=
  mkAirtableBase (AirtableBase_ID b) (AirtableBase_CreatedAt b) (AirtableBase_UpdatedAt b)
                 (AirtableBase_DeletedAt b)
                 (AirtableBase_ProjectID b) (AirtableBase_BaseID b) (AirtableBase_Name b)
                 (AirtableBase_Description b) (AirtableBase_SyncEnabled b)
                 (AirtableBase_LastSyncAt b) p.

Definition AirtableBase_with_UpdatedAt (t : time_Time) (b : AirtableBase) : AirtableBase :=
  mkAirtableBase (AirtableBase_ID b) (AirtableBase_CreatedAt b) t (AirtableBase_DeletedAt b)
                 (AirtableBase_ProjectID b) (AirtableBase_BaseID b) (AirtableBase_Name b)
                 (AirtableBase_Description b) (AirtableBase_SyncEnabled b)
                 (AirtableBase_LastSyncAt b) (AirtableBase_Project b).

(** [sync_enabled] has [default:true]: a [false] in the struct is the zero
    value, so the column default is stored and read back. *)
Definition AirtableBase_defaults (uuid : string) (b : AirtableBase) : AirtableBase :=
  mkAirtableBase (if bool_decide (AirtableBase_ID b = "") then uuid else AirtableBase_ID b)
                 (if bool_decide (AirtableBase_CreatedAt b = 0) then time_Now env
                  else AirtableBase_CreatedAt b)
                 (if bool_decide (AirtableBase_UpdatedAt b = 0) then time_Now env
                  else AirtableBase_UpdatedAt b)
                 (AirtableBase_DeletedAt b)
                 (AirtableBase_ProjectID b) (AirtableBase_BaseID b) (AirtableBase_Name b)
                 (AirtableBase_Description b)
                 true
                 (AirtableBase_LastSyncAt b) (AirtableBase_Project b).

Definition AirtableBase_Updates (src row : AirtableBase) : AirtableBase :=
  mkAirtableBase (AirtableBase_ID row)
                 (if bool_decide (AirtableBase_CreatedAt src = 0) then AirtableBase_CreatedAt row
                  else AirtableBase_CreatedAt src)
                 (time_Now env)
                 (match AirtableBase_DeletedAt src with
                  | None => AirtableBase_DeletedAt row | t => t end)
                 (if bool_decide (AirtableBase_ProjectID src = "") then AirtableBase_ProjectID row
                  else AirtableBase_ProjectID src)
                 (if bool_decide (AirtableBase_BaseID src = "") then AirtableBase_BaseID row
                  else AirtableBase_BaseID src)
                 (if bool_decide (AirtableBase_Name src = "") then AirtableBase_Name row
                  else AirtableBase_Name src)
                 (if bool_decide (AirtableBase_Description src = "")
                  then AirtableBase_Description row else AirtableBase_Description src)
                 (if AirtableBase_SyncEnabled src then true else AirtableBase_SyncEnabled row)
                 (match AirtableBase_LastSyncAt src with
                  | None => AirtableBase_LastSyncAt row | t => t end)
                 (AirtableBase_Project row).

Definition base_id_where (id : string) (b : AirtableBase) : Prop :=
  AirtableBase_ID b = id ∧ AirtableBase_DeletedAt b = None.
#[global] Instance base_id_where_dec id b : Decision (base_id_where id b).
Proof. unfold base_id_where. apply _. Defined.

(** [Preload("Project").Preload("Project.Workspace")]. *)
Definition preload_Project (s : Store) (b : AirtableBase) : AirtableBase :=
  AirtableBase_with_Project
    (preload_Workspace s <$>
       head (filter (project_id_where (AirtableBase_ProjectID b)) (projects s))) b.

Definition airtableBaseRepository_Create (base : AirtableBase) : M AirtableBase :=
  round_trip (SELECT_COUNT airtable_bases_t) ;;
  n <- read (fun s => count_rows (filter (fun b => AirtableBase_ProjectID b = AirtableBase_ProjectID base
                                              ∧ AirtableBase_BaseID b = AirtableBase_BaseID base
                                              ∧ AirtableBase_DeletedAt b = None)
                                    (airtable_bases s))) ;;
  if bool_decide (n > 0) then fail repositories_ErrDuplicateAirtableBase
  else
    round_trip (INSERT airtable_bases_t) ;;
    uuid <- read (fun s => gen_random_uuid env (uuid_seq s)) ;;
    (if bool_decide (AirtableBase_ID base = "") then write next_uuid else ret tt) ;;
    let base := AirtableBase_defaults uuid base in
    write (set_airtable_bases (fun rows => rows ++ [AirtableBase_with_Project None base])) ;;
    ret base.

Definition airtableBaseRepository_GetByID (id : string) : M AirtableBase :=
  round_trip (SELECT_FIRST airtable_bases_t) ;;
  row <- read (fun s => head (filter (base_id_where id) (airtable_bases s))) ;;
  match row with
  | None => fail repositories_ErrAirtableBaseNotFound
  | Some base =>
      round_trip (SELECT_FIND projects_t) ;;
      round_trip (SELECT_FIND workspaces_t) ;;
      read (fun s => preload_Project s base)
  end.

Definition airtableBaseRepository_GetByProjectAndBaseID (projectID baseID : string)
  : M AirtableBase :=
  round_trip (SELECT_FIRST airtable_bases_t) ;;
  row <- read (fun s =>
    head (order_airtable_bases env "airtable_bases.id"
            (filter (fun b => AirtableBase_ProjectID b = projectID
                            ∧ AirtableBase_BaseID b = baseID
                            ∧ AirtableBase_DeletedAt b = None)
                    (airtable_bases s)))) ;;
  match row with
  | None => fail repositories_ErrAirtableBaseNotFound
  | Some base => ret base
  end.

Definition airtableBaseRepository_Update (base : AirtableBase) : M AirtableBase :=
  (if bool_decide (AirtableBase_ID base = "") then fail gorm_ErrMissingWhereClause
   else ret tt) ;;
  round_trip (UPDATE airtable_bases_t) ;;
  rowsAffected <- read (fun s => count_rows (filter (base_id_where (AirtableBase_ID base))
                                               (airtable_bases s))) ;;
  write (set_airtable_bases
           (fmap (fun row => if decide (base_id_where (AirtableBase_ID base) row)
                             then AirtableBase_Updates base row else row))) ;;
  if bool_decide (rowsAffected = 0) then fail repositories_ErrAirtableBaseNotFound
  else ret (AirtableBase_with_UpdatedAt (time_Now env) base).

Definition airtableBaseRepository_Delete (id : string) : M unit :=
  round_trip (DELETE airtable_bases_t) ;;
  rowsAffected <- read (fun s => count_rows (filter (base_id_where id) (airtable_bases s))) ;;
  write (set_airtable_bases
           (fmap (fun row => if decide (base_id_where id row)
                             then AirtableBase_with_DeletedAt (Some (time_Now env)) row
                             else row))) ;;
  if bool_decide (rowsAffected = 0) then fail repositories_ErrAirtableBaseNotFound
  else ret tt.

Definition base_filter_where (filter : AirtableBaseFilter) (b : AirtableBase) : Prop :=
  (AirtableBaseFilter_ProjectID filter = ""
   ∨ AirtableBase_ProjectID b = AirtableBaseFilter_ProjectID filter)
  ∧ (match AirtableBaseFilter_SyncEnabled filter with
     | None => True
     | Some v => AirtableBase_SyncEnabled b = v
     end)
  ∧ (AirtableBaseFilter_Search filter = ""
     ∨ (let search :=
          ("%" ++ strings_ToLower env (AirtableBaseFilter_Search filter) ++ "%")%string in
        sql_lower_like env (AirtableBase_Name b) search = true
        ∨ sql_lower_like env (AirtableBase_Description b) search = true
        ∨ sql_lower_like env (AirtableBase_BaseID b) search = true))
  ∧ AirtableBase_DeletedAt b = None.
#[global] Instance base_filter_where_dec f b : Decision (base_filter_where f b).
Proof. unfold base_filter_where. destruct (AirtableBaseFilter_SyncEnabled f); apply _. Defined.

Definition airtableBaseRepository_List (filter : AirtableBaseFilter)
  : M (list AirtableBase * Z) :=
  round_trip (SELECT_COUNT airtable_bases_t) ;;
  total <- read (fun s => count_rows (base.filter (base_filter_where filter) (airtable_bases s))) ;;
  let '(offset, pageSize) :=
    paging (AirtableBaseFilter_Page filter) (AirtableBaseFilter_PageSize filter) 20 in
  round_trip (SELECT_FIND airtable_bases_t) ;;
  round_trip (SELECT_FIND projects_t) ;;
  round_trip (SELECT_FIND workspaces_t) ;;
  rows <- read (fun s =>
    preload_Project s <$>
      gorm_Limit pageSize
        (gorm_Offset offset
           (order_airtable_bases env
              (order_clause (AirtableBaseFilter_SortBy filter)
                            (AirtableBaseFilter_SortOrder filter))
              (base.filter (base_filter_where filter) (airtable_bases s))))) ;;
  ret (rows, total).

Definition AirtableBase_with_LastSyncAt (t : option time_Time) (b : AirtableBase)
  : AirtableBase :=
  mkAirtableBase (AirtableBase_ID b) (AirtableBase_CreatedAt b) (AirtableBase_UpdatedAt b)
                 (AirtableBase_DeletedAt b) (AirtableBase_ProjectID b) (AirtableBase_BaseID b)
                 (AirtableBase_Name b) (AirtableBase_Description b) (AirtableBase_SyncEnabled b)
                 t (AirtableBase_Project b).

(** [Update] of one column also writes the update time. *)
Definition airtableBaseRepository_UpdateSyncTime (id : string) (syncTime : time_Time)
  : M unit :=
  round_trip (UPDATE airtable_bases_t) ;;
  rowsAffected <- read (fun s => count_rows (filter (base_id_where id) (airtable_bases s))) ;;
  write (set_airtable_bases
           (fmap (fun row => if decide (base_id_where id row)
                             then AirtableBase_with_UpdatedAt (time_Now env)
                                    (AirtableBase_with_LastSyncAt (Some syncTime) row)
                             else row))) ;;
  if bool_decide (rowsAffected = 0) then fail repositories_ErrAirtableBaseNotFound
  else ret tt.

(** *** repositories/audit_log_repository.go *)

Definition WorkspaceAuditLog_defaults (uuid : string) (l : WorkspaceAuditLog)
  : WorkspaceAuditLog :=
  mkWorkspaceAuditLog
    (if bool_decide (WorkspaceAuditLog_ID l = "") then uuid else WorkspaceAuditLog_ID l)
    (WorkspaceAuditLog_WorkspaceID l) (WorkspaceAuditLog_UserID l)
    (WorkspaceAuditLog_Action l) (WorkspaceAuditLog_ResourceType l)
    (WorkspaceAuditLog_ResourceID l) (WorkspaceAuditLog_Changes l)
    (if bool_decide (WorkspaceAuditLog_CreatedAt l = 0) then time_Now env
     else WorkspaceAuditLog_CreatedAt l).

Definition auditLogRepository_Create (log : WorkspaceAuditLog) : M WorkspaceAuditLog :=
  round_trip (INSERT workspace_audit_logs_t) ;;
  uuid <- read (fun s => gen_random_uuid env (uuid_seq s)) ;;
  (if bool_decide (WorkspaceAuditLog_ID log = "") then write next_uuid else ret tt) ;;
  let log := WorkspaceAuditLog_defaults uuid log in
  write (set_workspace_audit_logs (fun rows => rows ++ [log])) ;;
  ret log.

Definition audit_filter_where (filter : AuditLogFilter) (l : WorkspaceAuditLog) : Prop :=
  (AuditLogFilter_WorkspaceID filter = ""
   ∨ WorkspaceAuditLog_WorkspaceID l = AuditLogFilter_WorkspaceID filter)
  ∧ (AuditLogFilter_UserID filter = ""
     ∨ WorkspaceAuditLog_UserID l = AuditLogFilter_UserID filter)
  ∧ (AuditLogFilter_Action filter = ""
     ∨ WorkspaceAuditLog_Action l = AuditLogFilter_Action filter)
  ∧ (AuditLogFilter_ResourceType filter = ""
     ∨ WorkspaceAuditLog_ResourceType l = AuditLogFilter_ResourceType filter)
  ∧ (AuditLogFilter_ResourceID filter = ""
     ∨ WorkspaceAuditLog_ResourceID l = AuditLogFilter_ResourceID filter).
#[global] Instance audit_filter_where_dec f l : Decision (audit_filter_where f l).
Proof. unfold audit_filter_where. apply _. Defined.

Definition auditLogRepository_List (filter : AuditLogFilter)
  : M (list WorkspaceAuditLog * Z) :=
  round_trip (SELECT_COUNT workspace_audit_logs_t) ;;
  total <- read (fun s => count_rows (base.filter (audit_filter_where filter)
                                             (workspace_audit_logs s))) ;;
  let '(offset, pageSize) :=
    paging (AuditLogFilter_Page filter) (AuditLogFilter_PageSize filter) 50 in
  round_trip (SELECT_FIND workspace_audit_logs_t) ;;
  rows <- read (fun s =>
    gorm_Limit pageSize
      (gorm_Offset offset
         (order_workspace_audit_logs env
            (order_clause (AuditLogFilter_SortBy filter) (AuditLogFilter_SortOrder filter))
            (base.filter (audit_filter_where filter) (workspace_audit_logs s))))) ;;
  ret (rows, total).

(** [time.Time.AddDate] works on the calendar of the clock's time zone. *)
Context (time_AddDate : time_Time -> Z -> Z -> Z -> time_Time).

(** The audit entries have no [DeletedAt]: the rows are removed. *)
Definition auditLogRepository_DeleteOlderThan (days : Z) : M unit :=
  let cutoffDate := time_AddDate (time_Now env) 0 0 (int_wrap (- days)) in
  round_trip (DELETE workspace_audit_logs_t) ;;
  write (set_workspace_audit_logs
           (filter (fun l => ¬ WorkspaceAuditLog_CreatedAt l < cutoffDate))).

(** *** repositories/cache_repository.go *)

Definition workspaceCachePrefix : string := "workspace:".
Definition projectCachePrefix : string := "project:".
Definition userWorkspacePrefix : string := "user:workspaces:".

(** [json.Unmarshal] into a struct takes the members it knows from a JSON
    object and rejects a JSON array. *)
Definition json_Unmarshal_Workspace (b : Blob) : Result Workspace :=
  match b with
  | blob_Workspace w => Ok w
  | blob_Project p =>
      Ok (mkWorkspace (Project_ID p) (Project_CreatedAt p) (Project_UpdatedAt p)
                      (Project_DeletedAt p) "" (Project_Name p) (Project_Description p)
                      (Project_Settings p) (Project_CreatedBy p))
  | blob_strings _ => Err json_UnmarshalTypeError
  end.

Definition json_Unmarshal_Project (b : Blob) : Result Project :=
  match b with
  | blob_Project p => Ok p
  | blob_Workspace w =>
      Ok (mkProject (Workspace_ID w) (Workspace_CreatedAt w) (Workspace_UpdatedAt w)
                    (Workspace_DeletedAt w) "" (Workspace_Name w) (Workspace_Description w)
                    "" (Workspace_Settings w) (Workspace_CreatedBy w) None)
  | blob_strings _ => Err json_UnmarshalTypeError
  end.

Definition json_Unmarshal_strings (b : Blob) : Result (list string) :=
  match b with
  | blob_strings l => Ok l
  | _ => Err json_UnmarshalTypeError
  end.

Definition cacheRepository_SetWorkspace (workspace : Workspace) : M unit :=
  let key := (workspaceCachePrefix ++ Workspace_ID workspace)%string in
  round_trip REDIS_SET ;;
  write (set_redis (insert key (blob_Workspace workspace))).

(** A miss ([redis.Nil]) is [nil, nil]: [Ok None]. *)
Definition cacheRepository_GetWorkspace (id : string) : M (option Workspace) :=
  let key := (workspaceCachePrefix ++ id)%string in
  round_trip REDIS_GET ;;
  data <- read (fun s => redis s !! key) ;;
  match data with
  | None => ret None
  | Some data =>
      match json_Unmarshal_Workspace data with
      | Err e => fail e
      | Ok workspace => ret (Some workspace)
      end
  end.

Definition cacheRepository_DeleteWorkspace (id : string) : M unit :=
  let key := (workspaceCachePrefix ++ id)%string in
  round_trip REDIS_DEL ;;
  write (set_redis (delete key)).

Definition cacheRepository_SetProject (project : Project) : M unit :=
  let key := (projectCachePrefix ++ Project_ID project)%string in
  round_trip REDIS_SET ;;
  write (set_redis (insert key (blob_Project project))).

Definition cacheRepository_GetProject (id : string) : M (option Project) :=
  let key := (projectCachePrefix ++ id)%string in
  round_trip REDIS_GET ;;
  data <- read (fun s => redis s !! key) ;;
  match data with
  | None => ret None
  | Some data =>
      match json_Unmarshal_Project data with
      | Err e => fail e
      | Ok project => ret (Some project)
      end
  end.

Definition cacheRepository_DeleteProject (id : string) : M unit :=
  let key := (projectCachePrefix ++ id)%string in
  round_trip REDIS_DEL ;;
  write (set_redis (delete key)).

(** The body of the scan loop of [InvalidateWorkspaceCache], for one key:
    does the loop delete it? A failed [Get], a value that does not unmarshal
    and a failed [Del] all leave the key in place. *)
Definition scan_deletes (workspaceID : string) (entry : string * Blob) : bool :=
  String.prefix projectCachePrefix entry.1
  && negb (fails env REDIS_GET)
  && match json_Unmarshal_Project entry.2 with
     | Ok project => bool_decide (Project_WorkspaceID project = workspaceID)
     | Err _ => false
     end
  && negb (fails env REDIS_DEL).

Definition cacheRepository_InvalidateWorkspaceCache (workspaceID : string) : M unit :=
  cacheRepository_DeleteWorkspace workspaceID ;;
  (* a failed scan yields no key and is reported after the loop *)
  round_trip REDIS_SCAN ;;
  write (set_redis (filter (fun entry => scan_deletes workspaceID entry = false))).

Definition cacheRepository_SetUserWorkspaces (userID : string) (workspaceIDs : list string)
  : M unit :=
  let key := (userWorkspacePrefix ++ userID)%string in
  round_trip REDIS_SET ;;
  write (set_redis (insert key (blob_strings workspaceIDs))).

Definition cacheRepository_GetUserWorkspaces (userID : string) : M (option (list string)) :=
  let key := (userWorkspacePrefix ++ userID)%string in
  round_trip REDIS_GET ;;
  data <- read (fun s => redis s !! key) ;;
  match data with
  | None => ret None
  | Some data =>
      match json_Unmarshal_strings data with
      | Err e => fail e
      | Ok workspaceIDs => ret (Some workspaceIDs)
      end
  end.

Definition cacheRepository_InvalidateUserCache (userID : string) : M unit :=
  let key := (userWorkspacePrefix ++ userID)%string in
  round_trip REDIS_DEL ;;
  write (set_redis (delete key)).

(** The pipeline queues one [SET] per workspace and sends them in one round
    trip; an empty pipeline sends nothing. *)
Definition cacheRepository_WarmWorkspaceCache (workspaces : list Workspace) : M unit :=
  let pipe := (fun workspace =>
                 ((workspaceCachePrefix ++ Workspace_ID workspace)%string,
                  blob_Workspace workspace)) <$> workspaces in
  match pipe with
  | [] => ret tt
  | _ =>
      round_trip REDIS_SET ;;
      write (set_redis (fun m => foldl (fun m cmd => <[cmd.1 := cmd.2]> m) m pipe))
  end.



(** *** repositories/repositories.go: transactions

    [BeginTx] hands out a transaction handle. Only statements issued through
    the handle belong to the transaction; the repositories above all go
    through their own [r.db], outside of it. *)
Record Tx : Type := mkTx {
  Tx_Error : option error;
  Tx_statements : list (Store -> Store)
}.

Definition Repositories_BeginTx : M Tx :=
  fun s => if fails env TX_BEGIN then (Ok (mkTx (Some io_failure) []), s)
           else (Ok (mkTx None []), s).

(** Dropping the handle's statements leaves the committed tables as they are. *)
Definition Tx_Rollback (tx : Tx) : M unit := ret tt.

Definition Tx_Commit (tx : Tx) : M unit :=
  match Tx_Error tx with
  | Some _ => fail gorm_ErrInvalidTransaction
  | None =>
      round_trip TX_COMMIT ;;
      write (fun s => foldl (fun s statement => statement s) s (Tx_statements tx))
  end.

End Repositories.

(** ** Package services *)

Section Services.
Context (env : Env).

(** The page count every listing computes: [int(total) / pageSize], plus one
    when [int(total) % pageSize > 0]. Go's [/] and [%] truncate towards zero;
    a remainder leaves room for the increment, which therefore cannot wrap. *)
Definition totalPages_of (total pageSize : Z) : Z :=
  let totalPages := Z.quot total pageSize in
  if bool_decide (Z.rem total pageSize > 0) then totalPages + 1 else totalPages.

(** *** services/audit_service.go *)

Definition auditService_LogAction
    (workspaceID userID action resourceType resourceID : string) (changes : JSONMap)
  : M unit :=
  let log := mkWorkspaceAuditLog "" workspaceID userID action resourceType resourceID
                                 changes 0 in
  r <- catch (auditLogRepository_Create env log) ;;
  match r with
  | Err _ => ret tt (* the error is logged, not propagated *)
  | Ok _ => ret tt
  end.

Definition auditService_GetAuditLogs (filter : AuditLogFilter) (userID : string)
  : M AuditLogListResponse :=
  let list_logs : M AuditLogListResponse :=
    listed <- auditLogRepository_List env filter ;;
    let '(logs, total) := listed in
    let page := if bool_decide (AuditLogFilter_Page filter < 1) then 1
                else AuditLogFilter_Page filter in
    let pageSize := if bool_decide (AuditLogFilter_PageSize filter < 1) then 50
                    else AuditLogFilter_PageSize filter in
    ret (mkAuditLogListResponse logs total page pageSize (totalPages_of total pageSize)) in
  if bool_decide (AuditLogFilter_WorkspaceID filter ≠ "") then
    r <- catch (workspaceMemberRepository_GetByWorkspaceAndUser env
                  (AuditLogFilter_WorkspaceID filter) userID) ;;
    match r with
    | Err repositories_ErrMemberNotFound =>
        ret (mkAuditLogListResponse [] 0 1 (AuditLogFilter_PageSize filter) 0)
    | Err e => fail e
    | Ok member =>
        if negb (hasRequiredRole (WorkspaceMember_Role member) WorkspaceRoleAdmin)
        then fail services_ErrUnauthorized
        else list_logs
    end
  else list_logs.

Context (time_AddDate : time_Time -> Z -> Z -> Z -> time_Time).

Definition auditService_CleanupOldLogs (days : Z) : M unit :=
  let days := if bool_decide (days < 30) then 30 else days in
  auditLogRepository_DeleteOlderThan env time_AddDate days.

(** *** services/workspace_service.go *)

Definition maxWorkspacesPerTenant : Z := 10.

Definition Workspace_with_Name (name : string) (w : Workspace) : Workspace :=
  mkWorkspace (Workspace_ID w) (Workspace_CreatedAt w) (Workspace_UpdatedAt w)
              (Workspace_DeletedAt w) (Workspace_TenantID w) name (Workspace_Description w)
              (Workspace_Settings w) (Workspace_CreatedBy w).
Definition Workspace_with_Description (d : string) (w : Workspace) : Workspace :=
  mkWorkspace (Workspace_ID w) (Workspace_CreatedAt w) (Workspace_UpdatedAt w)
              (Workspace_DeletedAt w) (Workspace_TenantID w) (Workspace_Name w) d
              (Workspace_Settings w) (Workspace_CreatedBy w).
Definition Workspace_with_Settings (m : JSONMap) (w : Workspace) : Workspace :=
  mkWorkspace (Workspace_ID w) (Workspace_CreatedAt w) (Workspace_UpdatedAt w)
              (Workspace_DeletedAt w) (Workspace_TenantID w) (Workspace_Name w)
              (Workspace_Description w) m (Workspace_CreatedBy w).

Definition old_new (old new : JSON) : JSON := JObject [("old", old); ("new", new)].

Definition workspaceService_CheckUserAccess
    (workspaceID userID : string) (requiredRole : WorkspaceMemberRole) : M unit :=
  r <- catch (workspaceMemberRepository_GetByWorkspaceAndUser env workspaceID userID) ;;
  match r with
  | Err repositories_ErrMemberNotFound => fail services_ErrUnauthorized
  | Err e => fail e
  | Ok member =>
      if negb (hasRequiredRole (WorkspaceMember_Role member) requiredRole)
      then fail services_ErrUnauthorized
      else ret tt
  end.

(** The deferred [recover] only matters when a call panics, which no method
    of the model does. *)
Definition workspaceService_CreateWorkspace
    (tenantID userID : string) (req : CreateWorkspaceRequest) : M Workspace :=
  let filter := mkWorkspaceFilter tenantID "" "" 0 1 "" "" false in
  listed <- workspaceRepository_List env filter ;;
  let '(_, count) := listed in
  if bool_decide (count >= maxWorkspacesPerTenant) then fail services_ErrQuotaExceeded
  else
    let workspace :=
      mkWorkspace "" 0 0 None tenantID (CreateWorkspaceRequest_Name req)
                  (CreateWorkspaceRequest_Description req)
                  (CreateWorkspaceRequest_Settings req) userID in
    let workspace :=
      match Workspace_Settings workspace with
      | None => Workspace_with_Settings (Some []) workspace
      | Some _ => workspace
      end in
    tx <- Repositories_BeginTx env ;;
    r <- catch (workspaceRepository_Create env workspace) ;;
    match r with
    | Err e => Tx_Rollback tx ;; fail e
    | Ok workspace =>
        let member :=
          mkWorkspaceMember (Workspace_ID workspace) userID WorkspaceRoleOwner 0 in
        r <- catch (workspaceMemberRepository_Add env member) ;;
        match r with
        | Err e => Tx_Rollback tx ;; fail e
        | Ok _ =>
            Tx_Commit env tx ;;
            ignore (cacheRepository_SetWorkspace env workspace) ;;
            ignore (auditService_LogAction (Workspace_ID workspace) userID
                      "workspace.created" "workspace" (Workspace_ID workspace)
                      (Some [("name", JString (Workspace_Name workspace));
                             ("description", JString (Workspace_Description workspace));
                             ("tenant_id", JString (Workspace_TenantID workspace))])) ;;
            ret workspace
        end
    end.

Definition workspaceService_GetWorkspace (workspaceID userID : string) : M Workspace :=
  r <- catch (cacheRepository_GetWorkspace env workspaceID) ;;
  match r with
  | Ok (Some workspace) =>
      workspaceService_CheckUserAccess workspaceID userID WorkspaceRoleViewer ;;
      ret workspace
  | _ =>
      workspace <- workspaceRepository_GetByID env workspaceID ;;
      workspaceService_CheckUserAccess workspaceID userID WorkspaceRoleViewer ;;
      ignore (cacheRepository_SetWorkspace env workspace) ;;
      ret workspace
  end.

Definition workspaceService_UpdateWorkspace
    (workspaceID userID : string) (req : UpdateWorkspaceRequest) : M Workspace :=
  workspaceService_CheckUserAccess workspaceID userID WorkspaceRoleAdmin ;;
  workspace <- workspaceRepository_GetByID env workspaceID ;;
  let changes : list (string * JSON) := [] in
  let '(changes, workspace) :=
    match UpdateWorkspaceRequest_Name req with
    | Some name =>
        (changes ++ [("name", old_new (JString (Workspace_Name workspace)) (JString name))],
         Workspace_with_Name name workspace)
    | None => (changes, workspace)
    end in
  let '(changes, workspace) :=
    match UpdateWorkspaceRequest_Description req with
    | Some description =>
        (changes ++ [("description",
                      old_new (JString (Workspace_Description workspace))
                              (JString description))],
         Workspace_with_Description description workspace)
    | None => (changes, workspace)
    end in
  let '(changes, workspace) :=
    match UpdateWorkspaceRequest_Settings req with
    | Some settings =>
        (changes ++ [("settings",
                      old_new (json_of_map (Workspace_Settings workspace))
                              (json_of_map settings))],
         Workspace_with_Settings settings workspace)
    | None => (changes, workspace)
    end in
  workspace <- workspaceRepository_Update env workspace ;;
  ignore (cacheRepository_DeleteWorkspace env workspaceID) ;;
  (if bool_decide (count_rows changes > 0) then
     ignore (auditService_LogAction workspaceID userID "workspace.updated" "workspace"
               workspaceID (Some changes))
   else ret tt) ;;
  ret workspace.

Definition workspaceService_DeleteWorkspace (workspaceID userID : string) : M unit :=
  workspaceService_CheckUserAccess workspaceID userID WorkspaceRoleOwner ;;
  projectCount <- projectRepository_CountByWorkspace env workspaceID ;;
  if bool_decide (projectCount > 0)
  then fail (fmt_Errorf_d "cannot delete workspace with %d active projects" projectCount)
  else
    workspaceRepository_Delete env workspaceID ;;
    ignore (cacheRepository_InvalidateWorkspaceCache env workspaceID) ;;
    ignore (auditService_LogAction workspaceID userID "workspace.deleted" "workspace"
              workspaceID None) ;;
    ret tt.

(** The cached list of the user's workspaces is fetched, and nothing is done
    with it: the branch for a miss is empty. *)
Definition workspaceService_ListWorkspaces (filter : WorkspaceFilter) (userID : string)
  : M WorkspaceListResponse :=
  _ <- catch (cacheRepository_GetUserWorkspaces env userID) ;;
  listed <- workspaceRepository_List env filter ;;
  let '(workspaces, total) := listed in
  let page := if bool_decide (WorkspaceFilter_Page filter < 1) then 1
              else WorkspaceFilter_Page filter in
  let pageSize := if bool_decide (WorkspaceFilter_PageSize filter < 1) then 20
                  else WorkspaceFilter_PageSize filter in
  ret (mkWorkspaceListResponse workspaces total page pageSize (totalPages_of total pageSize)).

Definition workspaceService_GetWorkspaceStats (tenantID userID : string) : M WorkspaceStats :=
  workspaceRepository_GetStats env tenantID.

(** *** services/project_service.go *)

Definition maxProjectsPerWorkspace : Z := 50.

Definition Project_with_Name (name : string) (p : Project) : Project :=
  mkProject (Project_ID p) (Project_CreatedAt p) (Project_UpdatedAt p) (Project_DeletedAt p)
            (Project_WorkspaceID p) name (Project_Description p) (Project_Status p)
            (Project_Settings p) (Project_CreatedBy p) (Project_Workspace p).
Definition Project_with_Description (d : string) (p : Project) : Project :=
  mkProject (Project_ID p) (Project_CreatedAt p) (Project_UpdatedAt p) (Project_DeletedAt p)
            (Project_WorkspaceID p) (Project_Name p) d (Project_Status p)
            (Project_Settings p) (Project_CreatedBy p) (Project_Workspace p).
Definition Project_with_Status (st : string) (p : Project) : Project :=
  mkProject (Project_ID p) (Project_CreatedAt p) (Project_UpdatedAt p) (Project_DeletedAt p)
            (Project_WorkspaceID p) (Project_Name p) (Project_Description p) st
            (Project_Settings p) (Project_CreatedBy p) (Project_Workspace p).
Definition Project_with_Settings (m : JSONMap) (p : Project) : Project :=
  mkProject (Project_ID p) (Project_CreatedAt p) (Project_UpdatedAt p) (Project_DeletedAt p)
            (Project_WorkspaceID p) (Project_Name p) (Project_Description p) (Project_Status p)
            m (Project_CreatedBy p) (Project_Workspace p).

Definition projectService_checkProjectAccess
    (project : Project) (userID : string) (requiredRole : WorkspaceMemberRole) : M unit :=
  r <- catch (workspaceMemberRepository_GetByWorkspaceAndUser env
                (Project_WorkspaceID project) userID) ;;
  match r with
  | Err repositories_ErrMemberNotFound => fail services_ErrUnauthorized
  | Err e => fail e
  | Ok member =>
      if negb (hasRequiredRole (WorkspaceMember_Role member) requiredRole)
      then fail services_ErrUnauthorized
      else ret tt
  end.

Definition projectService_CreateProject
    (workspaceID userID : string) (req : CreateProjectRequest) : M Project :=
  workspace <- workspaceRepository_GetByID env workspaceID ;;
  r <- catch (workspaceMemberRepository_GetByWorkspaceAndUser env workspaceID userID) ;;
  match r with
  | Err repositories_ErrMemberNotFound => fail services_ErrUnauthorized
  | Err e => fail e
  | Ok member =>
      if negb (hasRequiredRole (WorkspaceMember_Role member) WorkspaceRoleMember)
      then fail services_ErrUnauthorized
      else
        projectCount <- projectRepository_CountByWorkspace env workspaceID ;;
        if bool_decide (projectCount >= maxProjectsPerWorkspace)
        then fail services_ErrQuotaExceeded
        else
          let project :=
            mkProject "" 0 0 None workspaceID (CreateProjectRequest_Name req)
                      (CreateProjectRequest_Description req) "active"
                      (CreateProjectRequest_Settings req) userID None in
          let project :=
            match Project_Settings project with
            | None => Project_with_Settings (Some []) project
            | Some _ => project
            end in
          project <- projectRepository_Create env project ;;
          let project := Project_with_Workspace (Some workspace) project in
          ignore (cacheRepository_SetProject env project) ;;
          ignore (auditService_LogAction workspaceID userID "project.created" "project"
                    (Project_ID project)
                    (Some [("name", JString (Project_Name project));
                           ("description", JString (Project_Description project));
                           ("workspace_id", JString workspaceID)])) ;;
          ret project
  end.

Definition projectService_GetProject (projectID userID : string) : M Project :=
  r <- catch (cacheRepository_GetProject env projectID) ;;
  match r with
  | Ok (Some project) =>
      projectService_checkProjectAccess project userID WorkspaceRoleViewer ;;
      ret project
  | _ =>
      project <- projectRepository_GetByID env projectID ;;
      projectService_checkProjectAccess project userID WorkspaceRoleViewer ;;
      ignore (cacheRepository_SetProject env project) ;;
      ret project
  end.

Definition validStatuses : list string := ["active"; "archived"].

Definition projectService_UpdateProject
    (projectID userID : string) (req : UpdateProjectRequest) : M Project :=
  project <- projectRepository_GetByID env projectID ;;
  projectService_checkProjectAccess project userID WorkspaceRoleMember ;;
  let changes : list (string * JSON) := [] in
  let '(changes, project) :=
    match UpdateProjectRequest_Name req with
    | Some name =>
        (changes ++ [("name", old_new (JString (Project_Name project)) (JString name))],
         Project_with_Name name project)
    | None => (changes, project)
    end in
  let '(changes, project) :=
    match UpdateProjectRequest_Description req with
    | Some description =>
        (changes ++ [("description",
                      old_new (JString (Project_Description project)) (JString description))],
         Project_with_Description description project)
    | None => (changes, project)
    end in
  let after_status (changes : list (string * JSON)) (project : Project) : M Project :=
    let '(changes, project) :=
      match UpdateProjectRequest_Settings req with
      | Some settings =>
          (changes ++ [("settings",
                        old_new (json_of_map (Project_Settings project))
                                (json_of_map settings))],
           Project_with_Settings settings project)
      | None => (changes, project)
      end in
    project <- projectRepository_Update env project ;;
    ignore (cacheRepository_DeleteProject env projectID) ;;
    (if bool_decide (count_rows changes > 0) then
       ignore (auditService_LogAction (Project_WorkspaceID project) userID "project.updated"
                 "project" projectID (Some changes))
     else ret tt) ;;
    ret project in
  match UpdateProjectRequest_Status req with
  | Some status =>
      let isValid := existsb (String.eqb status) validStatuses in
      if negb isValid then fail (fmt_Errorf_s "invalid status: %s" status)
      else
        after_status
          (changes ++ [("status", old_new (JString (Project_Status project)) (JString status))])
          (Project_with_Status status project)
  | None => after_status changes project
  end.

Definition projectService_DeleteProject (projectID userID : string) : M unit :=
  project <- projectRepository_GetByID env projectID ;;
  projectService_checkProjectAccess project userID WorkspaceRoleAdmin ;;
  let baseFilter := mkAirtableBaseFilter projectID None "" 0 1 "" "" in
  listed <- airtableBaseRepository_List env baseFilter ;;
  let '(_, baseCount) := listed in
  if bool_decide (baseCount > 0)
  then fail (fmt_Errorf_d "cannot delete project with %d connected Airtable bases" baseCount)
  else
    projectRepository_Delete env projectID ;;
    ignore (cacheRepository_DeleteProject env projectID) ;;
    ignore (auditService_LogAction (Project_WorkspaceID project) userID "project.deleted"
              "project" projectID (Some [("name", JString (Project_Name project))])) ;;
    ret tt.

Definition projectService_ListProjects (filter : ProjectFilter) (userID : string)
  : M ProjectListResponse :=
  let list_projects : M ProjectListResponse :=
    listed <- projectRepository_List env filter ;;
    let '(projects, total) := listed in
    let page := if bool_decide (ProjectFilter_Page filter < 1) then 1
                else ProjectFilter_Page filter in
    let pageSize := if bool_decide (ProjectFilter_PageSize filter < 1) then 20
                    else ProjectFilter_PageSize filter in
    ret (mkProjectListResponse projects total page pageSize (totalPages_of total pageSize)) in
  if bool_decide (ProjectFilter_WorkspaceID filter ≠ "") then
    r <- catch (workspaceMemberRepository_GetByWorkspaceAndUser env
                  (ProjectFilter_WorkspaceID filter) userID) ;;
    match r with
    | Err repositories_ErrMemberNotFound =>
        ret (mkProjectListResponse [] 0 1 (ProjectFilter_PageSize filter) 0)
    | Err e => fail e
    | Ok member =>
        if negb (hasRequiredRole (WorkspaceMember_Role member) WorkspaceRoleViewer)
        then fail services_ErrUnauthorized
        else list_projects
    end
  else list_projects.

(** *** services/member_service.go *)

Definition memberService_AddMember
    (workspaceID userID : string) (req : AddWorkspaceMemberRequest) : M WorkspaceMember :=
  r <- catch (workspaceMemberRepository_GetByWorkspaceAndUser env workspaceID userID) ;;
  match r with
  | Err repositories_ErrMemberNotFound => fail services_ErrUnauthorized
  | Err e => fail e
  | Ok requesterMember =>
      if negb (hasRequiredRole (WorkspaceMember_Role requesterMember) WorkspaceRoleAdmin)
      then fail services_ErrUnauthorized
      else if bool_decide (AddWorkspaceMemberRequest_Role req = WorkspaceRoleOwner)
              && bool_decide (WorkspaceMember_Role requesterMember ≠ WorkspaceRoleOwner)
      then fail services_ErrUnauthorized
      else
        let member :=
          mkWorkspaceMember workspaceID (AddWorkspaceMemberRequest_UserID req)
                            (AddWorkspaceMemberRequest_Role req) 0 in
        member <- workspaceMemberRepository_Add env member ;;
        ignore (cacheRepository_InvalidateUserCache env (AddWorkspaceMemberRequest_UserID req)) ;;
        ignore (auditService_LogAction workspaceID userID "member.added" "workspace_member"
                  (AddWorkspaceMemberRequest_UserID req)
                  (Some [("user_id", JString (AddWorkspaceMemberRequest_UserID req));
                         ("role", JString (AddWorkspaceMemberRequest_Role req))])) ;;
        ret member
  end.

Definition memberService_UpdateMemberRole
    (workspaceID memberUserID userID : string) (req : UpdateWorkspaceMemberRequest) : M unit :=
  r <- catch (workspaceMemberRepository_GetByWorkspaceAndUser env workspaceID userID) ;;
  match r with
  | Err repositories_ErrMemberNotFound => fail services_ErrUnauthorized
  | Err e => fail e
  | Ok requesterMember =>
      if negb (hasRequiredRole (WorkspaceMember_Role requesterMember) WorkspaceRoleAdmin)
      then fail services_ErrUnauthorized
      else
        targetMember <- workspaceMemberRepository_GetByWorkspaceAndUser env
                          workspaceID memberUserID ;;
        if bool_decide (WorkspaceMember_Role targetMember = WorkspaceRoleOwner)
           && bool_decide (WorkspaceMember_Role requesterMember ≠ WorkspaceRoleOwner)
        then fail services_ErrUnauthorized
        else if bool_decide (UpdateWorkspaceMemberRequest_Role req = WorkspaceRoleOwner)
                && bool_decide (WorkspaceMember_Role requesterMember ≠ WorkspaceRoleOwner)
        then fail services_ErrUnauthorized
        else
          (if bool_decide (userID = memberUserID)
              && bool_decide (WorkspaceMember_Role targetMember = WorkspaceRoleOwner)
              && bool_decide (UpdateWorkspaceMemberRequest_Role req ≠ WorkspaceRoleOwner)
           then
             isLastOwner <- workspaceMemberRepository_IsLastOwner env workspaceID userID ;;
             if isLastOwner : bool then fail repositories_ErrLastOwner else ret tt
           else ret tt) ;;
          let oldRole := WorkspaceMember_Role targetMember in
          workspaceMemberRepository_UpdateRole env workspaceID memberUserID
            (UpdateWorkspaceMemberRequest_Role req) ;;
          ignore (cacheRepository_InvalidateUserCache env memberUserID) ;;
          ignore (auditService_LogAction workspaceID userID "member.role_updated"
                    "workspace_member" memberUserID
                    (Some [("user_id", JString memberUserID);
                           ("old_role", JString oldRole);
                           ("new_role", JString (UpdateWorkspaceMemberRequest_Role req))])) ;;
          ret tt
  end.

Definition memberService_RemoveMember (workspaceID memberUserID userID : string) : M unit :=
  r <- catch (workspaceMemberRepository_GetByWorkspaceAndUser env workspaceID userID) ;;
  match r with
  | Err repositories_ErrMemberNotFound => fail services_ErrUnauthorized
  | Err e => fail e
  | Ok requesterMember =>
      targetMember <- workspaceMemberRepository_GetByWorkspaceAndUser env
                        workspaceID memberUserID ;;
      (if bool_decide (userID ≠ memberUserID) then
         if negb (hasRequiredRole (WorkspaceMember_Role requesterMember) WorkspaceRoleAdmin)
         then fail services_ErrUnauthorized
         else if bool_decide (WorkspaceMember_Role targetMember = WorkspaceRoleOwner)
                 && bool_decide (WorkspaceMember_Role requesterMember ≠ WorkspaceRoleOwner)
         then fail services_ErrUnauthorized
         else ret tt
       else ret tt) ;;
      workspaceMemberRepository_Remove env workspaceID memberUserID ;;
      ignore (cacheRepository_InvalidateUserCache env memberUserID) ;;
      ignore (auditService_LogAction workspaceID userID "member.removed" "workspace_member"
                memberUserID
                (Some [("user_id", JString memberUserID);
                       ("role", JString (WorkspaceMember_Role targetMember))])) ;;
      ret tt
  end.

Definition memberService_ListMembers (workspaceID userID : string) (page pageSize : Z)
  : M WorkspaceMemberListResponse :=
  r <- catch (workspaceMemberRepository_GetByWorkspaceAndUser env workspaceID userID) ;;
  match r with
  | Err repositories_ErrMemberNotFound =>
      ret (mkWorkspaceMemberListResponse [] 0 page pageSize 0)
  | Err e => fail e
  | Ok member =>
      if negb (hasRequiredRole (WorkspaceMember_Role member) WorkspaceRoleViewer)
      then fail services_ErrUnauthorized
      else
        listed <- workspaceMemberRepository_List env workspaceID page pageSize ;;
        let '(members, total) := listed in
        let page := if bool_decide (page < 1) then 1 else page in
        let pageSize := if bool_decide (pageSize < 1) then 20 else pageSize in
        ret (mkWorkspaceMemberListResponse members total page pageSize
               (totalPages_of total pageSize))
  end.

(** The loop over the cached IDs: a workspace that cannot be loaded is left
    out. *)
Fixpoint load_workspaces (workspaceIDs : list string) (workspaces : list Workspace)
  : M (list Workspace) :=
  match workspaceIDs with
  | [] => ret workspaces
  | id :: workspaceIDs =>
      r <- catch (workspaceRepository_GetByID env id) ;;
      match r with
      | Ok workspace => load_workspaces workspaceIDs (workspaces ++ [workspace])
      | Err _ => load_workspaces workspaceIDs workspaces
      end
  end.

(** The loop over the listed workspaces: a workspace is kept when the lookup
    of the user's membership returns no error. *)
Fixpoint member_workspaces (userID : string) (allWorkspaces : list Workspace)
    (userWorkspaces : list Workspace) (workspaceIDs : list string)
  : M (list Workspace * list string) :=
  match allWorkspaces with
  | [] => ret (userWorkspaces, workspaceIDs)
  | workspace :: allWorkspaces =>
      r <- catch (workspaceMemberRepository_GetByWorkspaceAndUser env
                    (Workspace_ID workspace) userID) ;;
      match r with
      | Ok _ =>
          member_workspaces userID allWorkspaces (userWorkspaces ++ [workspace])
                            (workspaceIDs ++ [Workspace_ID workspace])
      | Err _ => member_workspaces userID allWorkspaces userWorkspaces workspaceIDs
      end
  end.

Definition memberService_GetUserWorkspaces (userID : string) : M (list Workspace) :=
  r <- catch (cacheRepository_GetUserWorkspaces env userID) ;;
  match r with
  | Ok (Some workspaceIDs) => load_workspaces workspaceIDs []
  | _ =>
      let filter := mkWorkspaceFilter "" "" "" 0 100 "" "" false in
      listed <- workspaceRepository_List env filter ;;
      let '(allWorkspaces, _) := listed in
      found <- member_workspaces userID allWorkspaces [] [] ;;
      let '(userWorkspaces, workspaceIDs) := found in
      (if bool_decide (count_rows workspaceIDs > 0) then
         ignore (cacheRepository_SetUserWorkspaces env userID workspaceIDs)
       else ret tt) ;;
      ret userWorkspaces
  end.

(** *** services/airtable_base_service.go *)

Definition AirtableBase_with_Name (name : string) (b : AirtableBase) : AirtableBase :=
  mkAirtableBase (AirtableBase_ID b) (AirtableBase_CreatedAt b) (AirtableBase_UpdatedAt b)
                 (AirtableBase_DeletedAt b) (AirtableBase_ProjectID b) (AirtableBase_BaseID b)
                 name (AirtableBase_Description b) (AirtableBase_SyncEnabled b)
                 (AirtableBase_LastSyncAt b) (AirtableBase_Project b).
Definition AirtableBase_with_Description (d : string) (b : AirtableBase) : AirtableBase :=
  mkAirtableBase (AirtableBase_ID b) (AirtableBase_CreatedAt b) (AirtableBase_UpdatedAt b)
                 (AirtableBase_DeletedAt b) (AirtableBase_ProjectID b) (AirtableBase_BaseID b)
                 (AirtableBase_Name b) d (AirtableBase_SyncEnabled b)
                 (AirtableBase_LastSyncAt b) (AirtableBase_Project b).
Definition AirtableBase_with_SyncEnabled (v : bool) (b : AirtableBase) : AirtableBase :=
  mkAirtableBase (AirtableBase_ID b) (AirtableBase_CreatedAt b) (AirtableBase_UpdatedAt b)
                 (AirtableBase_DeletedAt b) (AirtableBase_ProjectID b) (AirtableBase_BaseID b)
                 (AirtableBase_Name b) (AirtableBase_Description b) v
                 (AirtableBase_LastSyncAt b) (AirtableBase_Project b).

Definition airtableBaseService_checkProjectAccess
    (project : Project) (userID : string) (requiredRole : WorkspaceMemberRole) : M unit :=
  r <- catch (workspaceMemberRepository_GetByWorkspaceAndUser env
                (Project_WorkspaceID project) userID) ;;
  match r with
  | Err repositories_ErrMemberNotFound => fail services_ErrUnauthorized
  | Err e => fail e
  | Ok member =>
      if negb (hasRequiredRole (WorkspaceMember_Role member) requiredRole)
      then fail services_ErrUnauthorized
      else ret tt
  end.

Definition airtableBaseService_ConnectBase
    (projectID userID : string) (req : CreateAirtableBaseRequest) : M AirtableBase :=
  project <- projectRepository_GetByID env projectID ;;
  airtableBaseService_checkProjectAccess project userID WorkspaceRoleMember ;;
  let base :=
    mkAirtableBase "" 0 0 None projectID (CreateAirtableBaseRequest_BaseID req)
                   (CreateAirtableBaseRequest_Name req)
                   (CreateAirtableBaseRequest_Description req)
                   (CreateAirtableBaseRequest_SyncEnabled req) None None in
  base <- airtableBaseRepository_Create env base ;;
  let base := AirtableBase_with_Project (Some project) base in
  ignore (auditService_LogAction (Project_WorkspaceID project) userID
            "airtable_base.connected" "airtable_base" (AirtableBase_ID base)
            (Some [("base_id", JString (CreateAirtableBaseRequest_BaseID req));
                   ("name", JString (CreateAirtableBaseRequest_Name req));
                   ("project_id", JString projectID);
                   ("sync_enabled", JBool (CreateAirtableBaseRequest_SyncEnabled req))])) ;;
  ret base.

(** The shared opening of [UpdateBase] and [DisconnectBase]: the base with
    its project, loaded when the preload left it nil. *)
Definition load_base_project (baseID : string) : M (AirtableBase * Project) :=
  base <- airtableBaseRepository_GetByID env baseID ;;
  match AirtableBase_Project base with
  | None =>
      project <- projectRepository_GetByID env (AirtableBase_ProjectID base) ;;
      ret (AirtableBase_with_Project (Some project) base, project)
  | Some project => ret (base, project)
  end.

Definition airtableBaseService_UpdateBase
    (baseID userID : string) (req : UpdateAirtableBaseRequest) : M AirtableBase :=
  loaded <- load_base_project baseID ;;
  let '(base, base_Project) := loaded in
  airtableBaseService_checkProjectAccess base_Project userID WorkspaceRoleMember ;;
  let changes : list (string * JSON) := [] in
  let '(changes, base) :=
    match UpdateAirtableBaseRequest_Name req with
    | Some name =>
        (changes ++ [("name", old_new (JString (AirtableBase_Name base)) (JString name))],
         AirtableBase_with_Name name base)
    | None => (changes, base)
    end in
  let '(changes, base) :=
    match UpdateAirtableBaseRequest_Description req with
    | Some description =>
        (changes ++ [("description",
                      old_new (JString (AirtableBase_Description base))
                              (JString description))],
         AirtableBase_with_Description description base)
    | None => (changes, base)
    end in
  let '(changes, base) :=
    match UpdateAirtableBaseRequest_SyncEnabled req with
    | Some syncEnabled =>
        (changes ++ [("sync_enabled",
                      old_new (JBool (AirtableBase_SyncEnabled base)) (JBool syncEnabled))],
         AirtableBase_with_SyncEnabled syncEnabled base)
    | None => (changes, base)
    end in
  base <- airtableBaseRepository_Update env base ;;
  (if bool_decide (count_rows changes > 0) then
     ignore (auditService_LogAction (Project_WorkspaceID base_Project) userID
               "airtable_base.updated" "airtable_base" baseID (Some changes))
   else ret tt) ;;
  ret base.

Definition airtableBaseService_DisconnectBase (baseID userID : string) : M unit :=
  loaded <- load_base_project baseID ;;
  let '(base, base_Project) := loaded in
  airtableBaseService_checkProjectAccess base_Project userID WorkspaceRoleAdmin ;;
  airtableBaseRepository_Delete env baseID ;;
  ignore (auditService_LogAction (Project_WorkspaceID base_Project) userID
            "airtable_base.disconnected" "airtable_base" baseID
            (Some [("base_id", JString (AirtableBase_BaseID base));
                   ("name", JString (AirtableBase_Name base))])) ;;
  ret tt.

Definition airtableBaseService_GetBase (baseID userID : string) : M AirtableBase :=
  loaded <- load_base_project baseID ;;
  let '(base, base_Project) := loaded in
  airtableBaseService_checkProjectAccess base_Project userID WorkspaceRoleViewer ;;
  ret base.

(** Whatever error the access check returns, the answer is an empty page. *)
Definition airtableBaseService_ListBases (filter : AirtableBaseFilter) (userID : string)
  : M AirtableBaseListResponse :=
  let list_bases : M AirtableBaseListResponse :=
    listed <- airtableBaseRepository_List env filter ;;
    let '(bases, total) := listed in
    let page := if bool_decide (AirtableBaseFilter_Page filter < 1) then 1
                else AirtableBaseFilter_Page filter in
    let pageSize := if bool_decide (AirtableBaseFilter_PageSize filter < 1) then 20
                    else AirtableBaseFilter_PageSize filter in
    ret (mkAirtableBaseListResponse bases total page pageSize (totalPages_of total pageSize)) in
  if bool_decide (AirtableBaseFilter_ProjectID filter ≠ "") then
    project <- projectRepository_GetByID env (AirtableBaseFilter_ProjectID filter) ;;
    r <- catch (airtableBaseService_checkProjectAccess project userID WorkspaceRoleViewer) ;;
    match r with
    | Err _ => ret (mkAirtableBaseListResponse [] 0 1 (AirtableBaseFilter_PageSize filter) 0)
    | Ok _ => list_bases
    end
  else list_bases.

Definition airtableBaseService_UpdateSyncStatus (baseID : string) : M unit :=
  let now := time_Now env in
  airtableBaseRepository_UpdateSyncTime env baseID now.

End Services.

(** ** Package handlers *)

Definition fiber_StatusOK : Z := 200.
Definition fiber_StatusNoContent : Z := 204.
Definition fiber_StatusBadRequest : Z := 400.
Definition fiber_StatusUnauthorized : Z := 401.
Definition fiber_StatusForbidden : Z := 403.
Definition fiber_StatusNotFound : Z := 404.
Definition fiber_StatusInternalServerError : Z := 500.

(** What a handler reads of the request: the locals set by the middleware
    (strings, as [getUserID] asserts) and the route parameters. *)
Record fiber_Ctx : Type := mkCtx {
  Ctx_Locals : gmap string string;
  Ctx_Params : gmap string string;
}.

Inductive Body : Type :=
| body_Map (m : list (string * JSON))
| body_Workspace (w : Workspace)
| body_WorkspaceStats (stats : WorkspaceStats)
| body_empty.

Record Response : Type := mkResponse {
  Response_Status : Z;
  Response_Body : Body;
}.

(** [c.Params] gives the empty string for a parameter the route has not. *)
Definition c_Params (c : fiber_Ctx) (key : string) : string :=
  default "" (Ctx_Params c !! key).

Section Handlers.
Context (env : Env).

Definition Handlers_getUserID (c : fiber_Ctx) : string :=
  match Ctx_Locals c !! "user_id" with
  | None => ""
  | Some userID => userID
  end.

Definition Handlers_getTenantID (c : fiber_Ctx) : string :=
  match Ctx_Locals c !! "tenant_id" with
  | None => ""
  | Some tenantID => tenantID
  end.

Definition Handlers_handleError (err : error) : Response :=
  match err with
  | services_ErrWorkspaceNotFound =>
      mkResponse fiber_StatusNotFound (body_Map [("error", JString "Workspace not found")])
  | services_ErrProjectNotFound =>
      mkResponse fiber_StatusNotFound (body_Map [("error", JString "Project not found")])
  | services_ErrAirtableBaseNotFound =>
      mkResponse fiber_StatusNotFound (body_Map [("error", JString "Airtable base not found")])
  | services_ErrUnauthorized =>
      mkResponse fiber_StatusForbidden (body_Map [("error", JString "Unauthorized")])
  | services_ErrQuotaExceeded =>
      mkResponse fiber_StatusForbidden (body_Map [("error", JString "Quota exceeded")])
  | services_ErrInvalidInput =>
      mkResponse fiber_StatusBadRequest (body_Map [("error", JString "Invalid input")])
  | _ =>
      mkResponse fiber_StatusInternalServerError
                 (body_Map [("error", JString "Internal server error")])
  end.

Definition Handlers_GetWorkspace (c : fiber_Ctx) : M Response :=
  let workspaceID := c_Params c "id" in
  let userID := Handlers_getUserID c in
  if bool_decide (userID = "") then
    ret (mkResponse fiber_StatusUnauthorized
                    (body_Map [("error", JString "Missing authentication")]))
  else
    r <- catch (workspaceService_GetWorkspace env workspaceID userID) ;;
    match r with
    | Err err => ret (Handlers_handleError err)
    | Ok workspace => ret (mkResponse fiber_StatusOK (body_Workspace workspace))
    end.

Definition Handlers_DeleteWorkspace (c : fiber_Ctx) : M Response :=
  let workspaceID := c_Params c "id" in
  let userID := Handlers_getUserID c in
  if bool_decide (userID = "") then
    ret (mkResponse fiber_StatusUnauthorized
                    (body_Map [("error", JString "Missing authentication")]))
  else
    r <- catch (workspaceService_DeleteWorkspace env workspaceID userID) ;;
    match r with
    | Err err => ret (Handlers_handleError err)
    | Ok _ => ret (mkResponse fiber_StatusNoContent body_empty)
    end.

Definition Handlers_GetWorkspaceStats (c : fiber_Ctx) : M Response :=
  let tenantID := Handlers_getTenantID c in
  let userID := Handlers_getUserID c in
  if bool_decide (tenantID = "") || bool_decide (userID = "") then
    ret (mkResponse fiber_StatusUnauthorized
                    (body_Map [("error", JString "Missing authentication context")]))
  else
    r <- catch (workspaceService_GetWorkspaceStats env tenantID userID) ;;
    match r with
    | Err err => ret (Handlers_handleError err)
    | Ok stats => ret (mkResponse fiber_StatusOK (body_WorkspaceStats stats))
    end.

End Handlers.

(** ** Vocabulary of the specification *)

(** The closed role enum and its ranks (spec 4.1). *)
Inductive Role : Type := Owner | Admin | Member | Viewer.

Definition role_name (r : Role) : WorkspaceMemberRole :=
  match r with
  | Owner => WorkspaceRoleOwner
  | Admin => WorkspaceRoleAdmin
  | Member => WorkspaceRoleMember
  | Viewer => WorkspaceRoleViewer
  end.

Definition rank (r : Role) : Z :=
  match r with
  | Owner => 4
  | Admin => 3
  | Member => 2
  | Viewer => 1
  end.

Definition is_role (s : string) : Prop := ∃ r, s = role_name r.

(** The primary key of [workspace_members]: one row per user per workspace. *)
Definition member_key (m : WorkspaceMember) : string * string :=
  (WorkspaceMember_WorkspaceID m, WorkspaceMember_UserID m).

Definition members_primary_key (s : Store) : Prop :=
  NoDup (member_key <$> workspace_members s).

(** The caller has no membership row in the workspace. *)
Definition non_member (s : Store) (workspaceID userID : string) : Prop :=
  ∀ m, m ∈ workspace_members s → ¬ member_where workspaceID userID m.

(** The caller's membership row, with a role of at least [required]. *)
Definition member_with_role (s : Store) (workspaceID userID : string)
    (required : WorkspaceMemberRole) : Prop :=
  ∃ m, head (filter (member_where workspaceID userID) (workspace_members s)) = Some m
       ∧ hasRequiredRole (WorkspaceMember_Role m) required = true.

(** The workspace can be served: from the cache, or from its live row. *)
Definition workspace_cached (env : Env) (s : Store) (workspaceID : string) : Prop :=
  fails env REDIS_GET = false
  ∧ ∃ blob w, redis s !! (workspaceCachePrefix ++ workspaceID)%string = Some blob
              ∧ json_Unmarshal_Workspace blob = Ok w.

Definition workspace_stored (env : Env) (s : Store) (workspaceID : string) : Prop :=
  fails env (SELECT_FIRST workspaces_t) = false
  ∧ ∃ w, w ∈ workspaces s ∧ workspace_id_where workspaceID w.

(** The round trips that answer during the request. *)
Definition members_reachable (env : Env) : Prop :=
  fails env (SELECT_FIRST workspace_members_t) = false
  ∧ fails env (SELECT_COUNT workspace_members_t) = false
  ∧ fails env (SELECT_FIND workspace_members_t) = false.

Definition database_reachable (env : Env) : Prop :=
  (∀ t, fails env (SELECT_COUNT t) = false)
  ∧ (∀ t, fails env (SELECT_FIRST t) = false)
  ∧ (∀ t, fails env (SELECT_FIND t) = false)
  ∧ (∀ t, fails env (INSERT t) = false)
  ∧ (∀ t, fails env (UPDATE t) = false)
  ∧ (∀ t, fails env (DELETE t) = false)
  ∧ fails env TX_BEGIN = false
  ∧ fails env TX_COMMIT = false.

(** The database answers, the audit-log table apart. *)
Definition database_reachable_but_audit (env : Env) : Prop :=
  (∀ t, fails env (SELECT_COUNT t) = false)
  ∧ (∀ t, fails env (SELECT_FIRST t) = false)
  ∧ (∀ t, fails env (SELECT_FIND t) = false)
  ∧ (∀ t, t ≠ workspace_audit_logs_t → fails env (INSERT t) = false).

(** The rows a quota or a delete guard counts. *)
Definition tenant_workspaces (s : Store) (tenantID : string) : list Workspace :=
  filter (fun w => Workspace_TenantID w = tenantID ∧ Workspace_DeletedAt w = None)
         (workspaces s).

Definition workspace_projects (s : Store) (workspaceID : string) : list Project :=
  filter (project_workspace_where workspaceID) (projects s).

Definition project_connections (s : Store) (projectID : string) : list AirtableBase :=
  filter (fun b => AirtableBase_ProjectID b = projectID ∧ AirtableBase_DeletedAt b = None)
         (airtable_bases s).

(** The same request with the outcome of its audit-log write fixed. *)
Definition with_audit_write (failing : bool) (env : Env) : Env :=
  mkEnv (fun c => match c with
                  | INSERT workspace_audit_logs_t => failing
                  | _ => fails env c
                  end)
        (gen_random_uuid env) (time_Now env) (strings_ToLower env) (strings_ToUpper env)
        (sql_lower_like env) (order_workspaces env) (order_projects env)
        (order_airtable_bases env) (order_workspace_members env)
        (order_workspace_audit_logs env).

(** What a request leaves behind, the audit trail apart. *)
Definition persisted (s : Store)
  : list Workspace * list Project * list AirtableBase * list WorkspaceMember
    * gmap string Blob :=
  (workspaces s, projects s, airtable_bases s, workspace_members s, redis s).

Definition same_outcome {A} (x y : Result A * Store) : Prop :=
  x.1 = y.1 ∧ persisted x.2 = persisted y.2.

(** A service method whose result and effect do not depend on whether its
    audit-log write goes through. *)
Definition audit_independent {A} (op : Env → M A) : Prop :=
  ∀ env failing s, same_outcome (op (with_audit_write failing env) s) (op env s).

(** What may happen to a store after a mutation while no other mutation is
    made: workspaces are read, by anyone and under any faults, and cache
    entries expire. *)
Inductive read_only_step : Store → Store → Prop :=
| step_GetWorkspace env workspaceID userID s r s' :
    workspaceService_GetWorkspace env workspaceID userID s = (r, s') →
    read_only_step s s'
| step_expire key s :
    read_only_step s (set_redis (delete key) s).

Inductive later : Store → Store → Prop :=
| later_now s : later s s
| later_step s1 s2 s3 : later s1 s2 → read_only_step s2 s3 → later s1 s3.

(** Every way to read workspace [workspaceID], from the store or from the
    cache, yields the name [name], and the store has a live row for it. *)
Definition workspace_named (workspaceID name : string) (s : Store) : Prop :=
  (∀ row, row ∈ workspaces s → workspace_id_where workspaceID row →
          Workspace_Name row = name)
  ∧ (∀ blob w, redis s !! (workspaceCachePrefix ++ workspaceID)%string = Some blob →
               json_Unmarshal_Workspace blob = Ok w → Workspace_Name w = name)
  ∧ (∃ row, row ∈ workspaces s ∧ workspace_id_where workspaceID row).

(** The page of members the repository query returns for a page size of 100. *)
Definition members_page_of_100 (env : Env) (s : Store) (workspaceID : string) (page : Z)
  : list WorkspaceMember :=
  let page := if bool_decide (page < 1) then 1 else page in
  gorm_Limit 100
    (gorm_Offset (int_wrap ((page - 1) * 100))
       (order_workspace_members env "joined_at DESC"
          (filter (fun m => WorkspaceMember_WorkspaceID m = workspaceID)
                  (workspace_members s)))).

(** The workspace has a member with the owner role. *)
Definition has_owner (s : Store) (workspaceID : string) : Prop :=
  ∃ m, m ∈ workspace_members s ∧ owner_where workspaceID m.

(** The owner rows of a workspace, in table order. *)
Definition workspace_owners (s : Store) (workspaceID : string) : list WorkspaceMember :=
  filter (owner_where workspaceID) (workspace_members s).

(** The caller's membership row, if there is one, does not hold the owner
    role. *)
Definition not_an_owner (s : Store) (workspaceID userID : string) : Prop :=
  ∀ m, head (filter (member_where workspaceID userID) (workspace_members s)) = Some m →
       WorkspaceMember_Role m ≠ WorkspaceRoleOwner.

(** A computation that leaves the audit trail as it is. *)
Definition silent {A} (c : M A) : Prop :=
  ∀ s r s', c s = (r, s') → workspace_audit_logs s' = workspace_audit_logs s.

(** A computation that appends at most one entry to the audit trail, in the
    caller's name, and none when it returns an error. *)
Definition audited_once {A} (userID : string) (c : M A) : Prop :=
  ∀ s r s', c s = (r, s') →
    workspace_audit_logs s' = workspace_audit_logs s
    ∨ ∃ a entry, r = Ok a
                 ∧ workspace_audit_logs s' = workspace_audit_logs s ++ [entry]
                 ∧ WorkspaceAuditLog_UserID entry = userID.

(** The audit entries created at or after [since]. *)
Definition entries_since (since : time_Time) (s : Store) : list WorkspaceAuditLog :=
  filter (fun l => since <= WorkspaceAuditLog_CreatedAt l) (workspace_audit_logs s).

(** A number of days that fits Go's [int]. *)
Definition is_int (z : Z) : Prop := - 2 ^ 63 <= z < 2 ^ 63.

(** The sum of the counts of a map such as [ProjectsByStatus]. *)
Definition sum_of_counts (m : gmap string Z) : Z :=
  map_fold (fun _ n acc => n + acc) 0 m.

(** The primary key of [workspaces]. *)
Definition workspaces_primary_key (s : Store) : Prop :=
  NoDup (Workspace_ID <$> workspaces s).

(** The user has a membership row in the workspace. *)
Definition has_membership (s : Store) (userID : string) (w : Workspace) : Prop :=
  is_Some (head (filter (member_where (Workspace_ID w) userID) (workspace_members s))).
#[global] Instance has_membership_dec s u w : Decision (has_membership s u w).
Proof. unfold has_membership. apply _. Defined.

(** The workspaces [GetUserWorkspaces] searches on a cache miss: the
    hundred live workspaces created last, of every tenant. *)
Definition newest_hundred (env : Env) (s : Store) : list Workspace :=
  take 100 (order_workspaces env "created_at DESC"
              (filter (fun w => Workspace_DeletedAt w = None) (workspaces s))).

(** The tables of the database. *)
Definition durable (s : Store)
  : list Workspace * list Project * list AirtableBase * list WorkspaceMember
    * list WorkspaceAuditLog :=
  (workspaces s, projects s, airtable_bases s, workspace_members s, workspace_audit_logs s).

(** A computation that leaves a part of the store as it is, whatever it
    returns. *)
Definition keeps {A B} (part : Store → B) (c : M A) : Prop :=
  ∀ s r s', c s = (r, s') → part s' = part s.

(** The empty page the listings answer with when the caller has no access. *)
Definition no_bases (filter : AirtableBaseFilter) : AirtableBaseListResponse :=
  mkAirtableBaseListResponse [] 0 1 (AirtableBaseFilter_PageSize filter) 0.

(** A computation that leaves the rows of a table that are [frozen] where
    they are and as they are. *)
Definition keeps_rows {A R} (table : Store → list R) (frozen : R → Prop) (c : M A) : Prop :=
  ∀ s r s' i row,
    c s = (r, s') → table s !! i = Some row → frozen row → table s' !! i = Some row.

(** What the cache holds for a workspace, a project and a user. *)
Definition cached_workspace (s : Store) (id : string) : option Blob :=
  redis s !! (workspaceCachePrefix ++ id)%string.
Definition cached_project (s : Store) (id : string) : option Blob :=
  redis s !! (projectCachePrefix ++ id)%string.
Definition cached_user_workspaces (s : Store) (userID : string) : option Blob :=
  redis s !! (userWorkspacePrefix ++ userID)%string.


(** Redis answers every command. *)
Definition redis_reachable (env : Env) : Prop :=
  fails env REDIS_GET = false ∧ fails env REDIS_SET = false
  ∧ fails env REDIS_DEL = false ∧ fails env REDIS_SCAN = false.

(** The live workspaces that hold a name within a tenant. *)
Definition name_holders (s : Store) (tenantID name : string) : list Workspace :=
  filter (fun w => Workspace_TenantID w = tenantID ∧ Workspace_Name w = name
                   ∧ Workspace_DeletedAt w = None) (workspaces s).

(** Page [page] of a listing of [rows], as the repositories cut it. *)
Definition page_of {A} (rows : list A) (page pageSize : Z) : list A :=
  let '(offset, limit) := paging page pageSize 20 in
  gorm_Limit limit (gorm_Offset offset rows).

(** The errors a computation can end with all satisfy [P]. *)
Definition raises {A} (c : M A) (P : error → Prop) : Prop :=
  ∀ s e s', c s = (Err e, s') → P e.

(** The handlers answer the error with 403 or with 500. *)
Definition forbidden_or_internal (e : error) : Prop :=
  Response_Status (Handlers_handleError e) = fiber_StatusForbidden
  ∨ Response_Status (Handlers_handleError e) = fiber_StatusInternalServerError.

(** Every live project belongs to a live workspace. *)
Definition projects_have_workspaces (s : Store) : Prop :=
  ∀ p, p ∈ projects s → Project_DeletedAt p = None →
       ∃ w, w ∈ workspaces s ∧ workspace_id_where (Project_WorkspaceID p) w.

Definition workspaces_and_projects (s : Store) : list Workspace * list Project :=
  (workspaces s, projects s).

(** Within a tenant no two live workspaces have the same name. *)
Definition workspace_key (w : Workspace) : string * string :=
  (Workspace_TenantID w, Workspace_Name w).

Definition live_workspaces (s : Store) : list Workspace :=
  filter (fun w => Workspace_DeletedAt w = None) (workspaces s).

Definition names_unique (s : Store) : Prop :=
  NoDup (workspace_key <$> live_workspaces s).

(** The computation keeps the invariant [I], whatever it returns. *)
Definition preserves {A} (I : Store → Prop) (c : M A) : Prop :=
  ∀ s r s', I s → c s = (r, s') → I s'.

(** ** An environment and stores to run the code on *)

Definition ascii_to_lower (c : ascii) : ascii :=
  let n := nat_of_ascii c in
  if (65 <=? n)%nat && (n <=? 90)%nat then ascii_of_nat (n + 32) else c.
Definition ascii_to_upper (c : ascii) : ascii :=
  let n := nat_of_ascii c in
  if (97 <=? n)%nat && (n <=? 122)%nat then ascii_of_nat (n - 32) else c.

Fixpoint string_map (f : ascii → ascii) (s : string) : string :=
  match s with
  | EmptyString => EmptyString
  | String c s' => String (f c) (string_map f s')
  end.

(** SQL [LIKE]: [%] matches any run of characters, [_] any one character. *)
Fixpoint like_match (pattern : string) : string → bool :=
  match pattern with
  | EmptyString => fun s => bool_decide (s = "")
  | String c pattern' =>
      if Ascii.eqb c "%" then
        fix skip (s : string) : bool :=
          like_match pattern' s
          || match s with
             | EmptyString => false
             | String _ s' => skip s'
             end
      else if Ascii.eqb c "_" then
        fun s => match s with
                 | EmptyString => false
                 | String _ s' => like_match pattern' s'
                 end
      else
        fun s => match s with
                 | EmptyString => false
                 | String d s' => Ascii.eqb c d && like_match pattern' s'
                 end
  end.

(** Orders by the time column when the clause names it, and leaves the rows
    in table order otherwise. *)
Definition time_desc {A} (time : A → Z) : relation A := fun a b => time b <= time a.
Definition time_asc {A} (time : A → Z) : relation A := fun a b => time a <= time b.
#[global] Instance time_desc_dec {A} (time : A → Z) a b : Decision (time_desc time a b).
Proof. unfold time_desc. apply _. Defined.
#[global] Instance time_asc_dec {A} (time : A → Z) a b : Decision (time_asc time a b).
Proof. unfold time_asc. apply _. Defined.

Definition order_by_time {A} (time : A → Z) (column clause : string) (rows : list A)
  : list A :=
  if bool_decide (clause = (column ++ " DESC")%string)
  then merge_sort (time_desc time) rows
  else if bool_decide (clause = (column ++ " ASC")%string)
  then merge_sort (time_asc time) rows
  else rows.

Definition example_env (failing : Call → bool) : Env :=
  mkEnv failing
        (fun n => ("uuid-" ++ pretty n)%string)
        1700000000
        (string_map ascii_to_lower) (string_map ascii_to_upper)
        (fun column pattern => like_match pattern (string_map ascii_to_lower column))
        (order_by_time Workspace_CreatedAt "created_at")
        (order_by_time Project_CreatedAt "created_at")
        (order_by_time AirtableBase_CreatedAt "created_at")
        (order_by_time WorkspaceMember_JoinedAt "joined_at")
        (order_by_time WorkspaceAuditLog_CreatedAt "created_at").

Definition nothing_fails : Call → bool := fun _ => false.

Definition audit_store_down : Call → bool :=
  fun c => match c with
           | INSERT workspace_audit_logs_t => true
           | _ => false
           end.

Definition member_insert_fails : Call → bool :=
  fun c => match c with
           | INSERT workspace_members_t => true
           | _ => false
           end.

Definition cache_delete_fails : Call → bool :=
  fun c => match c with
           | REDIS_DEL => true
           | _ => false
           end.

Definition empty_store : Store := mkStore [] [] [] [] [] ∅ 0.

(** A workspace "Acme" of tenant "t1", owned by "alice", with "bob" as a
    member, a project with one connection, and one audit entry. *)
Definition acme : Workspace :=
  mkWorkspace "ws-1" 100 100 None "t1" "Acme" "" (Some []) "alice".

Definition acme_store : Store :=
  mkStore [acme]
          [mkProject "p-1" 110 110 None "ws-1" "Website" "" "active" (Some []) "alice" None]
          [mkAirtableBase "b-1" 120 120 None "p-1" "appXYZ" "Leads" "" true None None]
          [mkWorkspaceMember "ws-1" "alice" WorkspaceRoleOwner 100;
           mkWorkspaceMember "ws-1" "bob" WorkspaceRoleMember 105]
          [mkWorkspaceAuditLog "a-1" "ws-1" "alice" "workspace.created" "workspace" "ws-1"
                               None 100]
          ∅ 0.

(** [acme_store] with "Acme" in the cache. *)
Definition cached_acme_store : Store :=
  set_redis (insert "workspace:ws-1" (blob_Workspace acme)) acme_store.

(** [acme_store] with [n] more workspaces of tenant "t1" and [k] more
    projects in "ws-1". *)
Definition busy_store (n k : nat) : Store :=
  set_projects
    (fun rows => rows ++ ((fun i => mkProject ("p-x" ++ pretty i) 200 200 None "ws-1"
                                              ("Project " ++ pretty i) "" "active"
                                              (Some []) "alice" None) <$> seq 0 k))
    (set_workspaces
       (fun rows => rows ++ ((fun i => mkWorkspace ("ws-x" ++ pretty i) 200 200 None "t1"
                                                   ("Workspace " ++ pretty i) ""
                                                   (Some []) "alice") <$> seq 0 n))
       acme_store).

(** [AddDate] for days only, on a clock that ticks in seconds and keeps no
    daylight saving time. *)
Definition add_days : Z -> Z -> Z -> Z -> Z := fun t _ _ days => t + 86400 * days.

(** [acme_store] with a second audit entry, written ten days before the
    clock of [example_env]. *)
Definition audited_acme_store : Store :=
  set_workspace_audit_logs
    (fun rows => rows ++ [mkWorkspaceAuditLog "a-2" "ws-1" "bob" "project.created" "project"
                                              "p-1" None (1700000000 - 864000)])
    acme_store.

(** [acme_store] with the workspace, its project, a project of another
    workspace, the list of a user and a key of another application in the
    cache. *)
Definition warm_acme_store : Store :=
  set_redis
    (fun _ =>
       <["workspace:ws-1" := blob_Workspace acme]>
         (<["project:p-1" := blob_Project (mkProject "p-1" 110 110 None "ws-1" "Website" ""
                                                     "active" (Some []) "alice" None)]>
            (<["project:p-9" := blob_Project (mkProject "p-9" 130 130 None "ws-9" "Other" ""
                                                        "active" (Some []) "carol" None)]>
               (<["user:workspaces:bob" := blob_strings ["ws-1"]]>
                  (<["session:42" := blob_strings ["bob"]]> ∅)))))
    acme_store.

(** * Properties *)

(** ** Lists and primary keys *)

Lemma NoDup_fmap_inj_on {A B} (f : A → B) (l : list A) (x y : A) :
  NoDup (f <$> l) → x ∈ l → y ∈ l → f x = f y → x = y.
Proof.
  intros Hnd [i Hi]%list_elem_of_lookup [j Hj]%list_elem_of_lookup Hf.
  assert (i = j) as ->.
  { eapply NoDup_lookup; [exact Hnd | |]; rewrite list_lookup_fmap.
    - rewrite Hi. reflexivity.
    - rewrite Hj. simpl. by rewrite Hf. }
  congruence.
Qed.

Lemma head_filter_elem {A} (P : A → Prop) `{!∀ x, Decision (P x)} (l : list A) (x : A) :
  x ∈ l → P x → ∃ y, head (filter P l) = Some y ∧ y ∈ l ∧ P y.
Proof.
  intros Hin HP.
  destruct (filter P l) as [|y k] eqn:E.
  - exfalso. eapply filter_nil_not_elem_of; eauto.
  - exists y. split; [done|].
    assert (y ∈ filter P l) as [? ?]%list_elem_of_filter by (rewrite E; left).
    done.
Qed.

Lemma head_filter_Some_elem {A} (P : A → Prop) `{!∀ x, Decision (P x)} (l : list A) (x : A) :
  head (filter P l) = Some x → x ∈ l ∧ P x.
Proof.
  intros Hh. destruct (filter P l) as [|y k] eqn:E; [done|].
  injection Hh as ->.
  assert (x ∈ filter P l) as [? ?]%list_elem_of_filter by (rewrite E; left).
  done.
Qed.

Lemma filter_none {A} (P : A → Prop) `{!∀ x, Decision (P x)} (l : list A) :
  (∀ x, x ∈ l → ¬ P x) → filter P l = [].
Proof.
  induction l as [|a l IH]; intros Hn; [done|].
  rewrite filter_cons_False by (apply Hn; left).
  apply IH. intros x Hx. apply Hn. by right.
Qed.

Lemma length_filter_mono {A} (P Q : A → Prop)
    `{!∀ x, Decision (P x)} `{!∀ x, Decision (Q x)} (l : list A) :
  (∀ x, P x → Q x) → (length (filter P l) ≤ length (filter Q l))%nat.
Proof.
  intros HPQ. induction l as [|a l IH]; [done|].
  rewrite !filter_cons. destruct (decide (P a)) as [HP|HP].
  - rewrite decide_True by auto. simpl. lia.
  - destruct (decide (Q a)); simpl; lia.
Qed.

Lemma first_member_by_key (s : Store) (m : WorkspaceMember) :
  members_primary_key s → m ∈ workspace_members s →
  head (filter (member_where (WorkspaceMember_WorkspaceID m) (WorkspaceMember_UserID m))
               (workspace_members s)) = Some m.
Proof.
  intros Hpk Hin.
  destruct (head_filter_elem
              (member_where (WorkspaceMember_WorkspaceID m) (WorkspaceMember_UserID m))
              _ m Hin) as (y & -> & Hy & [Hw Hu]); [done|].
  f_equal. eapply NoDup_fmap_inj_on; [exact Hpk|done..|].
  unfold member_key. by rewrite Hw, Hu.
Qed.

Lemma non_member_first (s : Store) (workspaceID userID : string) :
  non_member s workspaceID userID →
  head (filter (member_where workspaceID userID) (workspace_members s)) = None.
Proof. intros Hn. by rewrite (filter_none _ _ Hn). Qed.

(** ** Running the repository methods *)

Lemma round_trip_ok env c s : fails env c = false → round_trip env c s = (Ok tt, s).
Proof. unfold round_trip. by intros ->. Qed.

Lemma round_trip_failed env c s : fails env c = true → round_trip env c s = (Err io_failure, s).
Proof. unfold round_trip. by intros ->. Qed.

Lemma GetByWorkspaceAndUser_run env w u s :
  workspaceMemberRepository_GetByWorkspaceAndUser env w u s =
  if fails env (SELECT_FIRST workspace_members_t) then (Err io_failure, s)
  else match head (filter (member_where w u) (workspace_members s)) with
       | Some m => (Ok m, s)
       | None => (Err repositories_ErrMemberNotFound, s)
       end.
Proof.
  unfold workspaceMemberRepository_GetByWorkspaceAndUser, bind, round_trip, read.
  destruct (fails env _); [done|]. by destruct (head _).
Qed.

Lemma CountOwners_run env w s :
  workspaceMemberRepository_CountOwners env w s =
  if fails env (SELECT_COUNT workspace_members_t) then (Err io_failure, s)
  else (Ok (count_rows (filter (owner_where w) (workspace_members s))), s).
Proof.
  unfold workspaceMemberRepository_CountOwners, bind, round_trip, read.
  by destruct (fails env _).
Qed.

Lemma workspaceRepository_GetByID_run env id s :
  workspaceRepository_GetByID env id s =
  if fails env (SELECT_FIRST workspaces_t) then (Err io_failure, s)
  else match head (filter (workspace_id_where id) (workspaces s)) with
       | Some w => (Ok w, s)
       | None => (Err repositories_ErrWorkspaceNotFound, s)
       end.
Proof.
  unfold workspaceRepository_GetByID, bind, round_trip, read.
  destruct (fails env _); [done|]. by destruct (head _).
Qed.

Lemma CountByWorkspace_run env w s :
  projectRepository_CountByWorkspace env w s =
  if fails env (SELECT_COUNT projects_t) then (Err io_failure, s)
  else (Ok (count_rows (workspace_projects s w)), s).
Proof.
  unfold projectRepository_CountByWorkspace, bind, round_trip, read.
  by destruct (fails env _).
Qed.

(** The access checks read and leave the store as it is. *)
Lemma CheckUserAccess_run env w u role s :
  workspaceService_CheckUserAccess env w u role s =
  if fails env (SELECT_FIRST workspace_members_t) then (Err io_failure, s)
  else match head (filter (member_where w u) (workspace_members s)) with
       | Some m => if hasRequiredRole (WorkspaceMember_Role m) role then (Ok tt, s)
                   else (Err services_ErrUnauthorized, s)
       | None => (Err services_ErrUnauthorized, s)
       end.
Proof.
  unfold workspaceService_CheckUserAccess, bind, catch.
  rewrite GetByWorkspaceAndUser_run.
  destruct (fails env _); [done|]. destruct (head _) as [m|]; [|done].
  by destruct (hasRequiredRole _ _).
Qed.

Lemma checkProjectAccess_run env p u role s :
  projectService_checkProjectAccess env p u role s =
  workspaceService_CheckUserAccess env (Project_WorkspaceID p) u role s.
Proof. reflexivity. Qed.

Lemma airtable_checkProjectAccess_run env p u role s :
  airtableBaseService_checkProjectAccess env p u role s =
  workspaceService_CheckUserAccess env (Project_WorkspaceID p) u role s.
Proof. reflexivity. Qed.

(** ** C5: the role hierarchy *)

Lemma roleHierarchy_lookup (r : Role) : roleHierarchy !! role_name r = Some (rank r).
Proof. destruct r; reflexivity. Qed.

Lemma roleHierarchy_unknown (s : string) : ¬ is_role s → roleHierarchy !! s = None.
Proof.
  intros H. unfold roleHierarchy.
  rewrite !lookup_insert_ne; [apply lookup_empty | ..];
    intros <-; apply H; [exists Viewer | exists Member | exists Admin | exists Owner];
    reflexivity.
Qed.

(** C5. [hasRequiredRole] is a function of its two arguments alone; on the
    four roles it answers true exactly when the rank of the actual role is
    at least the rank of the required one (owner 4, admin 3, member 2,
    viewer 1), and it answers false as soon as one argument is not one of
    the four roles. *)
Theorem hasRequiredRole_rank :
  (∀ actual required : Role,
      hasRequiredRole (role_name actual) (role_name required) = true
      ↔ rank actual >= rank required)
  ∧ (∀ userRole requiredRole : string,
      ¬ is_role userRole ∨ ¬ is_role requiredRole →
      hasRequiredRole userRole requiredRole = false).
Proof.
  split.
  - intros a r. unfold hasRequiredRole. rewrite !roleHierarchy_lookup.
    rewrite bool_decide_eq_true. reflexivity.
  - intros u r [H|H]; unfold hasRequiredRole.
    + rewrite (roleHierarchy_unknown u H). reflexivity.
    + rewrite (roleHierarchy_unknown r H). destruct (roleHierarchy !! u); reflexivity.
Qed.

Lemma not_a_role_superuser : ¬ is_role "superuser".
Proof. intros [r H]. destruct r; discriminate H. Qed.

Lemma hasRequiredRole_rank_witness :
  (hasRequiredRole (role_name Admin) (role_name Member) = true
   ↔ rank Admin >= rank Member)
  ∧ hasRequiredRole "superuser" WorkspaceRoleViewer = false.
Proof.
  split.
  - apply (proj1 hasRequiredRole_rank Admin Member).
  - apply (proj2 hasRequiredRole_rank). left. exact not_a_role_superuser.
Defined.

(** ** C1: the last owner *)

Lemma IsLastOwner_sole_owner env s m :
  members_primary_key s →
  filter (owner_where (WorkspaceMember_WorkspaceID m)) (workspace_members s) = [m] →
  ∃ r, workspaceMemberRepository_IsLastOwner env
         (WorkspaceMember_WorkspaceID m) (WorkspaceMember_UserID m) s = (r, s)
       ∧ r ≠ Ok false
       ∧ (members_reachable env → r = Ok true).
Proof.
  intros Hpk Howners.
  assert (m ∈ filter (owner_where (WorkspaceMember_WorkspaceID m)) (workspace_members s))
    as [[_ Hrole] Hin]%list_elem_of_filter by (rewrite Howners; left).
  unfold workspaceMemberRepository_IsLastOwner, bind.
  rewrite GetByWorkspaceAndUser_run, first_member_by_key by done.
  destruct (fails env (SELECT_FIRST _)) eqn:F1.
  { eexists; split; [done|]. split; [done|]. intros (? & ? & ?); congruence. }
  rewrite bool_decide_eq_false_2 by (intros ?; done).
  rewrite CountOwners_run, Howners.
  destruct (fails env (SELECT_COUNT _)) eqn:F2.
  { eexists; split; [done|]. split; [done|]. intros (? & ? & ?); congruence. }
  eexists; split; [done|]. split; done.
Qed.

(** C1. In a workspace whose only owner is [m], removing [m] and giving [m]
    a role other than owner both fail and leave the store, hence the
    membership set, as it was; the error is [ErrLastOwner] whenever the
    membership table answers. *)
Theorem last_owner_protected env s m role :
  members_primary_key s →
  filter (owner_where (WorkspaceMember_WorkspaceID m)) (workspace_members s) = [m] →
  role ≠ WorkspaceRoleOwner →
  let workspaceID := WorkspaceMember_WorkspaceID m in
  let userID := WorkspaceMember_UserID m in
  (∃ e, workspaceMemberRepository_Remove env workspaceID userID s = (Err e, s)
        ∧ (members_reachable env → e = repositories_ErrLastOwner))
  ∧ (∃ e, workspaceMemberRepository_UpdateRole env workspaceID userID role s = (Err e, s)
          ∧ (members_reachable env → e = repositories_ErrLastOwner)).
Proof.
  intros Hpk Howners Hrole workspaceID userID.
  destruct (IsLastOwner_sole_owner env s m Hpk Howners) as (r & Hrun & Hnf & Hok).
  assert (m ∈ filter (owner_where (WorkspaceMember_WorkspaceID m)) (workspace_members s))
    as [[_ Hm] Hin]%list_elem_of_filter by (rewrite Howners; left).
  split.
  - unfold workspaceMemberRepository_Remove, bind.
    rewrite GetByWorkspaceAndUser_run. subst workspaceID userID.
    rewrite first_member_by_key by done.
    destruct (fails env (SELECT_FIRST _)) eqn:F1.
    { eexists; split; [done|]. intros (? & _); congruence. }
    rewrite bool_decide_eq_true_2 by done.
    rewrite Hrun. destruct r as [[|]|e].
    + eexists; split; done.
    + done.
    + eexists; split; [done|]. intros H. by specialize (Hok H).
  - unfold workspaceMemberRepository_UpdateRole, bind.
    rewrite bool_decide_eq_true_2 by done. subst workspaceID userID.
    rewrite Hrun. destruct r as [[|]|e].
    + eexists; split; done.
    + done.
    + eexists; split; [done|]. intros H. by specialize (Hok H).
Qed.

Lemma nothing_fails_members_reachable : members_reachable (example_env nothing_fails).
Proof. repeat split. Qed.

Lemma last_owner_protected_witness :
  let alice := mkWorkspaceMember "ws-1" "alice" WorkspaceRoleOwner 100 in
  workspaceMemberRepository_Remove (example_env nothing_fails) "ws-1" "alice" acme_store
  = (Err repositories_ErrLastOwner, acme_store)
  ∧ workspaceMemberRepository_UpdateRole (example_env nothing_fails) "ws-1" "alice"
      WorkspaceRoleAdmin acme_store
    = (Err repositories_ErrLastOwner, acme_store).
Proof.
  intros alice.
  assert (Hpk : members_primary_key acme_store).
  { unfold members_primary_key. apply (bool_decide_unpack _). by vm_compute. }
  assert (Howners : filter (owner_where (WorkspaceMember_WorkspaceID alice))
                           (workspace_members acme_store) = [alice]) by reflexivity.
  assert (Hrole : WorkspaceRoleAdmin ≠ WorkspaceRoleOwner) by discriminate.
  destruct (last_owner_protected (example_env nothing_fails) acme_store alice
              WorkspaceRoleAdmin Hpk Howners Hrole)
    as [(e1 & H1 & E1) (e2 & H2 & E2)].
  rewrite (E1 nothing_fails_members_reachable) in H1.
  rewrite (E2 nothing_fails_members_reachable) in H2.
  split; [exact H1 | exact H2].
Defined.

(** ** C6: audit logging never fails the operation *)

Lemma LogAction_run env w u a rt rid ch s :
  ∃ s', auditService_LogAction env w u a rt rid ch s = (Ok tt, s')
        ∧ persisted s' = persisted s.
Proof.
  unfold auditService_LogAction, auditLogRepository_Create,
    bind, catch, round_trip, read, write, ret.
  destruct (fails env _); [by eexists|].
  cbn. eexists. split; reflexivity.
Qed.

Lemma same_outcome_refl {A} (x : Result A * Store) : same_outcome x x.
Proof. done. Qed.

(** The closing steps of a mutation: the ignored audit write, then the
    return. *)
Lemma same_outcome_audit {A} env failing w u a rt rid ch (x : A) s1 s2 :
  persisted s1 = persisted s2 →
  same_outcome
    ((ignore (auditService_LogAction (with_audit_write failing env) w u a rt rid ch) ;;
      ret x) s1)
    ((ignore (auditService_LogAction env w u a rt rid ch) ;; ret x) s2).
Proof.
  intros Hs. unfold bind, ignore, ret.
  destruct (LogAction_run (with_audit_write failing env) w u a rt rid ch s1)
    as (s1' & -> & H1).
  destruct (LogAction_run env w u a rt rid ch s2) as (s2' & -> & H2).
  split; [done|]. simpl. congruence.
Qed.

(** Up to the audit write the two runs make the same calls on the same store. *)
Lemma same_outcome_bind {A B} (c1 c2 : M A) (k1 k2 : A → M B) s :
  c1 s = c2 s →
  (∀ a s', same_outcome (k1 a s') (k2 a s')) →
  same_outcome (bind c1 k1 s) (bind c2 k2 s).
Proof.
  intros Hc Hk. unfold bind. rewrite Hc.
  destruct (c2 s) as [[a|e] s']; [apply Hk | done].
Qed.

Ltac audit_indep :=
  repeat first
    [ apply same_outcome_audit; reflexivity
    | apply same_outcome_refl
    | match goal with
      | |- same_outcome (bind (if ?b then _ else _) _ _) _ => destruct b
      end
    | apply same_outcome_bind; [reflexivity | intros ? ?]
    | match goal with
      | |- same_outcome (match ?x with _ => _ end _) _ => destruct x
      | |- same_outcome ((if ?b then _ else _) _) _ => destruct b
      | |- same_outcome ((let '(_, _) := ?p in _) _) _ => destruct p
      end ].

Lemma CreateWorkspace_audit_independent t u req :
  audit_independent (fun env => workspaceService_CreateWorkspace env t u req).
Proof. intros env failing s. unfold workspaceService_CreateWorkspace. audit_indep. Qed.

Lemma UpdateWorkspace_audit_independent w u req :
  audit_independent (fun env => workspaceService_UpdateWorkspace env w u req).
Proof. intros env failing s. unfold workspaceService_UpdateWorkspace. audit_indep. Qed.

Lemma DeleteWorkspace_audit_independent w u :
  audit_independent (fun env => workspaceService_DeleteWorkspace env w u).
Proof. intros env failing s. unfold workspaceService_DeleteWorkspace. audit_indep. Qed.

Lemma CreateProject_audit_independent w u req :
  audit_independent (fun env => projectService_CreateProject env w u req).
Proof. intros env failing s. unfold projectService_CreateProject. audit_indep. Qed.

Lemma UpdateProject_audit_independent p u req :
  audit_independent (fun env => projectService_UpdateProject env p u req).
Proof. intros env failing s. unfold projectService_UpdateProject. audit_indep. Qed.

Lemma DeleteProject_audit_independent p u :
  audit_independent (fun env => projectService_DeleteProject env p u).
Proof. intros env failing s. unfold projectService_DeleteProject. audit_indep. Qed.

Lemma AddMember_audit_independent w u req :
  audit_independent (fun env => memberService_AddMember env w u req).
Proof. intros env failing s. unfold memberService_AddMember. audit_indep. Qed.

Lemma UpdateMemberRole_audit_independent w m u req :
  audit_independent (fun env => memberService_UpdateMemberRole env w m u req).
Proof. intros env failing s. unfold memberService_UpdateMemberRole. audit_indep. Qed.

Lemma RemoveMember_audit_independent w m u :
  audit_independent (fun env => memberService_RemoveMember env w m u).
Proof. intros env failing s. unfold memberService_RemoveMember. audit_indep. Qed.

Lemma ConnectBase_audit_independent p u req :
  audit_independent (fun env => airtableBaseService_ConnectBase env p u req).
Proof. intros env failing s. unfold airtableBaseService_ConnectBase. audit_indep. Qed.

Lemma UpdateBase_audit_independent b u req :
  audit_independent (fun env => airtableBaseService_UpdateBase env b u req).
Proof. intros env failing s. unfold airtableBaseService_UpdateBase. audit_indep. Qed.

Lemma DisconnectBase_audit_independent b u :
  audit_independent (fun env => airtableBaseService_DisconnectBase env b u).
Proof. intros env failing s. unfold airtableBaseService_DisconnectBase. audit_indep. Qed.

Lemma projectRepository_Create_run env project s :
  fails env (SELECT_COUNT projects_t) = false →
  fails env (INSERT projects_t) = false →
  filter (fun p => Project_WorkspaceID p = Project_WorkspaceID project
                   ∧ Project_Name p = Project_Name project
                   ∧ Project_DeletedAt p = None) (projects s) = [] →
  Project_ID project = "" →
  let created := Project_defaults env (gen_random_uuid env (uuid_seq s)) project in
  projectRepository_Create env project s =
  (Ok created,
   set_projects (fun rows => rows ++ [Project_with_Workspace None created]) (next_uuid s)).
Proof.
  intros Hc Hi Hdup Hid created.
  unfold projectRepository_Create, bind, read, write, ret, round_trip.
  rewrite Hc, Hdup, Hi, Hid. reflexivity.
Qed.

Lemma CreateProject_succeeds env s workspaceID userID req workspace :
  database_reachable_but_audit env →
  head (filter (workspace_id_where workspaceID) (workspaces s)) = Some workspace →
  member_with_role s workspaceID userID WorkspaceRoleMember →
  count_rows (workspace_projects s workspaceID) < maxProjectsPerWorkspace →
  filter (fun p => Project_WorkspaceID p = workspaceID
                   ∧ Project_Name p = CreateProjectRequest_Name req
                   ∧ Project_DeletedAt p = None) (projects s) = [] →
  ∃ project s',
    projectService_CreateProject env workspaceID userID req s = (Ok project, s')
    ∧ projects s' = projects s ++ [Project_with_Workspace None project]
    ∧ Project_WorkspaceID project = workspaceID
    ∧ Project_Name project = CreateProjectRequest_Name req
    ∧ Project_DeletedAt project = None.
Proof.
  intros (Hcount & Hfirst & Hfind & Hinsert) Hw (m & Hm & Hrole) Hquota Hdup.
  unfold projectService_CreateProject, bind, catch.
  rewrite workspaceRepository_GetByID_run, Hfirst, Hw.
  rewrite GetByWorkspaceAndUser_run, Hfirst, Hm, Hrole. cbn [negb].
  rewrite CountByWorkspace_run, Hcount.
  rewrite bool_decide_eq_false_2 by lia.
  set (project0 := match Project_Settings _ with None => _ | Some _ => _ end).
  assert (Hp0 : Project_WorkspaceID project0 = workspaceID
                ∧ Project_Name project0 = CreateProjectRequest_Name req
                ∧ Project_ID project0 = "" ∧ Project_DeletedAt project0 = None).
  { subst project0. by destruct (CreateProjectRequest_Settings req). }
  destruct Hp0 as (Hp0w & Hp0n & Hp0i & Hp0d).
  rewrite projectRepository_Create_run;
    [ | apply Hcount | apply Hinsert; discriminate | by rewrite Hp0w, Hp0n | done ].
  set (created := Project_defaults _ _ _).
  set (s1 := set_projects _ _).
  unfold ignore.
  destruct (cacheRepository_SetProject env _ s1) as [r2 s2] eqn:Hcache.
  assert (Hs2 : projects s2 = projects s1).
  { revert Hcache. unfold cacheRepository_SetProject, bind, round_trip, write.
    destruct (fails env REDIS_SET); intros [= _ <-]; reflexivity. }
  destruct (LogAction_run env workspaceID userID "project.created" "project"
              (Project_ID (Project_with_Workspace (Some workspace) created))
              (Some [("name", JString (Project_Name (Project_with_Workspace (Some workspace) created)));
                     ("description", JString (Project_Description (Project_with_Workspace (Some workspace) created)));
                     ("workspace_id", JString workspaceID)]) s2)
    as (s3 & Hlog & Hs3).
  rewrite Hlog. unfold ret.
  eexists _, _. split; [reflexivity|].
  assert (projects s3 = projects s2) as -> by (by injection Hs3).
  rewrite Hs2. subst s1 created. cbn. by rewrite Hp0w, Hp0n, Hp0d.
Qed.

(** C6. [LogAction] answers [nil] whatever becomes of its write and touches
    nothing but the audit trail; the result and the persisted effect of
    every mutation of the four domain services are the same whether its
    audit write goes through or not; and with the audit-log table
    unreachable, [CreateProject] for a member of an existing workspace under
    its quota, with a fresh name, returns the project and leaves its row in
    the store. *)
Theorem audit_never_fails_the_operation :
  (∀ env workspaceID userID action resourceType resourceID changes s,
      ∃ s', auditService_LogAction env workspaceID userID action resourceType resourceID
              changes s = (Ok tt, s')
            ∧ persisted s' = persisted s)
  ∧ ((∀ t u req, audit_independent (fun env => workspaceService_CreateWorkspace env t u req))
     ∧ (∀ w u req, audit_independent (fun env => workspaceService_UpdateWorkspace env w u req))
     ∧ (∀ w u, audit_independent (fun env => workspaceService_DeleteWorkspace env w u))
     ∧ (∀ w u req, audit_independent (fun env => projectService_CreateProject env w u req))
     ∧ (∀ p u req, audit_independent (fun env => projectService_UpdateProject env p u req))
     ∧ (∀ p u, audit_independent (fun env => projectService_DeleteProject env p u))
     ∧ (∀ w u req, audit_independent (fun env => memberService_AddMember env w u req))
     ∧ (∀ w m u req,
           audit_independent (fun env => memberService_UpdateMemberRole env w m u req))
     ∧ (∀ w m u, audit_independent (fun env => memberService_RemoveMember env w m u))
     ∧ (∀ p u req, audit_independent (fun env => airtableBaseService_ConnectBase env p u req))
     ∧ (∀ b u req, audit_independent (fun env => airtableBaseService_UpdateBase env b u req))
     ∧ (∀ b u, audit_independent (fun env => airtableBaseService_DisconnectBase env b u)))
  ∧ (∀ env s workspaceID userID req workspace,
        fails env (INSERT workspace_audit_logs_t) = true →
        database_reachable_but_audit env →
        head (filter (workspace_id_where workspaceID) (workspaces s)) = Some workspace →
        member_with_role s workspaceID userID WorkspaceRoleMember →
        count_rows (workspace_projects s workspaceID) < maxProjectsPerWorkspace →
        filter (fun p => Project_WorkspaceID p = workspaceID
                         ∧ Project_Name p = CreateProjectRequest_Name req
                         ∧ Project_DeletedAt p = None) (projects s) = [] →
        ∃ project s',
          projectService_CreateProject env workspaceID userID req s = (Ok project, s')
          ∧ projects s' = projects s ++ [Project_with_Workspace None project]
          ∧ Project_WorkspaceID project = workspaceID
          ∧ Project_Name project = CreateProjectRequest_Name req
          ∧ Project_DeletedAt project = None).
Proof.
  split; [|split].
  - intros. apply LogAction_run.
  - split; [exact CreateWorkspace_audit_independent|].
    split; [exact UpdateWorkspace_audit_independent|].
    split; [exact DeleteWorkspace_audit_independent|].
    split; [exact CreateProject_audit_independent|].
    split; [exact UpdateProject_audit_independent|].
    split; [exact DeleteProject_audit_independent|].
    split; [exact AddMember_audit_independent|].
    split; [exact UpdateMemberRole_audit_independent|].
    split; [exact RemoveMember_audit_independent|].
    split; [exact ConnectBase_audit_independent|].
    split; [exact UpdateBase_audit_independent|].
    exact DisconnectBase_audit_independent.
  - intros env s workspaceID userID req workspace _. apply CreateProject_succeeds.
Qed.

Lemma audit_never_fails_the_operation_witness :
  ∃ project s',
    projectService_CreateProject (example_env audit_store_down) "ws-1" "bob"
      (mkCreateProjectRequest "Docs" "" None) acme_store = (Ok project, s')
    ∧ projects s' = projects acme_store ++ [Project_with_Workspace None project]
    ∧ Project_WorkspaceID project = "ws-1"
    ∧ Project_Name project = "Docs"
    ∧ Project_DeletedAt project = None.
Proof.
  apply (proj2 (proj2 audit_never_fails_the_operation)
           (example_env audit_store_down) acme_store "ws-1" "bob"
           (mkCreateProjectRequest "Docs" "" None) acme).
  - reflexivity.
  - repeat split; try reflexivity. intros t Ht. by destruct t.
  - reflexivity.
  - eexists. split; reflexivity.
  - vm_compute. reflexivity.
  - reflexivity.
Defined.

(** ** C7: quotas *)

Lemma workspaceRepository_List_run env flt s :
  workspaceRepository_List env flt s =
  if fails env (SELECT_COUNT workspaces_t) then (Err io_failure, s)
  else if fails env (SELECT_FIND workspaces_t) then (Err io_failure, s)
  else
    (Ok (gorm_Limit (paging (WorkspaceFilter_Page flt) (WorkspaceFilter_PageSize flt) 20).2
           (gorm_Offset (paging (WorkspaceFilter_Page flt) (WorkspaceFilter_PageSize flt) 20).1
              (order_workspaces env
                 (order_clause env (WorkspaceFilter_SortBy flt) (WorkspaceFilter_SortOrder flt))
                 (filter (workspace_filter_where env flt) (workspaces s)))),
         count_rows (filter (workspace_filter_where env flt) (workspaces s))), s).
Proof.
  unfold workspaceRepository_List, bind, read, ret, round_trip.
  destruct (fails env (SELECT_COUNT _)); [done|].
  destruct (paging _ _ _) as [offset pageSize].
  by destruct (fails env (SELECT_FIND _)).
Qed.

(** The filter [CreateWorkspace] counts with selects at least the tenant's
    live workspaces, and exactly those for a tenant ID that is not empty. *)
Lemma tenant_workspaces_counted env s tenantID :
  count_rows (tenant_workspaces s tenantID)
  <= count_rows (filter (workspace_filter_where env
                           (mkWorkspaceFilter tenantID "" "" 0 1 "" "" false))
                        (workspaces s)).
Proof.
  unfold count_rows, tenant_workspaces. apply inj_le, length_filter_mono.
  intros w [Ht Hd]. unfold workspace_filter_where. cbn. tauto.
Qed.

Lemma tenant_workspaces_filter env s tenantID :
  tenantID ≠ "" →
  filter (workspace_filter_where env (mkWorkspaceFilter tenantID "" "" 0 1 "" "" false))
         (workspaces s)
  = tenant_workspaces s tenantID.
Proof.
  intros Hne. unfold tenant_workspaces. apply list_filter_iff.
  intros w. unfold workspace_filter_where. cbn. tauto.
Qed.

Lemma workspaceRepository_Create_run env workspace s :
  fails env (SELECT_COUNT workspaces_t) = false →
  fails env (INSERT workspaces_t) = false →
  filter (fun w => Workspace_TenantID w = Workspace_TenantID workspace
                   ∧ Workspace_Name w = Workspace_Name workspace
                   ∧ Workspace_DeletedAt w = None) (workspaces s) = [] →
  Workspace_ID workspace = "" →
  let created := Workspace_defaults env (gen_random_uuid env (uuid_seq s)) workspace in
  workspaceRepository_Create env workspace s =
  (Ok created, set_workspaces (fun rows => rows ++ [created]) (next_uuid s)).
Proof.
  intros Hc Hi Hdup Hid created.
  unfold workspaceRepository_Create, bind, read, write, ret, round_trip.
  rewrite Hc, Hdup, Hi, Hid. reflexivity.
Qed.

Lemma workspaceMemberRepository_Add_run env member s :
  fails env (SELECT_COUNT workspace_members_t) = false →
  fails env (INSERT workspace_members_t) = false →
  filter (member_where (WorkspaceMember_WorkspaceID member) (WorkspaceMember_UserID member))
         (workspace_members s) = [] →
  workspaceMemberRepository_Add env member s =
  (Ok (WorkspaceMember_defaults env member),
   set_workspace_members (fun rows => rows ++ [WorkspaceMember_defaults env member]) s).
Proof.
  intros Hc Hi Hdup.
  unfold workspaceMemberRepository_Add, bind, read, write, ret, round_trip.
  rewrite Hc, Hdup, Hi. reflexivity.
Qed.

Lemma CreateWorkspace_over_quota env s tenantID userID req :
  count_rows (tenant_workspaces s tenantID) >= maxWorkspacesPerTenant →
  ∃ e, workspaceService_CreateWorkspace env tenantID userID req s = (Err e, s)
       ∧ (fails env (SELECT_COUNT workspaces_t) = false →
          fails env (SELECT_FIND workspaces_t) = false →
          e = services_ErrQuotaExceeded).
Proof.
  intros Hq. pose proof (tenant_workspaces_counted env s tenantID) as Hle.
  unfold workspaceService_CreateWorkspace, bind.
  rewrite workspaceRepository_List_run.
  destruct (fails env (SELECT_COUNT _)); [by eexists; split; [|intros [=]]|].
  destruct (fails env (SELECT_FIND _)); [by eexists; split; [|intros _ [=]]|].
  rewrite bool_decide_eq_true_2 by lia.
  by eexists.
Qed.

Lemma CreateWorkspace_under_quota env s tenantID userID req :
  count_rows (tenant_workspaces s tenantID) < maxWorkspacesPerTenant →
  tenantID ≠ "" →
  database_reachable env →
  filter (fun w => Workspace_TenantID w = tenantID
                   ∧ Workspace_Name w = CreateWorkspaceRequest_Name req
                   ∧ Workspace_DeletedAt w = None) (workspaces s) = [] →
  (∀ m, m ∈ workspace_members s →
        WorkspaceMember_WorkspaceID m ≠ gen_random_uuid env (uuid_seq s)) →
  ∃ workspace s',
    workspaceService_CreateWorkspace env tenantID userID req s = (Ok workspace, s')
    ∧ workspaces s' = workspaces s ++ [workspace]
    ∧ workspace_members s'
      = workspace_members s
        ++ [mkWorkspaceMember (Workspace_ID workspace) userID WorkspaceRoleOwner
                              (time_Now env)]
    ∧ Workspace_TenantID workspace = tenantID
    ∧ Workspace_Name workspace = CreateWorkspaceRequest_Name req
    ∧ Workspace_DeletedAt workspace = None.
Proof.
  intros Hq Hne (Hcount & Hfirst & Hfind & Hinsert & Hupdate & Hdelete & Hbegin & Hcommit)
         Hdup Hfresh.
  unfold workspaceService_CreateWorkspace, bind, catch.
  rewrite workspaceRepository_List_run, Hcount, Hfind.
  rewrite tenant_workspaces_filter by done.
  rewrite bool_decide_eq_false_2 by lia.
  unfold Repositories_BeginTx. rewrite Hbegin.
  set (workspace0 := match Workspace_Settings _ with None => _ | Some _ => _ end).
  assert (Hw0 : Workspace_TenantID workspace0 = tenantID
                ∧ Workspace_Name workspace0 = CreateWorkspaceRequest_Name req
                ∧ Workspace_ID workspace0 = "" ∧ Workspace_DeletedAt workspace0 = None
                ∧ Workspace_CreatedBy workspace0 = userID).
  { subst workspace0. by destruct (CreateWorkspaceRequest_Settings req). }
  destruct Hw0 as (Hw0t & Hw0n & Hw0i & Hw0d & Hw0c).
  rewrite workspaceRepository_Create_run;
    [ | apply Hcount | apply Hinsert | by rewrite Hw0t, Hw0n | done ].
  set (created := Workspace_defaults _ _ _).
  assert (Hid : Workspace_ID created = gen_random_uuid env (uuid_seq s)).
  { subst created. unfold Workspace_defaults. cbn. by rewrite Hw0i. }
  rewrite workspaceMemberRepository_Add_run; [ | apply Hcount | apply Hinsert | ].
  2:{ apply filter_none. intros m Hm [Hmw _].
      cbn [WorkspaceMember_WorkspaceID] in Hmw. rewrite Hid in Hmw.
      by apply (Hfresh m Hm). }
  unfold Tx_Commit. cbn [Tx_Error Tx_statements]. unfold bind, write, round_trip.
  rewrite Hcommit. cbn [foldl].
  set (s1 := set_workspace_members _ _).
  unfold ignore.
  destruct (cacheRepository_SetWorkspace env created s1) as [r2 s2] eqn:Hcache.
  assert (Hs2 : workspaces s2 = workspaces s1 ∧ workspace_members s2 = workspace_members s1).
  { revert Hcache. unfold cacheRepository_SetWorkspace, bind, round_trip, write.
    destruct (fails env REDIS_SET); intros [= _ <-]; by split. }
  destruct (LogAction_run env (Workspace_ID created) userID "workspace.created" "workspace"
              (Workspace_ID created)
              (Some [("name", JString (Workspace_Name created));
                     ("description", JString (Workspace_Description created));
                     ("tenant_id", JString (Workspace_TenantID created))]) s2)
    as (s3 & Hlog & Hs3).
  rewrite Hlog. unfold ret.
  eexists _, _. split; [reflexivity|].
  assert (workspaces s3 = workspaces s2) as -> by (by injection Hs3).
  assert (workspace_members s3 = workspace_members s2) as -> by (by injection Hs3).
  destruct Hs2 as [-> ->]. subst s1 created. cbn. by rewrite Hw0t, Hw0n, Hw0d.
Qed.

Ltac other_error :=
  eexists; split; [reflexivity|];
  intros;
  repeat match goal with
         | H : ∃ _, _ |- _ => destruct H
         | H : _ ∧ _ |- _ => destruct H
         | H : member_with_role _ _ _ _ |- _ => destruct H as (? & ? & ?)
         end;
  congruence.

Lemma CreateProject_over_quota env s workspaceID userID req :
  count_rows (workspace_projects s workspaceID) >= maxProjectsPerWorkspace →
  ∃ e, projectService_CreateProject env workspaceID userID req s = (Err e, s)
       ∧ (fails env (SELECT_FIRST workspaces_t) = false →
          fails env (SELECT_FIRST workspace_members_t) = false →
          fails env (SELECT_COUNT projects_t) = false →
          (∃ w, head (filter (workspace_id_where workspaceID) (workspaces s)) = Some w) →
          member_with_role s workspaceID userID WorkspaceRoleMember →
          e = services_ErrQuotaExceeded).
Proof.
  intros Hq.
  unfold projectService_CreateProject, bind, catch.
  rewrite workspaceRepository_GetByID_run.
  destruct (fails env (SELECT_FIRST workspaces_t)); [other_error|].
  destruct (head (filter (workspace_id_where _) _)) as [w|]; [|other_error].
  rewrite GetByWorkspaceAndUser_run.
  destruct (fails env (SELECT_FIRST workspace_members_t)); [other_error|].
  destruct (head (filter (member_where _ _) _)) as [m|] eqn:Hm; [|other_error].
  destruct (hasRequiredRole _ _) eqn:Hrole; cbn [negb]; [|other_error].
  rewrite CountByWorkspace_run.
  destruct (fails env (SELECT_COUNT projects_t)); [other_error|].
  rewrite bool_decide_eq_true_2 by done.
  by eexists.
Qed.

(** C7. With ten or more live workspaces of the tenant, [CreateWorkspace]
    fails and creates nothing, with [ErrQuotaExceeded] when the count can be
    read; with fewer (nine, say), a tenant ID, a fresh name and a reachable
    database it succeeds and adds the workspace with its owner. With fifty
    or more live projects in the workspace, [CreateProject] fails and
    creates nothing, with [ErrQuotaExceeded] for a member of the existing
    workspace. *)
Theorem quota_boundary :
  (∀ env s tenantID userID req,
      count_rows (tenant_workspaces s tenantID) >= maxWorkspacesPerTenant →
      ∃ e, workspaceService_CreateWorkspace env tenantID userID req s = (Err e, s)
           ∧ (fails env (SELECT_COUNT workspaces_t) = false →
              fails env (SELECT_FIND workspaces_t) = false →
              e = services_ErrQuotaExceeded))
  ∧ (∀ env s tenantID userID req,
        count_rows (tenant_workspaces s tenantID) < maxWorkspacesPerTenant →
        tenantID ≠ "" →
        database_reachable env →
        filter (fun w => Workspace_TenantID w = tenantID
                         ∧ Workspace_Name w = CreateWorkspaceRequest_Name req
                         ∧ Workspace_DeletedAt w = None) (workspaces s) = [] →
        (∀ m, m ∈ workspace_members s →
              WorkspaceMember_WorkspaceID m ≠ gen_random_uuid env (uuid_seq s)) →
        ∃ workspace s',
          workspaceService_CreateWorkspace env tenantID userID req s = (Ok workspace, s')
          ∧ workspaces s' = workspaces s ++ [workspace]
          ∧ workspace_members s'
            = workspace_members s
              ++ [mkWorkspaceMember (Workspace_ID workspace) userID WorkspaceRoleOwner
                                    (time_Now env)]
          ∧ Workspace_TenantID workspace = tenantID
          ∧ Workspace_Name workspace = CreateWorkspaceRequest_Name req
          ∧ Workspace_DeletedAt workspace = None)
  ∧ (∀ env s workspaceID userID req,
        count_rows (workspace_projects s workspaceID) >= maxProjectsPerWorkspace →
        ∃ e, projectService_CreateProject env workspaceID userID req s = (Err e, s)
             ∧ (fails env (SELECT_FIRST workspaces_t) = false →
                fails env (SELECT_FIRST workspace_members_t) = false →
                fails env (SELECT_COUNT projects_t) = false →
                (∃ w, head (filter (workspace_id_where workspaceID) (workspaces s)) = Some w) →
                member_with_role s workspaceID userID WorkspaceRoleMember →
                e = services_ErrQuotaExceeded)).
Proof.
  split; [|split].
  - apply CreateWorkspace_over_quota.
  - apply CreateWorkspace_under_quota.
  - apply CreateProject_over_quota.
Qed.

Lemma quota_boundary_witness :
  workspaceService_CreateWorkspace (example_env nothing_fails) "t1" "alice"
    (mkCreateWorkspaceRequest "Eleventh" "" None) (busy_store 9 0)
  = (Err services_ErrQuotaExceeded, busy_store 9 0)
  ∧ (∃ workspace s',
        workspaceService_CreateWorkspace (example_env nothing_fails) "t1" "alice"
          (mkCreateWorkspaceRequest "Tenth" "" None) (busy_store 8 0)
        = (Ok workspace, s')
        ∧ workspaces s' = workspaces (busy_store 8 0) ++ [workspace])
  ∧ projectService_CreateProject (example_env nothing_fails) "ws-1" "bob"
      (mkCreateProjectRequest "One too many" "" None) (busy_store 0 49)
    = (Err services_ErrQuotaExceeded, busy_store 0 49).
Proof.
  split; [|split].
  - destruct (proj1 quota_boundary (example_env nothing_fails) (busy_store 9 0)
                "t1" "alice" (mkCreateWorkspaceRequest "Eleventh" "" None))
      as (e & He & Herr).
    + vm_compute. discriminate.
    + rewrite He, Herr; reflexivity.
  - destruct (proj1 (proj2 quota_boundary) (example_env nothing_fails) (busy_store 8 0)
                "t1" "alice" (mkCreateWorkspaceRequest "Tenth" "" None))
      as (w & s' & Hrun & Hrows & _).
    + vm_compute. reflexivity.
    + discriminate.
    + repeat split.
    + reflexivity.
    + intros m Hm. vm_compute in Hm.
      repeat (apply elem_of_cons in Hm as [->|Hm]; [discriminate|]).
      inversion Hm.
    + by exists w, s'.
  - destruct (proj2 (proj2 quota_boundary) (example_env nothing_fails) (busy_store 0 49)
                "ws-1" "bob" (mkCreateProjectRequest "One too many" "" None))
      as (e & He & Herr).
    + vm_compute. discriminate.
    + rewrite He, Herr; try reflexivity.
      * by eexists.
      * eexists. split; reflexivity.
Defined.

(** ** C8: deletes blocked by children *)

Lemma projectRepository_GetByID_run env id s :
  projectRepository_GetByID env id s =
  if fails env (SELECT_FIRST projects_t) then (Err io_failure, s)
  else match head (filter (project_id_where id) (projects s)) with
       | None => (Err repositories_ErrProjectNotFound, s)
       | Some p => if fails env (SELECT_FIND workspaces_t) then (Err io_failure, s)
                   else (Ok (preload_Workspace s p), s)
       end.
Proof.
  unfold projectRepository_GetByID, bind, round_trip, read.
  destruct (fails env (SELECT_FIRST _)); [done|].
  destruct (head _); [|done]. by destruct (fails env (SELECT_FIND _)).
Qed.

Lemma airtableBaseRepository_List_run env flt s :
  ∃ r, airtableBaseRepository_List env flt s = (r, s)
       ∧ (∀ rows total, r = Ok (rows, total) →
            total = count_rows (filter (base_filter_where env flt) (airtable_bases s)))
       ∧ (fails env (SELECT_COUNT airtable_bases_t) = false →
          fails env (SELECT_FIND airtable_bases_t) = false →
          fails env (SELECT_FIND projects_t) = false →
          fails env (SELECT_FIND workspaces_t) = false →
          ∃ rows, r = Ok (rows, count_rows (filter (base_filter_where env flt)
                                                   (airtable_bases s)))).
Proof.
  unfold airtableBaseRepository_List, bind, read, ret, round_trip.
  destruct (fails env (SELECT_COUNT _)); [by eexists; split; [|split; [|intros [=]]]|].
  destruct (paging _ _ _) as [offset pageSize].
  destruct (fails env (SELECT_FIND airtable_bases_t));
    [by eexists; split; [|split; [|intros _ [=]]]|].
  destruct (fails env (SELECT_FIND projects_t));
    [by eexists; split; [|split; [|intros _ _ [=]]]|].
  destruct (fails env (SELECT_FIND workspaces_t));
    [by eexists; split; [|split; [|intros _ _ _ [=]]]|].
  eexists; split; [done|]. split; [by intros ?? [= _ <-]|]. intros. by eexists.
Qed.

Lemma project_connections_counted env s projectID :
  count_rows (project_connections s projectID)
  <= count_rows (filter (base_filter_where env
                           (mkAirtableBaseFilter projectID None "" 0 1 "" ""))
                        (airtable_bases s)).
Proof.
  unfold count_rows, project_connections. apply inj_le, length_filter_mono.
  intros b [Hp Hd]. unfold base_filter_where. cbn. tauto.
Qed.

Lemma DeleteProject_with_connections env s projectID userID :
  count_rows (project_connections s projectID) >= 1 →
  ∃ e, projectService_DeleteProject env projectID userID s = (Err e, s)
       ∧ (database_reachable env →
          ∀ project,
            head (filter (project_id_where projectID) (projects s)) = Some project →
            member_with_role s (Project_WorkspaceID project) userID WorkspaceRoleAdmin →
            ∃ baseCount,
              baseCount >= 1
              ∧ e = fmt_Errorf_d "cannot delete project with %d connected Airtable bases"
                                 baseCount).
Proof.
  intros Hc.
  pose proof (project_connections_counted env s projectID) as Hle.
  unfold projectService_DeleteProject, bind.
  rewrite projectRepository_GetByID_run.
  destruct (fails env (SELECT_FIRST projects_t)) eqn:F1.
  { eexists; split; [done|]. intros (_ & H & _). specialize (H projects_t). congruence. }
  destruct (head (filter (project_id_where _) _)) as [p|] eqn:Hp.
  2:{ eexists; split; [done|]. intros _ ? [=]. }
  destruct (fails env (SELECT_FIND workspaces_t)) eqn:F2.
  { eexists; split; [done|]. intros (_ & _ & H & _). specialize (H workspaces_t). congruence. }
  rewrite checkProjectAccess_run, CheckUserAccess_run.
  change (Project_WorkspaceID (preload_Workspace s p)) with (Project_WorkspaceID p).
  destruct (fails env (SELECT_FIRST workspace_members_t)) eqn:F3.
  { eexists; split; [done|]. intros (_ & H & _). specialize (H workspace_members_t).
    congruence. }
  destruct (head (filter (member_where _ _) _)) as [m|] eqn:Hm.
  2:{ eexists; split; [done|]. intros _ project Hproj Hmem.
      injection Hproj as <-. destruct Hmem as (? & Hm' & _). congruence. }
  destruct (hasRequiredRole _ _) eqn:Hrole.
  2:{ eexists; split; [done|]. intros _ project Hproj Hmem.
      injection Hproj as <-. destruct Hmem as (m' & Hm' & Hr).
      rewrite Hm in Hm'. injection Hm' as <-. congruence. }
  destruct (airtableBaseRepository_List_run env
              (mkAirtableBaseFilter projectID None "" 0 1 "" "") s)
    as (r & -> & Htotal & Hok).
  destruct r as [[rows total]|e].
  - rewrite (Htotal rows total eq_refl).
    rewrite bool_decide_eq_true_2 by lia.
    eexists; split; [done|]. intros _ _ _ _. eexists; split; [|done]. lia.
  - eexists; split; [done|]. intros (Hcount & _ & Hfind & _).
    destruct Hok as [rows [=]]; auto.
Qed.

Lemma DeleteWorkspace_with_projects env s workspaceID userID :
  count_rows (workspace_projects s workspaceID) >= 1 →
  ∃ e, workspaceService_DeleteWorkspace env workspaceID userID s = (Err e, s)
       ∧ (database_reachable env →
          member_with_role s workspaceID userID WorkspaceRoleOwner →
          e = fmt_Errorf_d "cannot delete workspace with %d active projects"
                           (count_rows (workspace_projects s workspaceID))).
Proof.
  intros Hc.
  unfold workspaceService_DeleteWorkspace, bind.
  rewrite CheckUserAccess_run.
  destruct (fails env (SELECT_FIRST workspace_members_t)) eqn:F1.
  { eexists; split; [done|]. intros (_ & H & _). specialize (H workspace_members_t).
    congruence. }
  destruct (head (filter (member_where _ _) _)) as [m|] eqn:Hm.
  2:{ eexists; split; [done|]. intros _ (? & Hm' & _). congruence. }
  destruct (hasRequiredRole _ _) eqn:Hrole.
  2:{ eexists; split; [done|]. intros _ (m' & Hm' & Hr).
      rewrite Hm in Hm'. injection Hm' as <-. congruence. }
  rewrite CountByWorkspace_run.
  destruct (fails env (SELECT_COUNT projects_t)) eqn:F2.
  { eexists; split; [done|]. intros (H & _). specialize (H projects_t). congruence. }
  rewrite bool_decide_eq_true_2 by lia.
  by eexists.
Qed.

(** C8. [DeleteProject] on a project with at least one live connection and
    [DeleteWorkspace] on a workspace with at least one live project fail and
    leave the whole store as it was: the parent stays live and no child is
    touched. For a caller with the required role and a reachable database
    the error is the one that names the children. *)
Theorem delete_blocked_by_children :
  (∀ env s projectID userID,
      count_rows (project_connections s projectID) >= 1 →
      ∃ e, projectService_DeleteProject env projectID userID s = (Err e, s)
           ∧ (database_reachable env →
              ∀ project,
                head (filter (project_id_where projectID) (projects s)) = Some project →
                member_with_role s (Project_WorkspaceID project) userID WorkspaceRoleAdmin →
                ∃ baseCount,
                  baseCount >= 1
                  ∧ e = fmt_Errorf_d "cannot delete project with %d connected Airtable bases"
                                     baseCount))
  ∧ (∀ env s workspaceID userID,
        count_rows (workspace_projects s workspaceID) >= 1 →
        ∃ e, workspaceService_DeleteWorkspace env workspaceID userID s = (Err e, s)
             ∧ (database_reachable env →
                member_with_role s workspaceID userID WorkspaceRoleOwner →
                e = fmt_Errorf_d "cannot delete workspace with %d active projects"
                                 (count_rows (workspace_projects s workspaceID)))).
Proof.
  split.
  - apply DeleteProject_with_connections.
  - apply DeleteWorkspace_with_projects.
Qed.

Lemma nothing_fails_database_reachable : database_reachable (example_env nothing_fails).
Proof. repeat split. Qed.

Lemma delete_blocked_by_children_witness :
  (∃ e, projectService_DeleteProject (example_env nothing_fails) "p-1" "alice" acme_store
        = (Err e, acme_store))
  ∧ workspaceService_DeleteWorkspace (example_env nothing_fails) "ws-1" "alice" acme_store
    = (Err (fmt_Errorf_d "cannot delete workspace with %d active projects" 1), acme_store).
Proof.
  split.
  - destruct (proj1 delete_blocked_by_children (example_env nothing_fails) acme_store
                "p-1" "alice") as (e & He & _).
    + vm_compute. discriminate.
    + by exists e.
  - destruct (proj2 delete_blocked_by_children (example_env nothing_fails) acme_store
                "ws-1" "alice") as (e & He & Herr).
    + vm_compute. discriminate.
    + rewrite He. rewrite Herr.
      * reflexivity.
      * exact nothing_fails_database_reachable.
      * eexists. split; reflexivity.
Defined.

(** ** C10: the page of members and the page size reported with it *)

Lemma totalPages_of_ceiling total pageSize :
  0 <= total → 0 < pageSize →
  totalPages_of total pageSize = (total + pageSize - 1) `div` pageSize.
Proof.
  intros Ht Hp. unfold totalPages_of.
  rewrite Z.quot_div_nonneg, Z.rem_mod_nonneg by lia.
  pose proof (Z.div_mod total pageSize ltac:(lia)) as Hdm.
  pose proof (Z.mod_pos_bound total pageSize Hp) as Hb.
  case_bool_decide as Hr.
  - apply Z.div_unique with (r := total `mod` pageSize - 1); [lia|nia].
  - apply Z.div_unique with (r := pageSize - 1); [lia|nia].
Qed.

Lemma length_gorm_Limit {A} (limit : Z) (rows : list A) :
  0 <= limit → (length (gorm_Limit limit rows) ≤ Z.to_nat limit)%nat.
Proof.
  intros Hl. unfold gorm_Limit. rewrite bool_decide_eq_true_2 by lia.
  rewrite length_take. lia.
Qed.

Lemma workspaceMemberRepository_List_run env workspaceID page pageSize s :
  fails env (SELECT_COUNT workspace_members_t) = false →
  fails env (SELECT_FIND workspace_members_t) = false →
  pageSize > 100 →
  workspaceMemberRepository_List env workspaceID page pageSize s =
  (Ok (members_page_of_100 env s workspaceID page,
       count_rows (filter (fun m => WorkspaceMember_WorkspaceID m = workspaceID)
                          (workspace_members s))), s).
Proof.
  intros Hc Hf Hp.
  unfold workspaceMemberRepository_List, bind, read, ret, round_trip, members_page_of_100.
  rewrite Hc, Hf.
  rewrite (bool_decide_eq_false_2 (pageSize < 1)) by lia.
  rewrite (bool_decide_eq_true_2 (pageSize > 100)) by lia.
  reflexivity.
Qed.

(** C10. For a member of the workspace asking for a page size above 100,
    [ListMembers] reports the page size as asked and the number of pages
    that size gives, while the members it returns are the page the
    repository cuts with a page size of 100, at most 100 rows. *)
Theorem ListMembers_two_page_sizes env s workspaceID userID page pageSize :
  pageSize > 100 →
  members_reachable env →
  member_with_role s workspaceID userID WorkspaceRoleViewer →
  ∃ response,
    memberService_ListMembers env workspaceID userID page pageSize s = (Ok response, s)
    ∧ WorkspaceMemberListResponse_PageSize response = pageSize
    ∧ WorkspaceMemberListResponse_Total response
      = count_rows (filter (fun m => WorkspaceMember_WorkspaceID m = workspaceID)
                           (workspace_members s))
    ∧ WorkspaceMemberListResponse_TotalPages response
      = (WorkspaceMemberListResponse_Total response + pageSize - 1) `div` pageSize
    ∧ WorkspaceMemberListResponse_Members response
      = members_page_of_100 env s workspaceID page
    ∧ (length (WorkspaceMemberListResponse_Members response) ≤ 100)%nat.
Proof.
  intros Hp (Hfirst & Hcount & Hfind) (m & Hm & Hrole).
  unfold memberService_ListMembers, bind, catch.
  rewrite GetByWorkspaceAndUser_run, Hfirst, Hm, Hrole. cbn [negb].
  rewrite workspaceMemberRepository_List_run by done.
  rewrite (bool_decide_eq_false_2 (pageSize < 1)) by lia.
  eexists. split; [reflexivity|]. cbn.
  split; [done|]. split; [done|]. split; [|split; [done|]].
  - apply totalPages_of_ceiling; [|lia]. unfold count_rows. lia.
  - unfold members_page_of_100.
    etrans; [apply length_gorm_Limit; lia|]. lia.
Qed.

Lemma ListMembers_two_page_sizes_witness :
  ∃ response,
    memberService_ListMembers (example_env nothing_fails) "ws-1" "bob" 1 250 acme_store
    = (Ok response, acme_store)
    ∧ WorkspaceMemberListResponse_PageSize response = 250
    ∧ WorkspaceMemberListResponse_Total response = 2
    ∧ WorkspaceMemberListResponse_TotalPages response = 1
    ∧ (length (WorkspaceMemberListResponse_Members response) ≤ 100)%nat.
Proof.
  destruct (ListMembers_two_page_sizes (example_env nothing_fails) acme_store
              "ws-1" "bob" 1 250) as (response & Hrun & Hps & Htotal & Hpages & _ & Hlen).
  - lia.
  - exact nothing_fails_members_reachable.
  - eexists. split; reflexivity.
  - exists response. rewrite Hpages, Htotal. repeat split; done.
Defined.

(** ** C3: callers without a membership row *)

Lemma cacheRepository_GetWorkspace_run env id s :
  cacheRepository_GetWorkspace env id s =
  (if fails env REDIS_GET then Err io_failure
   else match redis s !! (workspaceCachePrefix ++ id)%string with
        | None => Ok None
        | Some blob => match json_Unmarshal_Workspace blob with
                       | Err e => Err e
                       | Ok w => Ok (Some w)
                       end
        end, s).
Proof.
  unfold cacheRepository_GetWorkspace, bind, round_trip, read.
  destruct (fails env REDIS_GET); [done|].
  destruct (redis s !! _) as [blob|]; [|done].
  by destruct (json_Unmarshal_Workspace blob).
Qed.

Lemma non_member_CheckUserAccess env s workspaceID userID requiredRole :
  non_member s workspaceID userID →
  fails env (SELECT_FIRST workspace_members_t) = false →
  workspaceService_CheckUserAccess env workspaceID userID requiredRole s
  = (Err services_ErrUnauthorized, s).
Proof.
  intros Hn Hf. by rewrite CheckUserAccess_run, Hf, non_member_first.
Qed.

Lemma non_member_GetWorkspace env s workspaceID userID :
  non_member s workspaceID userID →
  fails env (SELECT_FIRST workspace_members_t) = false →
  workspace_cached env s workspaceID ∨ workspace_stored env s workspaceID →
  workspaceService_GetWorkspace env workspaceID userID s = (Err services_ErrUnauthorized, s).
Proof.
  intros Hn Hf Hserved.
  unfold workspaceService_GetWorkspace, bind, catch.
  rewrite cacheRepository_GetWorkspace_run.
  assert (Hhit : ∀ w : Workspace,
    (workspaceService_CheckUserAccess env workspaceID userID WorkspaceRoleViewer ;;
     ret w) s = (Err services_ErrUnauthorized, s)).
  { intros w. unfold bind. by rewrite non_member_CheckUserAccess. }
  assert (Hmiss : workspace_stored env s workspaceID →
    (workspace <- workspaceRepository_GetByID env workspaceID ;;
     workspaceService_CheckUserAccess env workspaceID userID WorkspaceRoleViewer ;;
     ignore (cacheRepository_SetWorkspace env workspace) ;;
     ret workspace) s = (Err services_ErrUnauthorized, s)).
  { intros (Hfirst & w & Hin & Hw). unfold bind.
    rewrite workspaceRepository_GetByID_run, Hfirst.
    destruct (head_filter_elem _ _ _ Hin Hw) as (w' & -> & _).
    by rewrite non_member_CheckUserAccess. }
  destruct Hserved as [(Hget & blob & w & Hblob & Hw) | Hstored].
  - rewrite Hget, Hblob, Hw. apply Hhit.
  - destruct (fails env REDIS_GET); [by apply Hmiss|].
    destruct (redis s !! _) as [blob|]; [|by apply Hmiss].
    destruct (json_Unmarshal_Workspace blob); [apply Hhit | by apply Hmiss].
Qed.

(** C3, as amended. A caller with no membership row in the workspace is
    refused with [ErrUnauthorized] by the access check, and by
    [GetWorkspace] for a workspace that the cache or the store can serve;
    [ListMembers], [GetAuditLogs] with a workspace filter and
    [ListProjects] with a workspace filter answer that caller with a
    successful empty page. None of them changes the store. *)
Theorem non_member_outcomes env s workspaceID userID :
  non_member s workspaceID userID →
  fails env (SELECT_FIRST workspace_members_t) = false →
  (∀ requiredRole,
      workspaceService_CheckUserAccess env workspaceID userID requiredRole s
      = (Err services_ErrUnauthorized, s))
  ∧ (workspace_cached env s workspaceID ∨ workspace_stored env s workspaceID →
     workspaceService_GetWorkspace env workspaceID userID s
     = (Err services_ErrUnauthorized, s))
  ∧ (∀ page pageSize,
        memberService_ListMembers env workspaceID userID page pageSize s
        = (Ok (mkWorkspaceMemberListResponse [] 0 page pageSize 0), s))
  ∧ (∀ flt,
        AuditLogFilter_WorkspaceID flt = workspaceID → workspaceID ≠ "" →
        auditService_GetAuditLogs env flt userID s
        = (Ok (mkAuditLogListResponse [] 0 1 (AuditLogFilter_PageSize flt) 0), s))
  ∧ (∀ flt,
        ProjectFilter_WorkspaceID flt = workspaceID → workspaceID ≠ "" →
        projectService_ListProjects env flt userID s
        = (Ok (mkProjectListResponse [] 0 1 (ProjectFilter_PageSize flt) 0), s)).
Proof.
  intros Hn Hf. split; [|split; [|split; [|split]]].
  - intros r. by apply non_member_CheckUserAccess.
  - by apply non_member_GetWorkspace.
  - intros page pageSize. unfold memberService_ListMembers, bind, catch.
    by rewrite GetByWorkspaceAndUser_run, Hf, non_member_first.
  - intros flt Hw Hne. unfold auditService_GetAuditLogs, bind, catch.
    rewrite Hw, bool_decide_eq_true_2 by done.
    by rewrite GetByWorkspaceAndUser_run, Hf, non_member_first.
  - intros flt Hw Hne. unfold projectService_ListProjects, bind, catch.
    rewrite Hw, bool_decide_eq_true_2 by done.
    by rewrite GetByWorkspaceAndUser_run, Hf, non_member_first.
Qed.

Lemma mallory_non_member : non_member acme_store "ws-1" "mallory".
Proof.
  intros m Hm [_ Hu]. vm_compute in Hm.
  repeat (apply elem_of_cons in Hm as [->|Hm]; [discriminate|]).
  inversion Hm.
Qed.

Lemma non_member_outcomes_witness :
  workspaceService_GetWorkspace (example_env nothing_fails) "ws-1" "mallory" acme_store
  = (Err services_ErrUnauthorized, acme_store)
  ∧ memberService_ListMembers (example_env nothing_fails) "ws-1" "mallory" 1 20 acme_store
    = (Ok (mkWorkspaceMemberListResponse [] 0 1 20 0), acme_store).
Proof.
  destruct (non_member_outcomes (example_env nothing_fails) acme_store "ws-1" "mallory")
    as (_ & Hget & Hlist & _).
  - exact mallory_non_member.
  - reflexivity.
  - split; [|apply Hlist].
    apply Hget. right. split; [reflexivity|].
    exists acme. split; [left|split; reflexivity].
Defined.

(** C3, as stated, fails: "mallory" has no membership row in "ws-1", and
    the three listings answer her with a successful empty page, not with
    [ErrUnauthorized]. *)
Lemma non_member_gets_empty_pages :
  non_member acme_store "ws-1" "mallory"
  ∧ (memberService_ListMembers (example_env nothing_fails) "ws-1" "mallory" 1 20
       acme_store).1
    = Ok (mkWorkspaceMemberListResponse [] 0 1 20 0)
  ∧ (auditService_GetAuditLogs (example_env nothing_fails)
       (mkAuditLogFilter "ws-1" "" "" "" "" 1 20 "" "") "mallory" acme_store).1
    = Ok (mkAuditLogListResponse [] 0 1 20 0)
  ∧ (projectService_ListProjects (example_env nothing_fails)
       (mkProjectFilter "ws-1" "" "" "" 1 20 "" "" false) "mallory" acme_store).1
    = Ok (mkProjectListResponse [] 0 1 20 0).
Proof.
  split; [exact mallory_non_member|]. repeat split; reflexivity.
Qed.

(** ** C4: who reads the audit trail *)

Lemma auditLogRepository_List_run env flt s :
  fails env (SELECT_COUNT workspace_audit_logs_t) = false →
  fails env (SELECT_FIND workspace_audit_logs_t) = false →
  auditLogRepository_List env flt s =
  (Ok (gorm_Limit (paging (AuditLogFilter_Page flt) (AuditLogFilter_PageSize flt) 50).2
         (gorm_Offset (paging (AuditLogFilter_Page flt) (AuditLogFilter_PageSize flt) 50).1
            (order_workspace_audit_logs env
               (order_clause env (AuditLogFilter_SortBy flt) (AuditLogFilter_SortOrder flt))
               (filter (audit_filter_where flt) (workspace_audit_logs s)))),
       count_rows (filter (audit_filter_where flt) (workspace_audit_logs s))), s).
Proof.
  intros Hc Hf.
  unfold auditLogRepository_List, bind, read, ret, round_trip.
  rewrite Hc. destruct (paging _ _ _) as [offset pageSize]. by rewrite Hf.
Qed.

(** C4, on the code. With a filter that names no workspace, [GetAuditLogs]
    makes no membership or role check: whoever the caller is and whatever
    the membership table holds, the call succeeds when the audit table
    answers, counts every entry the other filter fields select, across all
    workspaces, and returns a page of them. *)
Theorem GetAuditLogs_without_workspace_filter_serves_anyone env flt userID s :
  AuditLogFilter_WorkspaceID flt = "" →
  fails env (SELECT_COUNT workspace_audit_logs_t) = false →
  fails env (SELECT_FIND workspace_audit_logs_t) = false →
  ∃ response,
    auditService_GetAuditLogs env flt userID s = (Ok response, s)
    ∧ AuditLogListResponse_Total response
      = count_rows (filter (audit_filter_where flt) (workspace_audit_logs s))
    ∧ AuditLogListResponse_Logs response
      = gorm_Limit (paging (AuditLogFilter_Page flt) (AuditLogFilter_PageSize flt) 50).2
          (gorm_Offset (paging (AuditLogFilter_Page flt) (AuditLogFilter_PageSize flt) 50).1
             (order_workspace_audit_logs env
                (order_clause env (AuditLogFilter_SortBy flt) (AuditLogFilter_SortOrder flt))
                (filter (audit_filter_where flt) (workspace_audit_logs s)))).
Proof.
  intros Hw Hc Hf. unfold auditService_GetAuditLogs.
  rewrite Hw, bool_decide_eq_false_2 by (intros Hne; by apply Hne).
  unfold bind. rewrite auditLogRepository_List_run by done.
  eexists. split; [reflexivity|]. split; reflexivity.
Qed.

Lemma GetAuditLogs_without_workspace_filter_serves_anyone_witness :
  non_member acme_store "ws-1" "mallory"
  ∧ ∃ response,
      auditService_GetAuditLogs (example_env nothing_fails)
        (mkAuditLogFilter "" "" "" "" "" 1 20 "" "") "mallory" acme_store
      = (Ok response, acme_store)
      ∧ AuditLogListResponse_Logs response
        = [mkWorkspaceAuditLog "a-1" "ws-1" "alice" "workspace.created" "workspace"
                               "ws-1" None 100].
Proof.
  split; [exact mallory_non_member|].
  destruct (GetAuditLogs_without_workspace_filter_serves_anyone
              (example_env nothing_fails) (mkAuditLogFilter "" "" "" "" "" 1 20 "" "")
              "mallory" acme_store eq_refl eq_refl eq_refl)
    as (response & Hrun & _ & Hlogs).
  exists response. split; [exact Hrun|]. rewrite Hlogs. reflexivity.
Defined.

(** ** C2: the workspace and its owner *)

Lemma workspaceMemberRepository_Add_failed env member s :
  fails env (SELECT_COUNT workspace_members_t) = true
  ∨ fails env (INSERT workspace_members_t) = true →
  filter (member_where (WorkspaceMember_WorkspaceID member) (WorkspaceMember_UserID member))
         (workspace_members s) = [] →
  workspaceMemberRepository_Add env member s = (Err io_failure, s).
Proof.
  intros Hfail Hdup.
  unfold workspaceMemberRepository_Add, bind, read, write, ret, round_trip.
  destruct (fails env (SELECT_COUNT workspace_members_t)); [done|].
  rewrite Hdup. cbn. destruct Hfail as [[=]| ->]. reflexivity.
Qed.

(** C2, on the code. Whenever the workspace row is written and the insert
    of the owner's membership then fails, [CreateWorkspace] returns the
    error with the new workspace row left in the store, live, and with no
    membership row for it: the rollback of the transaction undoes nothing,
    because neither write went through the transaction. *)
Theorem CreateWorkspace_leaves_workspace_without_owner env s tenantID userID req :
  count_rows (tenant_workspaces s tenantID) < maxWorkspacesPerTenant →
  tenantID ≠ "" →
  fails env (SELECT_COUNT workspaces_t) = false →
  fails env (SELECT_FIND workspaces_t) = false →
  fails env (INSERT workspaces_t) = false →
  fails env (SELECT_COUNT workspace_members_t) = true
  ∨ fails env (INSERT workspace_members_t) = true →
  filter (fun w => Workspace_TenantID w = tenantID
                   ∧ Workspace_Name w = CreateWorkspaceRequest_Name req
                   ∧ Workspace_DeletedAt w = None) (workspaces s) = [] →
  (∀ m, m ∈ workspace_members s →
        WorkspaceMember_WorkspaceID m ≠ gen_random_uuid env (uuid_seq s)) →
  ∃ workspace s',
    workspaceService_CreateWorkspace env tenantID userID req s = (Err io_failure, s')
    ∧ workspaces s' = workspaces s ++ [workspace]
    ∧ Workspace_DeletedAt workspace = None
    ∧ workspace_members s' = workspace_members s
    ∧ ∀ m, m ∈ workspace_members s' →
           WorkspaceMember_WorkspaceID m ≠ Workspace_ID workspace.
Proof.
  intros Hq Hne Hcount Hfind Hinsert Hmember Hdup Hfresh.
  unfold workspaceService_CreateWorkspace, bind, catch.
  rewrite workspaceRepository_List_run, Hcount, Hfind.
  rewrite tenant_workspaces_filter by done.
  rewrite bool_decide_eq_false_2 by lia.
  set (workspace0 := match Workspace_Settings _ with None => _ | Some _ => _ end).
  assert (Hw0 : Workspace_TenantID workspace0 = tenantID
                ∧ Workspace_Name workspace0 = CreateWorkspaceRequest_Name req
                ∧ Workspace_ID workspace0 = "" ∧ Workspace_DeletedAt workspace0 = None).
  { subst workspace0. by destruct (CreateWorkspaceRequest_Settings req). }
  destruct Hw0 as (Hw0t & Hw0n & Hw0i & Hw0d).
  destruct (Repositories_BeginTx env s) as [rtx stx] eqn:Hbegin.
  assert (∃ tx, rtx = Ok tx ∧ stx = s) as (tx & -> & ->).
  { revert Hbegin. unfold Repositories_BeginTx.
    destruct (fails env TX_BEGIN); intros [= <- <-]; by eexists. }
  rewrite workspaceRepository_Create_run; [ | done | done | by rewrite Hw0t, Hw0n | done ].
  set (created := Workspace_defaults _ _ _).
  assert (Hid : Workspace_ID created = gen_random_uuid env (uuid_seq s)).
  { subst created. unfold Workspace_defaults. cbn. by rewrite Hw0i. }
  rewrite workspaceMemberRepository_Add_failed; [ | done | ].
  2:{ apply filter_none. intros m Hm [Hmw _].
      cbn [WorkspaceMember_WorkspaceID] in Hmw. rewrite Hid in Hmw.
      by apply (Hfresh m Hm). }
  unfold Tx_Rollback, ret, fail.
  eexists created, _. split; [reflexivity|].
  split; [reflexivity|]. split; [by subst created|]. split; [reflexivity|].
  intros m Hm. rewrite Hid. by apply Hfresh.
Qed.

Lemma CreateWorkspace_leaves_workspace_without_owner_witness :
  ∃ workspace s',
    workspaceService_CreateWorkspace (example_env member_insert_fails) "t2" "carol"
      (mkCreateWorkspaceRequest "Beta" "" None) acme_store
    = (Err io_failure, s')
    ∧ workspaces s' = workspaces acme_store ++ [workspace]
    ∧ Workspace_DeletedAt workspace = None
    ∧ workspace_members s' = workspace_members acme_store
    ∧ ∀ m, m ∈ workspace_members s' →
           WorkspaceMember_WorkspaceID m ≠ Workspace_ID workspace.
Proof.
  apply (CreateWorkspace_leaves_workspace_without_owner
           (example_env member_insert_fails) acme_store "t2" "carol"
           (mkCreateWorkspaceRequest "Beta" "" None)).
  - vm_compute. reflexivity.
  - discriminate.
  - reflexivity.
  - reflexivity.
  - reflexivity.
  - right. reflexivity.
  - reflexivity.
  - intros m Hm. vm_compute in Hm.
    repeat (apply elem_of_cons in Hm as [->|Hm]; [discriminate|]).
    inversion Hm.
Defined.

(** ** C9: reads after an update *)

Lemma workspace_key_inj (a b : string) :
  (workspaceCachePrefix ++ a)%string = (workspaceCachePrefix ++ b)%string → a = b.
Proof. intros H. by injection H. Qed.

Lemma cacheRepository_SetWorkspace_run env w s :
  cacheRepository_SetWorkspace env w s =
  if fails env REDIS_SET then (Err io_failure, s)
  else (Ok tt, set_redis (insert (workspaceCachePrefix ++ Workspace_ID w)%string
                                 (blob_Workspace w)) s).
Proof.
  unfold cacheRepository_SetWorkspace, bind, round_trip, write.
  by destruct (fails env REDIS_SET).
Qed.

Lemma workspace_named_cached workspaceID name s w :
  workspace_named workspaceID name s →
  w ∈ workspaces s →
  (Workspace_ID w = workspaceID → workspace_id_where workspaceID w) →
  workspace_named workspaceID name
    (set_redis (insert (workspaceCachePrefix ++ Workspace_ID w)%string (blob_Workspace w)) s).
Proof.
  intros (Hrows & Hcache & Hlive) Hin Hw. split; [exact Hrows|]. split; [|exact Hlive].
  intros blob w'. cbn [redis set_redis]. rewrite lookup_insert.
  case_decide as Hkey.
  - intros [= <-] [= <-]. apply Hrows; [done|]. apply Hw. by apply workspace_key_inj.
  - apply Hcache.
Qed.

Lemma workspace_named_expired workspaceID name key s :
  workspace_named workspaceID name s →
  workspace_named workspaceID name (set_redis (delete key) s).
Proof.
  intros (Hrows & Hcache & Hlive). split; [exact Hrows|]. split; [|exact Hlive].
  intros blob w. cbn [redis set_redis]. rewrite lookup_delete.
  case_decide; [done|]. apply Hcache.
Qed.

(** A read keeps the names and, for the workspace itself, yields the name;
    a caller with a membership gets it whenever the tables answer. *)
Lemma GetWorkspace_named env workspaceID name workspaceID' userID s r s' :
  workspace_named workspaceID name s →
  workspaceService_GetWorkspace env workspaceID' userID s = (r, s') →
  workspace_named workspaceID name s'
  ∧ (workspaceID' = workspaceID →
     (∀ w, r = Ok w → Workspace_Name w = name)
     ∧ (fails env (SELECT_FIRST workspaces_t) = false →
        fails env (SELECT_FIRST workspace_members_t) = false →
        member_with_role s workspaceID userID WorkspaceRoleViewer →
        ∃ w, r = Ok w)).
Proof.
  intros Hnamed.
  pose proof Hnamed as (Hrows & Hcache & row0 & Hrow0 & Hid0).
  unfold workspaceService_GetWorkspace, bind, catch.
  rewrite cacheRepository_GetWorkspace_run.
  assert (Hmiss : ∀ r s',
    (workspace <- workspaceRepository_GetByID env workspaceID' ;;
     workspaceService_CheckUserAccess env workspaceID' userID WorkspaceRoleViewer ;;
     ignore (cacheRepository_SetWorkspace env workspace) ;;
     ret workspace) s = (r, s') →
    workspace_named workspaceID name s'
    ∧ (workspaceID' = workspaceID →
       (∀ w, r = Ok w → Workspace_Name w = name)
       ∧ (fails env (SELECT_FIRST workspaces_t) = false →
          fails env (SELECT_FIRST workspace_members_t) = false →
          member_with_role s workspaceID userID WorkspaceRoleViewer →
          ∃ w, r = Ok w))).
  { clear r s'. intros r s'. unfold bind, ignore, ret.
    rewrite workspaceRepository_GetByID_run.
    destruct (fails env (SELECT_FIRST workspaces_t)).
    { intros [= <- <-]. split; [done|]. intros _. split; [done|]. done. }
    destruct (head (filter (workspace_id_where workspaceID') (workspaces s))) as [w|] eqn:Hw.
    2:{ intros [= <- <-]. split; [done|]. intros ->. split; [done|]. intros _ _ _.
        destruct (head_filter_elem _ _ _ Hrow0 Hid0) as (? & ? & _). congruence. }
    apply head_filter_Some_elem in Hw as [Hin Hidw].
    rewrite CheckUserAccess_run.
    destruct (fails env (SELECT_FIRST workspace_members_t)).
    { intros [= <- <-]. split; [done|]. intros _. split; [done|]. done. }
    destruct (head (filter (member_where workspaceID' userID) _)) as [m|] eqn:Hm.
    2:{ intros [= <- <-]. split; [done|]. intros ->. split; [done|].
        intros _ _ (? & ? & _). congruence. }
    destruct (hasRequiredRole _ _) eqn:Hrole.
    2:{ intros [= <- <-]. split; [done|]. intros ->. split; [done|].
        intros _ _ (? & Hm' & Hr). rewrite Hm in Hm'. injection Hm' as <-. congruence. }
    rewrite cacheRepository_SetWorkspace_run.
    destruct (fails env REDIS_SET); intros [= <- <-].
    - split; [done|]. intros ->. split; [|by eexists].
      intros ? [= <-]. by apply Hrows.
    - split.
      + apply workspace_named_cached; [done..|].
        intros Heq. destruct Hidw as [_ Hd]. by split.
      + intros ->. split; [|by eexists]. intros ? [= <-]. by apply Hrows. }
  destruct (fails env REDIS_GET); [apply Hmiss|].
  destruct (redis s !! (workspaceCachePrefix ++ workspaceID')%string) as [blob|] eqn:Hblob;
    [|apply Hmiss].
  destruct (json_Unmarshal_Workspace blob) as [w|] eqn:Hu; [|apply Hmiss].
  rewrite CheckUserAccess_run. unfold ret.
  destruct (fails env (SELECT_FIRST workspace_members_t)).
  { intros [= <- <-]. split; [done|]. intros _. split; [done|]. done. }
  destruct (head (filter (member_where workspaceID' userID) _)) as [m|] eqn:Hm.
  2:{ intros [= <- <-]. split; [done|]. intros ->. split; [done|].
      intros _ _ (? & ? & _). congruence. }
  destruct (hasRequiredRole _ _) eqn:Hrole.
  2:{ intros [= <- <-]. split; [done|]. intros ->. split; [done|].
      intros _ _ (? & Hm' & Hr). rewrite Hm in Hm'. injection Hm' as <-. congruence. }
  intros [= <- <-]. split; [done|]. intros ->. split; [|by eexists].
  intros ? [= <-]. by eapply Hcache.
Qed.

Lemma later_named workspaceID name s1 s2 :
  workspace_named workspaceID name s1 → later s1 s2 → workspace_named workspaceID name s2.
Proof.
  intros Hnamed Hlater. induction Hlater as [s|s1 s2 s3 _ IH Hstep]; [done|].
  specialize (IH Hnamed). inversion Hstep as [env w u ? r ? Hrun|key ?]; subst.
  - by destruct (GetWorkspace_named env workspaceID name w u s2 r s3 IH Hrun).
  - by apply workspace_named_expired.
Qed.

Lemma workspaceRepository_Update_ok env workspace s stamped s' :
  workspaceRepository_Update env workspace s = (Ok stamped, s') →
  stamped = Workspace_with_UpdatedAt (time_Now env) workspace
  ∧ s' = set_workspaces
           (fmap (fun row => if decide (workspace_id_where (Workspace_ID workspace) row)
                             then Workspace_Updates env workspace row else row)) s
  ∧ ∃ row, row ∈ workspaces s ∧ workspace_id_where (Workspace_ID workspace) row.
Proof.
  unfold workspaceRepository_Update, bind, read, write, ret, fail, round_trip.
  destruct (bool_decide (Workspace_Name workspace ≠ "")).
  - destruct (fails env (SELECT_COUNT workspaces_t)); [intros [=]|].
    destruct (bool_decide (_ > 0)); [intros [=]|].
    destruct (bool_decide (Workspace_ID workspace = "")); [intros [=]|].
    destruct (fails env (UPDATE workspaces_t)); [intros [=]|].
    case_bool_decide as Hrows; intros [= <- <-]. split; [done|]. split; [done|].
    destruct (filter _ (workspaces s)) as [|row rows] eqn:Hf; [done|].
    exists row. apply (head_filter_Some_elem _ _ row). by rewrite Hf.
  - destruct (bool_decide (Workspace_ID workspace = "")); [intros [=]|].
    destruct (fails env (UPDATE workspaces_t)); [intros [=]|].
    case_bool_decide as Hrows; intros [= <- <-]. split; [done|]. split; [done|].
    destruct (filter _ (workspaces s)) as [|row rows] eqn:Hf; [done|].
    exists row. apply (head_filter_Some_elem _ _ row). by rewrite Hf.
Qed.

Lemma persisted_named workspaceID name s s' :
  persisted s' = persisted s →
  workspace_named workspaceID name s → workspace_named workspaceID name s'.
Proof.
  unfold workspace_named. intros [= Hw _ _ _ Hr]. by rewrite Hw, Hr.
Qed.

Lemma bind_Ok_inv {A B} (c : M A) (k : A → M B) s b s1 :
  bind c k s = (Ok b, s1) → ∃ a s', c s = (Ok a, s') ∧ k a s' = (Ok b, s1).
Proof.
  unfold bind. destruct (c s) as [[a|e] s']; [|intros [=]]. intros H. by exists a, s'.
Qed.

Lemma CheckUserAccess_state env w u role s r s' :
  workspaceService_CheckUserAccess env w u role s = (r, s') → s' = s.
Proof.
  rewrite CheckUserAccess_run.
  destruct (fails env _); [by intros [= _ <-]|].
  destruct (head _); [|by intros [= _ <-]].
  destruct (hasRequiredRole _ _); by intros [= _ <-].
Qed.

Lemma workspaceRepository_GetByID_Ok env id s w s' :
  workspaceRepository_GetByID env id s = (Ok w, s') →
  s' = s ∧ w ∈ workspaces s ∧ workspace_id_where id w.
Proof.
  rewrite workspaceRepository_GetByID_run.
  destruct (fails env _); [intros [=]|].
  destruct (head _) as [w'|] eqn:Hw; [|intros [=]].
  intros [= <- <-]. split; [done|]. exact (head_filter_Some_elem _ _ _ Hw).
Qed.

(** The steps of [UpdateWorkspace] from the store update on. *)
Lemma UpdateWorkspace_tail_named env s workspaceID userID wu changes name updated s1 :
  Workspace_Name wu = name →
  Workspace_ID wu = workspaceID →
  Workspace_DeletedAt wu = None →
  name ≠ "" →
  fails env REDIS_DEL = false →
  (workspace <- workspaceRepository_Update env wu ;;
   ignore (cacheRepository_DeleteWorkspace env workspaceID) ;;
   (if bool_decide (count_rows changes > 0) then
      ignore (auditService_LogAction env workspaceID userID "workspace.updated" "workspace"
                workspaceID (Some changes))
    else ret tt) ;;
   ret workspace) s = (Ok updated, s1) →
  Workspace_Name updated = name ∧ workspace_named workspaceID name s1.
Proof.
  intros Hwun Hwui Hwud Hne Hdel Hrun.
  apply bind_Ok_inv in Hrun as (stamped & s' & Hupd & Hrun).
  apply workspaceRepository_Update_ok in Hupd as (-> & -> & row & Hrow & Hrowid).
  revert Hrun.
  unfold ignore, cacheRepository_DeleteWorkspace, bind, round_trip, write.
  rewrite Hdel.
  set (s2 := set_redis _ _).
  assert (Hs2 : workspace_named workspaceID name s2).
  { subst s2. split; [|split].
    - intros row'. cbn [workspaces set_redis set_workspaces].
      intros (r0 & -> & Hr0)%list_elem_of_fmap Hid'.
      case_decide as Hmatch.
      + unfold Workspace_Updates. cbn [Workspace_Name].
        rewrite Hwun. by rewrite bool_decide_eq_false_2.
      + exfalso. apply Hmatch. by rewrite Hwui.
    - intros blob w. cbn [redis set_redis set_workspaces]. by rewrite lookup_delete_eq.
    - exists (Workspace_Updates env wu row). cbn [workspaces set_redis set_workspaces].
      split.
      + apply list_elem_of_fmap. exists row. split; [by rewrite decide_True|done].
      + destruct Hrowid as [Hri Hrd]. split; cbn; [by rewrite Hri | by rewrite Hwud]. }
  clearbody s2.
  destruct (bool_decide (count_rows changes > 0)).
  - destruct (LogAction_run env workspaceID userID "workspace.updated" "workspace"
                workspaceID (Some changes) s2) as (s3 & -> & Hs3).
    unfold ret. intros [= <- <-]. split; [done|]. by apply (persisted_named _ _ _ _ Hs3).
  - unfold ret. intros [= <- <-]. by split.
Qed.

(** An update that renames and invalidates leaves the new name as the only
    one to be read. *)
Lemma UpdateWorkspace_named env s workspaceID userID req name updated s1 :
  UpdateWorkspaceRequest_Name req = Some name →
  name ≠ "" →
  fails env REDIS_DEL = false →
  workspaceService_UpdateWorkspace env workspaceID userID req s = (Ok updated, s1) →
  Workspace_Name updated = name ∧ workspace_named workspaceID name s1.
Proof.
  intros Hname Hne Hdel Hrun.
  unfold workspaceService_UpdateWorkspace in Hrun.
  apply bind_Ok_inv in Hrun as ([] & s' & Hacc & Hrun).
  apply CheckUserAccess_state in Hacc as ->.
  apply bind_Ok_inv in Hrun as (w0 & s' & Hget & Hrun).
  apply workspaceRepository_GetByID_Ok in Hget as (-> & Hin0 & Hid0 & Hlive0).
  rewrite Hname in Hrun.
  destruct (UpdateWorkspaceRequest_Description req) as [description|],
           (UpdateWorkspaceRequest_Settings req) as [settings|];
    cbv beta iota zeta in Hrun;
    by eapply UpdateWorkspace_tail_named in Hrun.
Qed.

(** C9, as amended. After a successful [UpdateWorkspace] that sets a name
    that is not empty and whose cache invalidation went through, every
    later [GetWorkspace] of that workspace that returns a workspace returns
    it under the new name, whether it is served from the cache or from the
    store, by whoever asks and whatever fails during the read, as long as
    only such reads and cache expiries happen in between; and such a read
    does return the workspace to a member when the two tables answer. *)
Theorem reads_after_update_see_new_name env s workspaceID userID req name updated s1 :
  UpdateWorkspaceRequest_Name req = Some name →
  name ≠ "" →
  fails env REDIS_DEL = false →
  workspaceService_UpdateWorkspace env workspaceID userID req s = (Ok updated, s1) →
  Workspace_Name updated = name
  ∧ ∀ s2, later s1 s2 →
      ∀ env' userID' r s3,
        workspaceService_GetWorkspace env' workspaceID userID' s2 = (r, s3) →
        (∀ w, r = Ok w → Workspace_Name w = name)
        ∧ (fails env' (SELECT_FIRST workspaces_t) = false →
           fails env' (SELECT_FIRST workspace_members_t) = false →
           member_with_role s2 workspaceID userID' WorkspaceRoleViewer →
           ∃ w, r = Ok w).
Proof.
  intros Hname Hne Hdel Hrun.
  destruct (UpdateWorkspace_named _ _ _ _ _ _ _ _ Hname Hne Hdel Hrun) as [Hupdated Hnamed].
  split; [done|]. intros s2 Hlater env' userID' r s3 Hget.
  pose proof (later_named _ _ _ _ Hnamed Hlater) as Hnamed2.
  destruct (GetWorkspace_named env' workspaceID name workspaceID userID' s2 r s3
              Hnamed2 Hget) as [_ Hread].
  by apply Hread.
Qed.

Lemma reads_after_update_see_new_name_witness :
  ∃ updated s1 w s3,
    workspaceService_UpdateWorkspace (example_env nothing_fails) "ws-1" "alice"
      (mkUpdateWorkspaceRequest (Some "Acme Ltd") None None) cached_acme_store
    = (Ok updated, s1)
    ∧ workspaceService_GetWorkspace (example_env nothing_fails) "ws-1" "bob" s1 = (Ok w, s3)
    ∧ Workspace_Name w = "Acme Ltd".
Proof.
  destruct (workspaceService_UpdateWorkspace (example_env nothing_fails) "ws-1" "alice"
              (mkUpdateWorkspaceRequest (Some "Acme Ltd") None None) cached_acme_store)
    as [[updated|e] s1] eqn:Hrun.
  2:{ vm_compute in Hrun. discriminate Hrun. }
  pose proof Hrun as Hconcrete. vm_compute in Hconcrete.
  injection Hconcrete as <- <-.
  destruct (reads_after_update_see_new_name (example_env nothing_fails) cached_acme_store
              "ws-1" "alice" (mkUpdateWorkspaceRequest (Some "Acme Ltd") None None)
              "Acme Ltd" _ _ eq_refl ltac:(discriminate) eq_refl Hrun) as [_ Hreads].
  match type of Hrun with _ = (_, ?s1) =>
    destruct (workspaceService_GetWorkspace (example_env nothing_fails) "ws-1" "bob" s1)
      as [r s3] eqn:Hget;
    destruct (Hreads s1 (later_now s1) (example_env nothing_fails) "bob" r s3 Hget)
      as [Hname Hlive]
  end.
  destruct Hlive as [w ->]; [reflexivity | reflexivity | eexists; split; reflexivity |].
  eexists _, _, w, s3. split; [exact Hrun|]. split; [exact Hget|]. by apply Hname.
Defined.

(** C9, as stated, fails twice over. When the cache invalidation fails, the
    update succeeds and the next read is served the old name from the
    cache; and an update to the empty name succeeds without changing the
    stored name, which the next read returns. *)
Lemma stale_name_after_update :
  (∃ updated s1 w s3,
      workspaceService_UpdateWorkspace (example_env cache_delete_fails) "ws-1" "alice"
        (mkUpdateWorkspaceRequest (Some "Acme Ltd") None None) cached_acme_store
      = (Ok updated, s1)
      ∧ Workspace_Name updated = "Acme Ltd"
      ∧ workspaceService_GetWorkspace (example_env nothing_fails) "ws-1" "bob" s1
        = (Ok w, s3)
      ∧ Workspace_Name w = "Acme")
  ∧ (∃ updated s1 w s3,
        workspaceService_UpdateWorkspace (example_env nothing_fails) "ws-1" "alice"
          (mkUpdateWorkspaceRequest (Some "") None None) acme_store
        = (Ok updated, s1)
        ∧ Workspace_Name updated = ""
        ∧ workspaceService_GetWorkspace (example_env nothing_fails) "ws-1" "bob" s1
          = (Ok w, s3)
        ∧ Workspace_Name w = "Acme").
Proof.
  split; do 4 eexists; (split; [vm_compute; reflexivity|]);
    (split; [reflexivity|]); (split; [vm_compute; reflexivity|]); reflexivity.
Qed.

(** * Further properties of the repositories and services *)

(** ** The membership table *)

Lemma IsLastOwner_run env w u s :
  workspaceMemberRepository_IsLastOwner env w u s =
  if fails env (SELECT_FIRST workspace_members_t) then (Err io_failure, s)
  else match head (filter (member_where w u) (workspace_members s)) with
       | None => (Err repositories_ErrMemberNotFound, s)
       | Some m =>
           if bool_decide (WorkspaceMember_Role m ≠ WorkspaceRoleOwner) then (Ok false, s)
           else if fails env (SELECT_COUNT workspace_members_t) then (Err io_failure, s)
           else (Ok (bool_decide (count_rows (filter (owner_where w) (workspace_members s))
                                  <= 1)), s)
       end.
Proof.
  unfold workspaceMemberRepository_IsLastOwner, bind.
  rewrite GetByWorkspaceAndUser_run.
  destruct (fails env (SELECT_FIRST _)); [done|].
  destruct (head _) as [m|]; [|done].
  case_bool_decide; [done|].
  rewrite CountOwners_run. by destruct (fails env (SELECT_COUNT _)).
Qed.

(** What [Remove] does to the store, whatever it returns: nothing, or the
    deletion of the rows of the key, whose first row is then not the only
    owner. *)
Lemma workspaceMemberRepository_Remove_cases env w u s r s' :
  workspaceMemberRepository_Remove env w u s = (r, s') →
  s' = s
  ∨ (∃ m, head (filter (member_where w u) (workspace_members s)) = Some m
          ∧ (WorkspaceMember_Role m = WorkspaceRoleOwner →
             count_rows (filter (owner_where w) (workspace_members s)) > 1)
          ∧ r = Ok tt
          ∧ s' = set_workspace_members (filter (fun m => ¬ member_where w u m)) s).
Proof.
  unfold workspaceMemberRepository_Remove. unfold bind at 1.
  rewrite GetByWorkspaceAndUser_run.
  destruct (fails env (SELECT_FIRST _)) eqn:F1; [intros [= _ <-]; by left|].
  destruct (head _) as [m|] eqn:Hm; [|intros [= _ <-]; by left].
  assert (Hrows : count_rows (filter (member_where w u) (workspace_members s)) ≠ 0).
  { unfold count_rows. destruct (filter _ _); [done|]. simpl. lia. }
  assert (Htail : ∀ s0, s0 = s →
    (round_trip env (DELETE workspace_members_t) ;;
     rowsAffected <- read (fun s => count_rows (filter (member_where w u)
                                                  (workspace_members s))) ;;
     write (set_workspace_members (filter (fun m => ¬ member_where w u m))) ;;
     if bool_decide (rowsAffected = 0) then fail repositories_ErrMemberNotFound
     else ret tt) s0 = (r, s') →
    s' = s ∨ (r = Ok tt
              ∧ s' = set_workspace_members (filter (fun m => ¬ member_where w u m)) s)).
  { intros s0 ->. unfold bind, round_trip, read, write.
    destruct (fails env (DELETE _)); [intros [= _ <-]; by left|].
    rewrite bool_decide_eq_false_2 by done. intros [= <- <-]. by right. }
  case_bool_decide as Hrole.
  - unfold bind at 1 2. rewrite IsLastOwner_run, F1, Hm.
    rewrite bool_decide_eq_false_2 by (intros ?; done).
    destruct (fails env (SELECT_COUNT _)); [intros [= _ <-]; by left|].
    case_bool_decide as Hcount; [intros [= _ <-]; by left|].
    unfold ret at 1. intros Hrun.
    destruct (Htail s eq_refl Hrun) as [-> | [-> ->]]; [by left|].
    right. exists m. split; [done|]. split; [intros _; lia|]. done.
  - unfold bind at 1. unfold ret at 1. intros Hrun.
    destruct (Htail s eq_refl Hrun) as [-> | [-> ->]]; [by left|].
    right. exists m. split; [done|]. split; [intros ?; done|]. done.
Qed.

(** What [UpdateRole] does to the store: nothing, or the new role in the rows
    of the key. A demotion goes through only when the first row of the key is
    not the only owner. *)
Lemma workspaceMemberRepository_UpdateRole_cases env w u role s r s' :
  workspaceMemberRepository_UpdateRole env w u role s = (r, s') →
  s' = s
  ∨ ((role ≠ WorkspaceRoleOwner →
      ∃ m, head (filter (member_where w u) (workspace_members s)) = Some m
           ∧ (WorkspaceMember_Role m = WorkspaceRoleOwner →
              count_rows (filter (owner_where w) (workspace_members s)) > 1))
     ∧ s' = set_workspace_members
              (fmap (fun m => if decide (member_where w u m)
                              then WorkspaceMember_with_Role role m else m)) s).
Proof.
  unfold workspaceMemberRepository_UpdateRole.
  assert (Htail : ∀ s0, s0 = s →
    (round_trip env (UPDATE workspace_members_t) ;;
     rowsAffected <- read (fun s => count_rows (filter (member_where w u)
                                                  (workspace_members s))) ;;
     write (set_workspace_members
              (fmap (fun m => if decide (member_where w u m)
                              then WorkspaceMember_with_Role role m else m))) ;;
     if bool_decide (rowsAffected = 0) then fail repositories_ErrMemberNotFound
     else ret tt) s0 = (r, s') →
    s' = s ∨ s' = set_workspace_members
                    (fmap (fun m => if decide (member_where w u m)
                                    then WorkspaceMember_with_Role role m else m)) s).
  { intros s0 ->. unfold bind, round_trip, read, write.
    destruct (fails env (UPDATE _)); [intros [= _ <-]; by left|].
    case_bool_decide; intros [= _ <-]; by right. }
  case_bool_decide as Hrole.
  - unfold bind at 1 2. rewrite IsLastOwner_run.
    destruct (fails env (SELECT_FIRST _)); [intros [= _ <-]; by left|].
    destruct (head _) as [m|] eqn:Hm; [|intros [= _ <-]; by left].
    case_bool_decide as Hm_role.
    + unfold ret at 1. intros Hrun.
      destruct (Htail s eq_refl Hrun) as [-> | ->]; [by left|].
      right. split; [|done]. intros _. exists m. by split.
    + destruct (fails env (SELECT_COUNT _)); [intros [= _ <-]; by left|].
      case_bool_decide as Hcount; [intros [= _ <-]; by left|].
      unfold ret at 1. intros Hrun.
      destruct (Htail s eq_refl Hrun) as [-> | ->]; [by left|].
      right. split; [|done]. intros _. exists m. split; [done|]. lia.
  - unfold bind at 1. unfold ret at 1. intros Hrun.
    destruct (Htail s eq_refl Hrun) as [-> | ->]; [by left|].
    right. by split.
Qed.

Lemma member_key_with_Role role f (l : list WorkspaceMember) :
  (∀ m, f m = m ∨ f m = WorkspaceMember_with_Role role m) →
  member_key <$> (f <$> l) = member_key <$> l.
Proof.
  intros Hf. rewrite <- list_fmap_compose. apply list_fmap_ext.
  intros i m _. simpl. by destruct (Hf m) as [-> | ->].
Qed.

(** X1. The primary key of the membership table is kept by the three
    mutations of the repository, whatever they return; an [Add] for a key
    that is taken returns [ErrDuplicateMember] when the count query answers
    and changes nothing. *)
Theorem membership_primary_key_kept env s :
  members_primary_key s →
  (∀ member r s',
      workspaceMemberRepository_Add env member s = (r, s') →
      members_primary_key s'
      ∧ ((∃ m, m ∈ workspace_members s ∧ member_key m = member_key member) →
         s' = s ∧ ∃ e, r = Err e
                      ∧ (fails env (SELECT_COUNT workspace_members_t) = false →
                         e = repositories_ErrDuplicateMember)))
  ∧ (∀ w u role r s',
        workspaceMemberRepository_UpdateRole env w u role s = (r, s') →
        members_primary_key s')
  ∧ (∀ w u r s',
        workspaceMemberRepository_Remove env w u s = (r, s') →
        members_primary_key s').
Proof.
  intros Hpk. split; [|split].
  - intros member r s'.
    unfold workspaceMemberRepository_Add, bind, round_trip, read.
    destruct (fails env (SELECT_COUNT _)) eqn:Hc.
    { intros [= <- <-]. split; [done|]. intros _. split; [done|].
      eexists. split; [done|]. done. }
    case_bool_decide as Hn.
    { intros [= <- <-]. split; [done|]. intros _. split; [done|].
      eexists. split; [done|]. done. }
    assert (Hnone : ∀ m, m ∈ workspace_members s → member_key m ≠ member_key member).
    { intros m Hin Hkey.
      assert (m ∈ filter (member_where (WorkspaceMember_WorkspaceID member)
                                       (WorkspaceMember_UserID member))
                         (workspace_members s)) as Hf.
      { apply list_elem_of_filter. split; [|done].
        unfold member_key in Hkey. injection Hkey as Hw Hu. by split. }
      unfold count_rows in Hn. destruct (filter _ _); [by apply elem_of_nil in Hf|].
      simpl in Hn. lia. }
    destruct (fails env (INSERT _)).
    { intros [= <- <-]. split; [done|].
      intros (m & Hin & Hkey). by destruct (Hnone m Hin). }
    unfold write, ret. intros [= <- <-]. split.
    + unfold members_primary_key. cbn. rewrite fmap_app. apply NoDup_app.
      split; [exact Hpk|]. split; [|apply NoDup_singleton].
      intros k [m [-> Hin]]%list_elem_of_fmap Hk.
      apply list_elem_of_singleton in Hk. by destruct (Hnone m Hin).
    + intros (m & Hin & Hkey). by destruct (Hnone m Hin).
  - intros w u role r s' Hrun.
    destruct (workspaceMemberRepository_UpdateRole_cases _ _ _ _ _ _ _ Hrun)
      as [-> | [_ ->]]; [done|].
    unfold members_primary_key. cbn. rewrite (member_key_with_Role role); [done|].
    intros m. destruct (decide _); auto.
  - intros w u r s' Hrun.
    destruct (workspaceMemberRepository_Remove_cases _ _ _ _ _ _ Hrun)
      as [-> | (m & _ & _ & _ & ->)]; [done|].
    unfold members_primary_key. cbn.
    eapply sublist_NoDup; [exact Hpk|]. apply fmap_sublist, sublist_filter.
Qed.

Lemma acme_store_primary_key : members_primary_key acme_store.
Proof. unfold members_primary_key. apply (bool_decide_unpack _). by vm_compute. Qed.

Lemma membership_primary_key_kept_witness :
  members_primary_key acme_store
  ∧ workspaceMemberRepository_Add (example_env nothing_fails)
      (mkWorkspaceMember "ws-1" "bob" WorkspaceRoleAdmin 0) acme_store
    = (Err repositories_ErrDuplicateMember, acme_store).
Proof.
  split; [exact acme_store_primary_key|].
  destruct (membership_primary_key_kept (example_env nothing_fails) acme_store
              acme_store_primary_key) as [Hadd _].
  destruct (workspaceMemberRepository_Add (example_env nothing_fails)
              (mkWorkspaceMember "ws-1" "bob" WorkspaceRoleAdmin 0) acme_store)
    as [r s'] eqn:Hrun.
  destruct (Hadd _ _ _ Hrun) as [_ Hdup].
  destruct Hdup as (-> & e & -> & He).
  { exists (mkWorkspaceMember "ws-1" "bob" WorkspaceRoleMember 105).
    split; [|reflexivity]. right. left. }
  by rewrite He.
Defined.

(** Two owner rows of a workspace: one of them is not the row of a given key. *)
Lemma another_owner (s : Store) (w : string) (k : string * string) :
  members_primary_key s →
  count_rows (filter (owner_where w) (workspace_members s)) > 1 →
  ∃ o, o ∈ workspace_members s ∧ owner_where w o ∧ member_key o ≠ k.
Proof.
  intros Hpk Hcount.
  assert (Hnd : NoDup (member_key <$> filter (owner_where w) (workspace_members s))).
  { eapply sublist_NoDup; [exact Hpk|]. apply fmap_sublist, sublist_filter. }
  destruct (filter (owner_where w) (workspace_members s)) as [|a [|b rest]] eqn:E;
    unfold count_rows in Hcount; simpl in Hcount; [lia..|].
  assert (Ha : a ∈ filter (owner_where w) (workspace_members s)) by (rewrite E; left).
  assert (Hb : b ∈ filter (owner_where w) (workspace_members s))
    by (rewrite E; right; left).
  apply list_elem_of_filter in Ha as [Ha Ha'].
  apply list_elem_of_filter in Hb as [Hb Hb'].
  simpl in Hnd. apply NoDup_cons in Hnd as [Hab _].
  destruct (decide (member_key a = k)) as [Hk|Hk].
  - exists b. split; [done|]. split; [done|]. intros Hbk. apply Hab.
    rewrite Hk, <- Hbk. left.
  - by exists a.
Qed.

(** X2. A workspace that has an owner keeps one: whatever [Remove] and
    [UpdateRole] are asked to do, for whichever workspace and user, and
    whatever they return, the workspace has an owner afterwards. *)
Theorem workspace_keeps_an_owner env s workspaceID :
  members_primary_key s →
  has_owner s workspaceID →
  (∀ w u r s',
      workspaceMemberRepository_Remove env w u s = (r, s') → has_owner s' workspaceID)
  ∧ (∀ w u role r s',
        workspaceMemberRepository_UpdateRole env w u role s = (r, s') →
        has_owner s' workspaceID).
Proof.
  intros Hpk (o & Ho & Hown). split.
  - intros w u r s' Hrun.
    destruct (workspaceMemberRepository_Remove_cases _ _ _ _ _ _ Hrun)
      as [-> | (m & Hm & Hcount & _ & ->)]; [by exists o|].
    destruct (decide (member_where w u o)) as [Hkey|Hkey].
    + apply head_filter_Some_elem in Hm as [Hm Hm_key].
      assert (o = m) as ->.
      { eapply NoDup_fmap_inj_on; [exact Hpk|done..|].
        unfold member_key. destruct Hkey as [-> ->]. by destruct Hm_key as [-> ->]. }
      destruct Hown as [Hw Hrole]. destruct Hkey as [Hw' Hu]. subst workspaceID.
      rewrite Hw'.
      destruct (another_owner s w (w, u) Hpk (Hcount Hrole)) as (o' & Ho' & Hown' & Hk').
      exists o'. split; [|done].
      cbn. apply list_elem_of_filter. split; [|done].
      intros [Hw'' Hu'']. apply Hk'. unfold member_key. by rewrite Hw'', Hu''.
    + exists o. split; [|done]. cbn. by apply list_elem_of_filter.
  - intros w u role r s' Hrun.
    set (f := fun m => if decide (member_where w u m)
                       then WorkspaceMember_with_Role role m else m).
    destruct (workspaceMemberRepository_UpdateRole_cases _ _ _ _ _ _ _ Hrun)
      as [-> | [Hdemote ->]]; [by exists o|].
    fold f. cbn.
    assert (Hkeep : ∀ x, x ∈ workspace_members s → ¬ member_where w u x →
                         owner_where workspaceID x → has_owner
                           (set_workspace_members (fmap f) s) workspaceID).
    { intros x Hx Hnk Hxo. exists x. split; [|done]. cbn.
      apply list_elem_of_fmap. exists x. split; [|done].
      unfold f. by rewrite decide_False. }
    destruct (decide (member_where w u o)) as [Hkey|Hkey]; [|by eapply Hkeep].
    destruct (decide (role = WorkspaceRoleOwner)) as [->|Hrole].
    + exists (f o). split.
      * cbn. apply list_elem_of_fmap. by exists o.
      * unfold f. rewrite decide_True by done. destruct Hown as [Hw _]. by split.
    + destruct (Hdemote Hrole) as (m & Hm & Hcount).
      apply head_filter_Some_elem in Hm as [Hm Hm_key].
      assert (o = m) as ->.
      { eapply NoDup_fmap_inj_on; [exact Hpk|done..|].
        unfold member_key. destruct Hkey as [-> ->]. by destruct Hm_key as [-> ->]. }
      destruct Hown as [Hw Hr]. destruct Hkey as [Hw' Hu]. subst workspaceID.
      rewrite Hw' in Hkeep |- *.
      destruct (another_owner s w (w, u) Hpk (Hcount Hr)) as (o' & Ho' & Hown' & Hk').
      eapply (Hkeep o'); [done| |done].
      intros [Hw'' Hu'']. apply Hk'. unfold member_key. by rewrite Hw'', Hu''.
Qed.

Lemma acme_store_has_owner : has_owner acme_store "ws-1".
Proof.
  exists (mkWorkspaceMember "ws-1" "alice" WorkspaceRoleOwner 100).
  split; [left|done].
Qed.

Lemma workspace_keeps_an_owner_witness :
  has_owner
    (workspaceMemberRepository_Remove (example_env nothing_fails) "ws-1" "bob" acme_store).2
    "ws-1".
Proof.
  destruct (workspace_keeps_an_owner (example_env nothing_fails) acme_store "ws-1"
              acme_store_primary_key acme_store_has_owner) as [Hremove _].
  eapply (Hremove "ws-1" "bob"). apply surjective_pairing.
Defined.

(** ** Who may change the owners of a workspace *)

Lemma filter_fmap_unaffected {A} (P : A → Prop) `{!∀ x, Decision (P x)}
    (f : A → A) (l : list A) :
  (∀ x, x ∈ l → f x = x ∨ (¬ P x ∧ ¬ P (f x))) →
  filter P (f <$> l) = filter P l.
Proof.
  induction l as [|a l IH]; intros Hf; [done|].
  rewrite fmap_cons, !filter_cons.
  rewrite IH by (intros x Hx; apply Hf; by right).
  destruct (Hf a) as [-> | [Hn Hn']]; [left|done|].
  by rewrite !decide_False.
Qed.

Lemma filter_filter_unaffected {A} (P Q : A → Prop)
    `{!∀ x, Decision (P x)} `{!∀ x, Decision (Q x)} (l : list A) :
  (∀ x, x ∈ l → P x → Q x) →
  filter P (filter Q l) = filter P l.
Proof.
  induction l as [|a l IH]; intros HPQ; [done|].
  rewrite !filter_cons.
  specialize (IH (fun x Hx => HPQ x (list_elem_of_further _ _ _ Hx))).
  destruct (decide (Q a)) as [HQ|HQ].
  - rewrite filter_cons, IH. done.
  - rewrite IH. rewrite decide_False; [done|].
    intros HP. apply HQ, HPQ; [left|done].
Qed.

(** The closing steps of the member mutations leave the membership table as
    it is. *)
Lemma member_tail_members {A} env u w a rt rid ch user (x : A) s r s' :
  (ignore (cacheRepository_InvalidateUserCache env user) ;;
   ignore (auditService_LogAction env w u a rt rid ch) ;;
   ret x) s = (r, s') →
  workspace_members s' = workspace_members s.
Proof.
  unfold cacheRepository_InvalidateUserCache, round_trip, write.
  unfold bind, ignore, ret.
  destruct (fails env REDIS_DEL); cbn;
    match goal with
    | |- context [auditService_LogAction env w u a rt rid ch ?s0] =>
        destruct (LogAction_run env w u a rt rid ch s0) as (s1 & -> & Hp)
    end;
    intros [= _ <-]; unfold persisted in Hp; by injection Hp.
Qed.

Lemma workspaceMemberRepository_Add_cases env member s r s' :
  workspaceMemberRepository_Add env member s = (r, s') →
  s' = s
  ∨ s' = set_workspace_members
           (fun rows => rows ++ [WorkspaceMember_defaults env member]) s.
Proof.
  unfold workspaceMemberRepository_Add, bind, round_trip, read, write, ret.
  destruct (fails env (SELECT_COUNT _)); [intros [= _ <-]; by left|].
  case_bool_decide; [intros [= _ <-]; by left|].
  destruct (fails env (INSERT _)); intros [= _ <-]; [by left|by right].
Qed.

(** The rows of one key are the first row of the key. *)
Lemma member_of_key (s : Store) w u m x :
  members_primary_key s →
  head (filter (member_where w u) (workspace_members s)) = Some m →
  x ∈ workspace_members s → member_where w u x → x = m.
Proof.
  intros Hpk [Hm Hk]%head_filter_Some_elem Hx Hxk.
  eapply NoDup_fmap_inj_on; [exact Hpk|done..|].
  unfold member_key. destruct Hxk as [-> ->]. by destruct Hk as [-> ->].
Qed.

Lemma owners_after_UpdateRole env s w u role r s' target workspaceID :
  members_primary_key s →
  head (filter (member_where w u) (workspace_members s)) = Some target →
  WorkspaceMember_Role target ≠ WorkspaceRoleOwner →
  role ≠ WorkspaceRoleOwner →
  workspaceMemberRepository_UpdateRole env w u role s = (r, s') →
  workspace_owners s' workspaceID = workspace_owners s workspaceID.
Proof.
  intros Hpk Htarget Hnot Hrole Hrun.
  destruct (workspaceMemberRepository_UpdateRole_cases _ _ _ _ _ _ _ Hrun)
    as [-> | [_ ->]]; [done|].
  unfold workspace_owners. cbn. apply filter_fmap_unaffected.
  intros x Hx. destruct (decide (member_where w u x)) as [Hk|Hk]; [|by left].
  right. rewrite (member_of_key s w u target x) by done.
  split; intros [_ Hr]; done.
Qed.

Lemma owners_after_Remove env s w u r s' target workspaceID :
  members_primary_key s →
  head (filter (member_where w u) (workspace_members s)) = Some target →
  WorkspaceMember_Role target ≠ WorkspaceRoleOwner →
  workspaceMemberRepository_Remove env w u s = (r, s') →
  workspace_owners s' workspaceID = workspace_owners s workspaceID.
Proof.
  intros Hpk Htarget Hnot Hrun.
  destruct (workspaceMemberRepository_Remove_cases _ _ _ _ _ _ Hrun)
    as [-> | (m & _ & _ & _ & ->)]; [done|].
  unfold workspace_owners. cbn. apply filter_filter_unaffected.
  intros x Hx [_ Hr] Hk. rewrite (member_of_key s w u target x) in Hr by done. done.
Qed.

(** A branch that returns with the store as it was. *)
Ltac unchanged := cbv beta iota; intros [= _ <-]; done.

(** X3. Only an owner changes who the owners are. When the caller of
    [AddMember], [UpdateMemberRole] or [RemoveMember] does not hold the owner
    role in the workspace, the owner rows of every workspace are the same
    after the call as before, whatever the request and whatever the call
    returns. *)
Theorem only_owners_change_owners env s workspaceID userID :
  members_primary_key s →
  not_an_owner s workspaceID userID →
  ∀ w,
    (∀ req r s',
        memberService_AddMember env workspaceID userID req s = (r, s') →
        workspace_owners s' w = workspace_owners s w)
    ∧ (∀ memberUserID req r s',
          memberService_UpdateMemberRole env workspaceID memberUserID userID req s = (r, s') →
          workspace_owners s' w = workspace_owners s w)
    ∧ (∀ memberUserID r s',
          memberService_RemoveMember env workspaceID memberUserID userID s = (r, s') →
          workspace_owners s' w = workspace_owners s w).
Proof.
  intros Hpk Hcaller w. split; [|split].
  - intros req r s'. unfold memberService_AddMember. unfold bind at 1, catch.
    rewrite GetByWorkspaceAndUser_run.
    destruct (fails env (SELECT_FIRST _)); [unchanged|].
    destruct (head _) as [requester|] eqn:Hreq; [|unchanged].
    specialize (Hcaller requester Hreq).
    destruct (hasRequiredRole _ _); [|unchanged]. cbn [negb].
    rewrite (bool_decide_eq_true_2 (_ ≠ _)) by done. rewrite andb_true_r.
    case_bool_decide as Hrole; [unchanged|].
    unfold bind at 1.
    destruct (workspaceMemberRepository_Add env _ s) as [[member|e] s1] eqn:Hadd;
      [|cbv beta iota; intros [= _ <-]];
      destruct (workspaceMemberRepository_Add_cases _ _ _ _ _ Hadd) as [-> | ->];
      try done.
    + intros Htail. apply member_tail_members in Htail.
      unfold workspace_owners. by rewrite Htail.
    + intros Htail. apply member_tail_members in Htail.
      unfold workspace_owners. rewrite Htail. cbn.
      rewrite filter_app, filter_cons_False, filter_nil, app_nil_r; [done|].
      intros [_ Hr]. done.
    + unfold workspace_owners. cbn.
      rewrite filter_app, filter_cons_False, filter_nil, app_nil_r; [done|].
      intros [_ Hr]. done.
  - intros memberUserID req r s'. unfold memberService_UpdateMemberRole.
    unfold bind at 1, catch. rewrite GetByWorkspaceAndUser_run.
    destruct (fails env (SELECT_FIRST _)) eqn:F1; [unchanged|].
    destruct (head _) as [requester|] eqn:Hreq; [|unchanged].
    specialize (Hcaller requester Hreq).
    destruct (hasRequiredRole _ _); [|unchanged]. cbn [negb].
    unfold bind at 1. rewrite GetByWorkspaceAndUser_run, F1.
    destruct (head (filter (member_where workspaceID memberUserID) _))
      as [target|] eqn:Htarget; [|unchanged]. cbv beta iota.
    rewrite !(bool_decide_eq_true_2 (WorkspaceMember_Role requester ≠ _)) by done.
    rewrite !andb_true_r.
    case_bool_decide as Htarget_role; [unchanged|].
    case_bool_decide as Hrole; [unchanged|].
    rewrite andb_false_r, andb_false_l.
    unfold bind at 1. unfold ret at 1. unfold bind at 1.
    destruct (workspaceMemberRepository_UpdateRole env _ _ _ s) as [[[]|e] s1] eqn:Hupd;
      [|cbv beta iota; intros [= _ <-]].
    + intros Htail. apply member_tail_members in Htail.
      unfold workspace_owners at 1. rewrite Htail. fold (workspace_owners s1 w).
      by eapply owners_after_UpdateRole.
    + by eapply owners_after_UpdateRole.
  - intros memberUserID r s'. unfold memberService_RemoveMember.
    unfold bind at 1, catch. rewrite GetByWorkspaceAndUser_run.
    destruct (fails env (SELECT_FIRST _)) eqn:F1; [unchanged|].
    destruct (head _) as [requester|] eqn:Hreq; [|unchanged].
    pose proof (Hcaller requester Hreq) as Hnot.
    unfold bind at 1. rewrite GetByWorkspaceAndUser_run, F1.
    destruct (head (filter (member_where workspaceID memberUserID) _))
      as [target|] eqn:Htarget; [|unchanged]. cbv beta iota.
    assert (Hremove : ∀ s0 r0,
      WorkspaceMember_Role target ≠ WorkspaceRoleOwner →
      (workspaceMemberRepository_Remove env workspaceID memberUserID ;;
       ignore (cacheRepository_InvalidateUserCache env memberUserID) ;;
       ignore (auditService_LogAction env workspaceID userID "member.removed"
                 "workspace_member" memberUserID
                 (Some [("user_id", JString memberUserID);
                        ("role", JString (WorkspaceMember_Role target))])) ;;
       ret tt) s = (r0, s0) →
      workspace_owners s0 w = workspace_owners s w).
    { intros s0 r0 Ht. unfold bind at 1.
      destruct (workspaceMemberRepository_Remove env _ _ s) as [[[]|e] s1] eqn:Hrem;
        [|cbv beta iota; intros [= _ <-]].
      - intros Htail. apply member_tail_members in Htail.
        unfold workspace_owners at 1. rewrite Htail. fold (workspace_owners s1 w).
        by eapply owners_after_Remove.
      - by eapply owners_after_Remove. }
    case_bool_decide as Hself.
    + destruct (hasRequiredRole _ _); [|unchanged]. cbn [negb].
      rewrite (bool_decide_eq_true_2 (_ ≠ _)) by done. rewrite andb_true_r.
      case_bool_decide as Htarget_role; [unchanged|].
      unfold bind at 1. unfold ret at 1. by apply Hremove.
    + subst memberUserID.
      rewrite Hreq in Htarget. injection Htarget as <-.
      unfold bind at 1. unfold ret at 1. by apply Hremove.
Qed.

Lemma bob_not_an_owner : not_an_owner acme_store "ws-1" "bob".
Proof. intros m [= <-]. discriminate. Qed.

Lemma only_owners_change_owners_witness :
  workspace_owners
    (memberService_RemoveMember (example_env nothing_fails) "ws-1" "bob" "bob" acme_store).2
    "ws-1"
  = [mkWorkspaceMember "ws-1" "alice" WorkspaceRoleOwner 100].
Proof.
  destruct (only_owners_change_owners (example_env nothing_fails) acme_store "ws-1" "bob"
              acme_store_primary_key bob_not_an_owner "ws-1") as (_ & _ & Hremove).
  rewrite (Hremove "bob" _ _ (surjective_pairing _)). reflexivity.
Defined.

(** ** The audit trail *)

Lemma silent_ret {A} (a : A) : silent (ret a).
Proof. by intros s r s' [= _ <-]. Qed.

Lemma silent_fail {A} e : silent (@fail A e).
Proof. by intros s r s' [= _ <-]. Qed.

Lemma silent_read {A} (f : Store → A) : silent (read f).
Proof. by intros s r s' [= _ <-]. Qed.

Lemma silent_round_trip env c : silent (round_trip env c).
Proof. intros s r s'. unfold round_trip. by destruct (fails env c); intros [= _ <-]. Qed.

Lemma silent_bind {A B} (c : M A) (k : A → M B) :
  silent c → (∀ a, silent (k a)) → silent (bind c k).
Proof.
  intros Hc Hk s r s'. unfold bind.
  destruct (c s) as [[a|e] s1] eqn:E.
  - intros Hrun. rewrite (Hk a _ _ _ Hrun). by eapply Hc.
  - intros [= _ <-]. by eapply Hc.
Qed.

Lemma silent_catch {A} (c : M A) : silent c → silent (catch c).
Proof.
  intros Hc s r s'. unfold catch. destruct (c s) as [r1 s1] eqn:E.
  intros [= _ <-]. by eapply Hc.
Qed.

Lemma silent_ignore {A} (c : M A) : silent c → silent (ignore c).
Proof.
  intros Hc s r s'. unfold ignore. destruct (c s) as [r1 s1] eqn:E.
  intros [= _ <-]. by eapply Hc.
Qed.

Lemma silent_write (f : Store → Store) :
  (∀ s, workspace_audit_logs (f s) = workspace_audit_logs s) → silent (write f).
Proof. intros Hf s r s' [= _ <-]. apply Hf. Qed.

Lemma silent_Tx_Commit env tx :
  Tx_statements tx = [] → silent (Tx_Commit env tx).
Proof.
  intros Hst s r s'. unfold Tx_Commit. destruct (Tx_Error tx); [by intros [= _ <-]|].
  unfold bind, round_trip, write. rewrite Hst.
  by destruct (fails env TX_COMMIT); intros [= _ <-].
Qed.

Lemma BeginTx_run env s :
  ∃ tx, Repositories_BeginTx env s = (Ok tx, s) ∧ Tx_statements tx = [].
Proof. unfold Repositories_BeginTx. destruct (fails env TX_BEGIN); by eexists. Qed.

(** Takes a computation apart down to the reads and writes it is made of. *)
Ltac silence :=
  repeat first
    [ apply silent_ret | apply silent_fail | apply silent_read | apply silent_round_trip
    | apply silent_write; intros ?; reflexivity
    | apply silent_catch | apply silent_ignore
    | apply silent_bind; [|intros ?]
    | match goal with
      | |- silent (match ?x with _ => _ end) => destruct x
      | |- silent (if ?b then _ else _) => destruct b
      | |- silent (let '(_, _) := ?p in _) => destruct p
      end ].

Lemma silent_Member_Get env w u :
  silent (workspaceMemberRepository_GetByWorkspaceAndUser env w u).
Proof. unfold workspaceMemberRepository_GetByWorkspaceAndUser. silence. Qed.

Lemma silent_Member_IsLastOwner env w u :
  silent (workspaceMemberRepository_IsLastOwner env w u).
Proof.
  unfold workspaceMemberRepository_IsLastOwner, workspaceMemberRepository_CountOwners.
  apply silent_bind; [apply silent_Member_Get|intros ?]. silence.
Qed.

Lemma silent_Member_Add env m : silent (workspaceMemberRepository_Add env m).
Proof. unfold workspaceMemberRepository_Add. silence. Qed.

Lemma silent_Member_UpdateRole env w u role :
  silent (workspaceMemberRepository_UpdateRole env w u role).
Proof.
  unfold workspaceMemberRepository_UpdateRole.
  apply silent_bind; [|intros ?; silence].
  destruct (bool_decide _); [|silence].
  apply silent_bind; [apply silent_Member_IsLastOwner|intros ?; silence].
Qed.

Lemma silent_Member_Remove env w u : silent (workspaceMemberRepository_Remove env w u).
Proof.
  unfold workspaceMemberRepository_Remove.
  apply silent_bind; [apply silent_Member_Get|intros ?].
  apply silent_bind; [|intros ?; silence].
  destruct (bool_decide _); [|silence].
  apply silent_bind; [apply silent_Member_IsLastOwner|intros ?; silence].
Qed.

Lemma silent_CheckUserAccess env w u role :
  silent (workspaceService_CheckUserAccess env w u role).
Proof.
  unfold workspaceService_CheckUserAccess.
  apply silent_bind; [apply silent_catch, silent_Member_Get|intros ?]. silence.
Qed.

Lemma silent_Workspace_List env flt : silent (workspaceRepository_List env flt).
Proof. unfold workspaceRepository_List. silence. Qed.

Lemma silent_Workspace_Create env w : silent (workspaceRepository_Create env w).
Proof. unfold workspaceRepository_Create. silence. Qed.

Lemma silent_Workspace_GetByID env id : silent (workspaceRepository_GetByID env id).
Proof. unfold workspaceRepository_GetByID. silence. Qed.

Lemma silent_Workspace_Update env w : silent (workspaceRepository_Update env w).
Proof. unfold workspaceRepository_Update. silence. Qed.

Lemma silent_Workspace_Delete env id : silent (workspaceRepository_Delete env id).
Proof. unfold workspaceRepository_Delete. silence. Qed.

Lemma silent_Project_Create env p : silent (projectRepository_Create env p).
Proof. unfold projectRepository_Create. silence. Qed.

Lemma silent_Project_GetByID env id : silent (projectRepository_GetByID env id).
Proof. unfold projectRepository_GetByID. silence. Qed.

Lemma silent_Project_Update env p : silent (projectRepository_Update env p).
Proof. unfold projectRepository_Update. silence. Qed.

Lemma silent_Project_Delete env id : silent (projectRepository_Delete env id).
Proof. unfold projectRepository_Delete. silence. Qed.

Lemma silent_Project_CountByWorkspace env w :
  silent (projectRepository_CountByWorkspace env w).
Proof. unfold projectRepository_CountByWorkspace. silence. Qed.

Lemma silent_Base_Create env b : silent (airtableBaseRepository_Create env b).
Proof. unfold airtableBaseRepository_Create. silence. Qed.

Lemma silent_Base_GetByID env id : silent (airtableBaseRepository_GetByID env id).
Proof. unfold airtableBaseRepository_GetByID. silence. Qed.

Lemma silent_Base_Update env b : silent (airtableBaseRepository_Update env b).
Proof. unfold airtableBaseRepository_Update. silence. Qed.

Lemma silent_Base_Delete env id : silent (airtableBaseRepository_Delete env id).
Proof. unfold airtableBaseRepository_Delete. silence. Qed.

Lemma silent_Base_List env flt : silent (airtableBaseRepository_List env flt).
Proof. unfold airtableBaseRepository_List. silence. Qed.

Lemma silent_load_base_project env id : silent (load_base_project env id).
Proof.
  unfold load_base_project.
  apply silent_bind; [apply silent_Base_GetByID|intros base].
  destruct (AirtableBase_Project base); [silence|].
  apply silent_bind; [apply silent_Project_GetByID|intros ?; silence].
Qed.

Lemma silent_Cache env :
  (∀ w, silent (cacheRepository_SetWorkspace env w))
  ∧ (∀ id, silent (cacheRepository_DeleteWorkspace env id))
  ∧ (∀ p, silent (cacheRepository_SetProject env p))
  ∧ (∀ id, silent (cacheRepository_DeleteProject env id))
  ∧ (∀ id, silent (cacheRepository_InvalidateWorkspaceCache env id))
  ∧ (∀ u, silent (cacheRepository_InvalidateUserCache env u)).
Proof.
  repeat split; intros ?;
    unfold cacheRepository_SetWorkspace, cacheRepository_DeleteWorkspace,
      cacheRepository_SetProject, cacheRepository_DeleteProject,
      cacheRepository_InvalidateWorkspaceCache, cacheRepository_DeleteWorkspace,
      cacheRepository_InvalidateUserCache; silence.
Qed.

Create HintDb silent discriminated.
#[local] Hint Resolve silent_Member_Get silent_Member_IsLastOwner silent_Member_Add
  silent_Member_UpdateRole silent_Member_Remove silent_CheckUserAccess
  silent_Workspace_List silent_Workspace_Create silent_Workspace_GetByID
  silent_Workspace_Update silent_Workspace_Delete
  silent_Project_Create silent_Project_GetByID silent_Project_Update silent_Project_Delete
  silent_Project_CountByWorkspace
  silent_Base_Create silent_Base_GetByID silent_Base_Update silent_Base_Delete
  silent_Base_List silent_load_base_project : silent.

Lemma audited_silent {A} u (c : M A) : silent c → audited_once u c.
Proof. intros Hc s r s' Hrun. left. by eapply Hc. Qed.

Lemma audited_bind {A B} u (c : M A) (k : A → M B) :
  silent c → (∀ a, audited_once u (k a)) → audited_once u (bind c k).
Proof.
  intros Hc Hk s r s'. unfold bind.
  destruct (c s) as [[a|e] s1] eqn:E.
  - intros Hrun. rewrite <- (Hc _ _ _ E). by eapply Hk.
  - intros [= _ <-]. left. by eapply Hc.
Qed.

(** The closing steps of a mutation: the audit write, whose error is dropped,
    and the return. *)
Lemma audited_tail {A} env w u a rt rid ch (x : A) :
  audited_once u (ignore (auditService_LogAction env w u a rt rid ch) ;; ret x).
Proof.
  intros s r s'.
  unfold bind, ignore, ret, auditService_LogAction, auditLogRepository_Create,
    catch, round_trip, read, write.
  destruct (fails env _); [intros [= _ <-]; by left|].
  cbn. intros [= <- <-]. right. eexists _, _. split; [done|]. split; done.
Qed.

(** Follows a service method to its audit write. *)
Ltac audit_once :=
  repeat first
    [ apply audited_tail
    | apply audited_bind;
        [ first [ solve [eauto with silent] | apply silent_catch; solve [eauto with silent]
                | apply silent_ignore; apply silent_Cache | solve [silence] ]
        | intros ? ]
    | match goal with
      | |- audited_once _ (match ?x with _ => _ end) => destruct x
      | |- audited_once _ (if ?b then _ else _) => destruct b
      | |- audited_once _ (let '(_, _) := ?p in _) => destruct p
      | |- audited_once _ (bind (if ?b then _ else _) _) => destruct b
      end
    | apply audited_silent; solve [silence] ].

(** X4. Each of the twelve mutations of the services appends at most one
    entry to the audit trail and touches no entry that is there; the entry
    carries the caller's user ID, and a call that returns an error appends
    none. *)
Theorem audit_trail_grows_by_one_entry_on_success env userID :
  (∀ tenantID req, audited_once userID (workspaceService_CreateWorkspace env tenantID userID req))
  ∧ (∀ id req, audited_once userID (workspaceService_UpdateWorkspace env id userID req))
  ∧ (∀ id, audited_once userID (workspaceService_DeleteWorkspace env id userID))
  ∧ (∀ id req, audited_once userID (projectService_CreateProject env id userID req))
  ∧ (∀ id req, audited_once userID (projectService_UpdateProject env id userID req))
  ∧ (∀ id, audited_once userID (projectService_DeleteProject env id userID))
  ∧ (∀ id req, audited_once userID (memberService_AddMember env id userID req))
  ∧ (∀ id member req,
        audited_once userID (memberService_UpdateMemberRole env id member userID req))
  ∧ (∀ id member, audited_once userID (memberService_RemoveMember env id member userID))
  ∧ (∀ id req, audited_once userID (airtableBaseService_ConnectBase env id userID req))
  ∧ (∀ id req, audited_once userID (airtableBaseService_UpdateBase env id userID req))
  ∧ (∀ id, audited_once userID (airtableBaseService_DisconnectBase env id userID)).
Proof.
  split; [|split; [|split; [|split; [|split; [|split; [|split; [|split; [|split;
    [|split; [|split]]]]]]]]]].
  - intros tenantID req. unfold workspaceService_CreateWorkspace.
    apply audited_bind; [eauto with silent|intros [? count]].
    destruct (bool_decide _); [apply audited_silent; silence|].
    intros s r s'. unfold bind at 1.
    destruct (BeginTx_run env s) as (tx & -> & Htx). revert s r s'.
    fold (audited_once (A:=Workspace) userID).
    audit_once.
    apply audited_bind; [by apply silent_Tx_Commit|intros ?]. audit_once.
  - intros id req. unfold workspaceService_UpdateWorkspace. audit_once.
  - intros id. unfold workspaceService_DeleteWorkspace. audit_once.
  - intros id req. unfold projectService_CreateProject. audit_once.
  - intros id req. unfold projectService_UpdateProject. audit_once.
  - intros id. unfold projectService_DeleteProject. audit_once.
  - intros id req. unfold memberService_AddMember. audit_once.
  - intros id member req. unfold memberService_UpdateMemberRole. audit_once.
  - intros id member. unfold memberService_RemoveMember. audit_once.
  - intros id req. unfold airtableBaseService_ConnectBase. audit_once.
  - intros id req. unfold airtableBaseService_UpdateBase. audit_once.
  - intros id. unfold airtableBaseService_DisconnectBase. audit_once.
Qed.

(** ** Retention of the audit trail *)

Lemma int_wrap_id (z : Z) : is_int z → int_wrap z = z.
Proof.
  unfold is_int, int_wrap. intros Hz.
  rewrite Z.mod_small by lia. lia.
Qed.

(** X5. [CleanupOldLogs] keeps at least thirty days of the audit trail.
    With a calendar on which going back more days gives an earlier time,
    whatever number of days is asked for, the entries created within the
    last thirty days are all there afterwards, in their order; the call
    changes nothing but the audit trail; it removes exactly the entries
    older than the cut-off when the number of days is thirty or more; and
    when it returns an error it has removed nothing. *)
Theorem CleanupOldLogs_keeps_thirty_days env time_AddDate days s r s' :
  (∀ t d d', d <= d' → time_AddDate t 0 0 d <= time_AddDate t 0 0 d') →
  is_int days →
  auditService_CleanupOldLogs env time_AddDate days s = (r, s') →
  persisted s' = persisted s
  ∧ entries_since (time_AddDate (time_Now env) 0 0 (-30)) s'
    = entries_since (time_AddDate (time_Now env) 0 0 (-30)) s
  ∧ (r = Ok tt → 30 <= days →
     workspace_audit_logs s' = entries_since (time_AddDate (time_Now env) 0 0 (- days)) s)
  ∧ (∀ e, r = Err e → s' = s).
Proof.
  intros Hmono Hint.
  unfold auditService_CleanupOldLogs, auditLogRepository_DeleteOlderThan,
    bind, round_trip, write.
  destruct (fails env (DELETE _)).
  { intros [= <- <-]. repeat split; done. }
  intros [= <- <-].
  set (kept := if bool_decide (days < 30) then 30 else days).
  assert (Hkept : 30 <= kept ∧ is_int kept ∧ (30 <= days → kept = days)).
  { unfold kept, is_int in *. case_bool_decide; lia. }
  destruct Hkept as (Hge & Hk & Hsame).
  rewrite int_wrap_id by (unfold is_int in *; lia).
  split; [done|]. split; [|split; [|done]].
  - unfold entries_since. cbn. apply filter_filter_unaffected.
    intros l _ Hl. specialize (Hmono (time_Now env) (- kept) (-30)). lia.
  - intros _ Hdays. rewrite (Hsame Hdays). unfold entries_since. cbn.
    apply list_filter_iff. intros l. lia.
Qed.

Lemma CleanupOldLogs_keeps_thirty_days_witness :
  let env := example_env nothing_fails in
  let run := auditService_CleanupOldLogs env add_days 7 audited_acme_store in
  persisted run.2 = persisted audited_acme_store
  ∧ entries_since (add_days (time_Now env) 0 0 (-30)) run.2
    = entries_since (add_days (time_Now env) 0 0 (-30)) audited_acme_store.
Proof.
  intros env run.
  assert (Hmono : ∀ t d d', d <= d' → add_days t 0 0 d <= add_days t 0 0 d')
    by (unfold add_days; lia).
  assert (Hint : is_int 7) by (unfold is_int; lia).
  destruct (CleanupOldLogs_keeps_thirty_days env add_days 7
              audited_acme_store run.1 run.2 Hmono Hint (surjective_pairing _))
    as (Hp & Hkeep & _ & _).
  split; [exact Hp | exact Hkeep].
Defined.

(** ** Listing workspaces and counting them *)

Lemma cacheRepository_GetUserWorkspaces_run env u s :
  cacheRepository_GetUserWorkspaces env u s =
  if fails env REDIS_GET then (Err io_failure, s)
  else match redis s !! (userWorkspacePrefix ++ u)%string with
       | None => (Ok None, s)
       | Some data => match json_Unmarshal_strings data with
                      | Ok ids => (Ok (Some ids), s)
                      | Err e => (Err e, s)
                      end
       end.
Proof.
  unfold cacheRepository_GetUserWorkspaces, bind, round_trip, read.
  destruct (fails env REDIS_GET); [done|].
  destruct (redis s !! _) as [data|]; [|done].
  by destruct (json_Unmarshal_strings data).
Qed.

(** X6. [ListWorkspaces] does no filtering by membership: two callers get
    the same answer and leave the same store; the answer's total is the
    number of live workspaces that match the filter, whoever asks, and the
    store is not changed. *)
Theorem ListWorkspaces_ignores_the_caller env flt user1 user2 s :
  workspaceService_ListWorkspaces env flt user1 s
  = workspaceService_ListWorkspaces env flt user2 s
  ∧ ∀ response s',
      workspaceService_ListWorkspaces env flt user1 s = (Ok response, s') →
      s' = s
      ∧ WorkspaceListResponse_Total response
        = count_rows (filter (workspace_filter_where env flt) (workspaces s)).
Proof.
  assert (Hrun : ∀ u, workspaceService_ListWorkspaces env flt u s =
    (listed <- workspaceRepository_List env flt ;;
     let '(workspaces, total) := listed in
     let page := if bool_decide (WorkspaceFilter_Page flt < 1) then 1
                 else WorkspaceFilter_Page flt in
     let pageSize := if bool_decide (WorkspaceFilter_PageSize flt < 1) then 20
                     else WorkspaceFilter_PageSize flt in
     ret (mkWorkspaceListResponse workspaces total page pageSize
            (totalPages_of total pageSize))) s).
  { intros u. unfold workspaceService_ListWorkspaces. unfold bind at 1, catch.
    rewrite cacheRepository_GetUserWorkspaces_run.
    destruct (fails env REDIS_GET); [done|].
    destruct (redis s !! _) as [data|]; [|done].
    by destruct (json_Unmarshal_strings data). }
  split; [by rewrite !Hrun|].
  intros response s'. rewrite Hrun. unfold bind. rewrite workspaceRepository_List_run.
  destruct (fails env (SELECT_COUNT _)); [done|].
  destruct (fails env (SELECT_FIND _)); [done|].
  by intros [= <- <-].
Qed.

Lemma ListWorkspaces_ignores_the_caller_witness :
  let flt := mkWorkspaceFilter "t1" "" "" 1 20 "" "" false in
  ∃ response,
    workspaceService_ListWorkspaces (example_env nothing_fails) flt "mallory" acme_store
    = (Ok response, acme_store)
    ∧ WorkspaceListResponse_Workspaces response = [acme]
    ∧ WorkspaceListResponse_Total response = 1.
Proof.
  intros flt.
  destruct (ListWorkspaces_ignores_the_caller (example_env nothing_fails) flt
              "mallory" "alice" acme_store) as [Hsame Htotal].
  rewrite Hsame. eexists. split; [reflexivity|]. split; reflexivity.
Defined.

(** The loop that fills [ProjectsByStatus]: with one row per status it
    builds the map of the rows. *)
Lemma foldl_insert_list_to_map (rows : list (string * Z)) (m0 : gmap string Z) :
  NoDup rows.*1 →
  foldl (fun (m : gmap string Z) sc => <[sc.1 := sc.2]> m) m0 rows = list_to_map rows ∪ m0.
Proof.
  revert m0. induction rows as [|[k v] rows IH]; intros m0 Hnd.
  - simpl. by rewrite (left_id_L ∅ (∪)).
  - simpl in *. apply NoDup_cons in Hnd as [Hk Hnd]. rewrite IH by done.
    rewrite <- insert_union_l. rewrite insert_union_r; [done|].
    by apply not_elem_of_list_to_map.
Qed.

Lemma sql_group_count_keys {A} (key : A → string) (rows : list A) :
  (sql_group_count key rows).*1 = remove_dups (key <$> rows).
Proof.
  unfold sql_group_count. rewrite <- list_fmap_compose.
  rewrite <- (list_fmap_id (remove_dups _)) at 2. by apply list_fmap_ext.
Qed.

Lemma count_split_by_key {A} (key : A → string) (rows : list A) (d : string)
    (keys : list string) :
  d ∉ keys →
  count_rows (filter (fun a => key a ∈ d :: keys) rows)
  = count_rows (filter (fun a => key a = d) rows)
    + count_rows (filter (fun a => key a ∈ keys) rows).
Proof.
  intros Hd. unfold count_rows. induction rows as [|a rows IH]; [done|].
  rewrite !filter_cons.
  destruct (decide (key a = d)) as [Ha|Ha].
  - rewrite decide_True by (rewrite Ha; left).
    rewrite (decide_False (P := key a ∈ keys)) by (by rewrite Ha).
    simpl length. lia.
  - destruct (decide (key a ∈ keys)) as [Hk|Hk].
    + rewrite decide_True by (by right). simpl length. lia.
    + rewrite decide_False; [lia|].
      intros [?|?]%elem_of_cons; done.
Qed.

Lemma filter_all {A} (P : A → Prop) `{!∀ x, Decision (P x)} (l : list A) :
  (∀ x, x ∈ l → P x) → filter P l = l.
Proof.
  induction l as [|a l IH]; intros Hall; [done|].
  rewrite filter_cons_True by (apply Hall; left).
  f_equal. apply IH. intros x Hx. apply Hall. by right.
Qed.

Lemma sum_group_counts {A} (key : A → string) (rows : list A) :
  foldr (fun (sc : string * Z) acc => sc.2 + acc) 0 (sql_group_count key rows)
  = count_rows rows.
Proof.
  unfold sql_group_count.
  assert (Hall : ∀ keys, NoDup keys →
    foldr (fun (sc : string * Z) acc => sc.2 + acc) 0
      ((fun k => (k, count_rows (filter (fun a => key a = k) rows))) <$> keys)
    = count_rows (filter (fun a => key a ∈ keys) rows)).
  { induction keys as [|d keys IH]; intros Hnd.
    - simpl. rewrite filter_none; [done|]. intros a _ Ha. by apply elem_of_nil in Ha.
    - apply NoDup_cons in Hnd as [Hd Hnd]. rewrite fmap_cons. cbn [foldr snd].
      rewrite IH by done. by rewrite count_split_by_key. }
  rewrite Hall by apply NoDup_remove_dups. f_equal.
  apply filter_all. intros a Ha. apply elem_of_remove_dups.
  apply list_elem_of_fmap. by exists a.
Qed.

Lemma sum_of_counts_list_to_map (rows : list (string * Z)) :
  NoDup rows.*1 →
  sum_of_counts (list_to_map rows)
  = foldr (fun (sc : string * Z) acc => sc.2 + acc) 0 rows.
Proof.
  intros Hnd. unfold sum_of_counts. rewrite map_fold_foldr.
  trans (foldr (uncurry (fun (_ : string) n acc => n + acc)) 0 rows).
  - apply (foldr_permutation (=) (uncurry (fun (_ : string) n acc => n + acc)) 0).
    + intros j1 [k1 n1] j2 [k2 n2] b _ _ _. simpl. lia.
    + by apply map_to_list_to_map.
  - apply foldr_ext; [|done..]. by intros [k n] acc.
Qed.

Lemma group_lookup {A} (key : A → string) (rows : list A) (k : string) (n : Z) :
  (list_to_map (sql_group_count key rows) : gmap string Z) !! k = Some n →
  n = count_rows (filter (fun a => key a = k) rows) ∧ 0 < n.
Proof.
  intros Hk. apply elem_of_list_to_map_2 in Hk.
  unfold sql_group_count in Hk.
  apply list_elem_of_fmap in Hk as (k' & [= -> ->] & Hin).
  split; [done|].
  apply elem_of_remove_dups, list_elem_of_fmap in Hin as (a & -> & Ha).
  assert (a ∈ filter (fun a' => key a' = key a) rows) as Hf
    by (by apply list_elem_of_filter).
  unfold count_rows. destruct (filter _ rows); [by apply elem_of_nil in Hf|].
  simpl. lia.
Qed.

(** X7. The statistics of a tenant agree with each other. When
    [GetWorkspaceStats] succeeds the store is as it was; the active
    workspaces are the total; the projects per status add up to the total
    of projects; every status listed has a count of at least one; the
    active projects are the count listed for "active" (none listed: zero);
    the map of workspaces per tenant is empty; and the answer is the same
    for every caller. *)
Theorem GetWorkspaceStats_counts_agree env tenantID userID s stats s' :
  workspaceService_GetWorkspaceStats env tenantID userID s = (Ok stats, s') →
  s' = s
  ∧ WorkspaceStats_ActiveWorkspaces stats = WorkspaceStats_TotalWorkspaces stats
  ∧ sum_of_counts (WorkspaceStats_ProjectsByStatus stats)
    = WorkspaceStats_TotalProjects stats
  ∧ (∀ status n, WorkspaceStats_ProjectsByStatus stats !! status = Some n → 0 < n)
  ∧ WorkspaceStats_ActiveProjects stats
    = default 0 (WorkspaceStats_ProjectsByStatus stats !! "active")
  ∧ WorkspaceStats_WorkspacesByTenant stats = ∅
  ∧ ∀ other, workspaceService_GetWorkspaceStats env tenantID other s = (Ok stats, s).
Proof.
  unfold workspaceService_GetWorkspaceStats at 1.
  intros Hrun. split; [|split; [|split; [|split; [|split; [|split]]]]].
  7: { intros other. unfold workspaceService_GetWorkspaceStats. rewrite Hrun.
       f_equal. revert Hrun. unfold workspaceRepository_GetStats, bind, round_trip, read, ret.
       repeat (destruct (fails env _); [done|]). by intros [= _ <-]. }
  all: revert Hrun;
    unfold workspaceRepository_GetStats, bind, round_trip, read, ret;
    repeat (destruct (fails env _); [done|]);
    intros [= <- <-]; cbn [WorkspaceStats_ActiveWorkspaces WorkspaceStats_TotalWorkspaces
      WorkspaceStats_ProjectsByStatus WorkspaceStats_TotalProjects
      WorkspaceStats_ActiveProjects WorkspaceStats_WorkspacesByTenant]; try done.
  all: rewrite foldl_insert_list_to_map, (right_id_L ∅ (∪))
         by (rewrite sql_group_count_keys; apply NoDup_remove_dups).
  - rewrite sum_of_counts_list_to_map
      by (rewrite sql_group_count_keys; apply NoDup_remove_dups).
    apply sum_group_counts.
  - intros status n Hn. by apply group_lookup in Hn as [_ ?].
  - set (joined := filter (tenant_project_where tenantID) (projects_JOIN_workspaces s)).
    assert (Hactive : filter (fun row : Project * Workspace =>
                         Workspace_TenantID row.2 = tenantID
                         ∧ Project_Status row.1 = "active"
                         ∧ Project_DeletedAt row.1 = None) (projects_JOIN_workspaces s)
                      = filter (fun row : Project * Workspace =>
                                  Project_Status row.1 = "active") joined).
    { unfold joined. rewrite list_filter_filter. apply list_filter_iff.
      intros row. unfold tenant_project_where. tauto. }
    rewrite Hactive.
    destruct (list_to_map _ !! "active") as [n|] eqn:Hn.
    + apply group_lookup in Hn as [-> _]. done.
    + apply not_elem_of_list_to_map in Hn. rewrite sql_group_count_keys in Hn.
      simpl. rewrite filter_none; [done|].
      intros row Hrow Hst. apply Hn, elem_of_remove_dups, list_elem_of_fmap.
      by exists row.
Qed.

Lemma GetWorkspaceStats_counts_agree_witness :
  ∃ stats,
    workspaceService_GetWorkspaceStats (example_env nothing_fails) "t1" "mallory"
      (busy_store 0 3) = (Ok stats, busy_store 0 3)
    ∧ WorkspaceStats_TotalProjects stats = 4
    ∧ sum_of_counts (WorkspaceStats_ProjectsByStatus stats) = 4.
Proof.
  assert (∃ stats,
    workspaceService_GetWorkspaceStats (example_env nothing_fails) "t1" "mallory"
      (busy_store 0 3) = (Ok stats, busy_store 0 3)
    ∧ WorkspaceStats_TotalProjects stats = 4) as (stats & Hrun & Htotal).
  { vm_compute. eexists. split; reflexivity. }
  exists stats. split; [exact Hrun|]. split; [exact Htotal|].
  destruct (GetWorkspaceStats_counts_agree _ _ _ _ _ _ Hrun) as (_ & _ & -> & _).
  exact Htotal.
Defined.

(** ** The workspaces of a user *)

Lemma member_workspaces_run env userID all mine ids s :
  fails env (SELECT_FIRST workspace_members_t) = false →
  member_workspaces env userID all mine ids s =
  (Ok (mine ++ filter (has_membership s userID) all,
       ids ++ (Workspace_ID <$> filter (has_membership s userID) all)), s).
Proof.
  intros Hf. revert mine ids. induction all as [|w all IH]; intros mine ids.
  - simpl. by rewrite !app_nil_r.
  - simpl. unfold bind, catch. rewrite GetByWorkspaceAndUser_run, Hf.
    rewrite filter_cons. destruct (decide (has_membership s userID w)) as [[m Hm]|Hm].
    + rewrite Hm. rewrite IH, fmap_cons, <- !app_assoc. done.
    + destruct (head _) as [m|] eqn:Hhead; [by destruct Hm; exists m|]. apply IH.
Qed.

Lemma load_workspaces_run env ids loaded s :
  fails env (SELECT_FIRST workspaces_t) = false →
  load_workspaces env ids loaded s =
  (Ok (loaded ++ omap (fun id => head (filter (workspace_id_where id) (workspaces s))) ids),
   s).
Proof.
  intros Hf. revert loaded. induction ids as [|id ids IH]; intros loaded.
  - simpl. by rewrite app_nil_r.
  - simpl. unfold bind, catch. rewrite workspaceRepository_GetByID_run, Hf.
    destruct (head _) as [w|] eqn:Hw.
    + rewrite IH, <- app_assoc. done.
    + apply IH.
Qed.

Lemma first_workspace_by_key (s : Store) (w : Workspace) :
  workspaces_primary_key s → w ∈ workspaces s → Workspace_DeletedAt w = None →
  head (filter (workspace_id_where (Workspace_ID w)) (workspaces s)) = Some w.
Proof.
  intros Hpk Hin Hlive.
  destruct (head_filter_elem (workspace_id_where (Workspace_ID w)) _ w Hin)
    as (y & -> & Hy & [Hid _]); [done|].
  f_equal. by eapply NoDup_fmap_inj_on.
Qed.

Lemma newest_hundred_elem env s w :
  (∀ clause rows, order_workspaces env clause rows ≡ₚ rows) →
  w ∈ newest_hundred env s → w ∈ workspaces s ∧ Workspace_DeletedAt w = None.
Proof.
  intros Hperm Hin. unfold newest_hundred in Hin.
  apply elem_of_take in Hin as (i & Hin & _).
  apply list_elem_of_lookup_2 in Hin. rewrite Hperm in Hin.
  by apply list_elem_of_filter in Hin as [? ?].
Qed.

Lemma workspaceRepository_List_newest env s :
  fails env (SELECT_COUNT workspaces_t) = false →
  fails env (SELECT_FIND workspaces_t) = false →
  ∃ total,
    workspaceRepository_List env (mkWorkspaceFilter "" "" "" 0 100 "" "" false) s
    = (Ok (newest_hundred env s, total), s).
Proof.
  intros Hc Hf. rewrite workspaceRepository_List_run, Hc, Hf.
  eexists. f_equal. f_equal. f_equal.
  unfold paging, gorm_Limit, gorm_Offset, order_clause, newest_hundred. cbn.
  f_equal. f_equal. apply list_filter_iff. intros w.
  unfold workspace_filter_where. cbn. tauto.
Qed.

(** X8. On a cache miss [GetUserWorkspaces] answers with the workspaces,
    among the hundred live workspaces created last, in which the user has a
    membership row, and asking again gives the same answer: from the list of
    IDs the first call cached, or by the same search when nothing was
    cached. The tables are not changed. *)
Theorem GetUserWorkspaces_answers_twice env s userID :
  database_reachable env →
  fails env REDIS_GET = false →
  (∀ clause rows, order_workspaces env clause rows ≡ₚ rows) →
  workspaces_primary_key s →
  redis s !! (userWorkspacePrefix ++ userID)%string = None →
  let mine := filter (has_membership s userID) (newest_hundred env s) in
  ∃ s1,
    memberService_GetUserWorkspaces env userID s = (Ok mine, s1)
    ∧ workspaces s1 = workspaces s
    ∧ workspace_members s1 = workspace_members s
    ∧ memberService_GetUserWorkspaces env userID s1 = (Ok mine, s1).
Proof.
  intros (Hcount & Hfirst & Hfind & _) Hget Hperm Hpk Hmiss mine.
  assert (Hfirst_run : memberService_GetUserWorkspaces env userID s =
    ((if bool_decide (count_rows (Workspace_ID <$> mine) > 0) then
        ignore (cacheRepository_SetUserWorkspaces env userID (Workspace_ID <$> mine))
      else ret tt) ;; ret mine) s).
  { unfold memberService_GetUserWorkspaces. unfold bind at 1, catch.
    rewrite cacheRepository_GetUserWorkspaces_run, Hget, Hmiss.
    unfold bind at 1.
    destruct (workspaceRepository_List_newest env s (Hcount _) (Hfind _)) as (total & ->).
    unfold bind at 1. rewrite member_workspaces_run by apply Hfirst. done. }
  destruct (bool_decide (count_rows (Workspace_ID <$> mine) > 0)) eqn:Hsome;
    [destruct (fails env REDIS_SET) eqn:Hset|].
  - exists s. rewrite Hfirst_run.
    unfold bind, ignore, ret, cacheRepository_SetUserWorkspaces, round_trip.
    rewrite Hset. done.
  - set (s1 := set_redis (insert (userWorkspacePrefix ++ userID)%string
                            (blob_strings (Workspace_ID <$> mine))) s).
    exists s1. split; [|split; [done|split; [done|]]].
    + rewrite Hfirst_run.
      unfold bind, ignore, ret, cacheRepository_SetUserWorkspaces, round_trip, write.
      rewrite Hset. done.
    + unfold memberService_GetUserWorkspaces. unfold bind at 1, catch.
      rewrite cacheRepository_GetUserWorkspaces_run, Hget.
      unfold s1 at 1. cbn [redis set_redis]. rewrite lookup_insert_eq. cbn.
      rewrite load_workspaces_run by apply Hfirst. f_equal. f_equal. cbn.
      assert (Hmine : ∀ w, w ∈ mine → w ∈ workspaces s ∧ Workspace_DeletedAt w = None).
      { intros w [_ Hw]%list_elem_of_filter. by apply (newest_hundred_elem env). }
      clearbody mine. clear Hfirst_run Hsome s1.
      induction mine as [|w mine IH]; [done|].
      rewrite fmap_cons. cbn [omap list_omap].
      destruct (Hmine w) as [Hin Hlive]; [left|].
      rewrite first_workspace_by_key by done. f_equal.
      apply IH. intros x Hx. apply Hmine. by right.
  - exists s. rewrite Hfirst_run. unfold bind, ret. done.
Qed.

Lemma database_never_fails : database_reachable (example_env nothing_fails).
Proof. repeat split. Qed.

Lemma example_order_is_a_permutation clause (rows : list Workspace) :
  order_workspaces (example_env nothing_fails) clause rows ≡ₚ rows.
Proof.
  cbn. unfold order_by_time.
  repeat case_bool_decide; try done; apply merge_sort_Permutation.
Qed.

Lemma acme_store_workspaces_primary_key : workspaces_primary_key acme_store.
Proof. unfold workspaces_primary_key. cbn. apply NoDup_singleton. Qed.

Lemma GetUserWorkspaces_answers_twice_witness :
  ∃ s1,
    memberService_GetUserWorkspaces (example_env nothing_fails) "bob" acme_store
    = (Ok [acme], s1)
    ∧ memberService_GetUserWorkspaces (example_env nothing_fails) "bob" s1
      = (Ok [acme], s1).
Proof.
  destruct (GetUserWorkspaces_answers_twice (example_env nothing_fails) acme_store "bob"
              database_never_fails eq_refl example_order_is_a_permutation
              acme_store_workspaces_primary_key eq_refl)
    as (s1 & Hfirst & _ & _ & Hsecond).
  exists s1. split; [exact Hfirst | exact Hsecond].
Defined.

(** ** Parts of the store a computation leaves alone *)

Lemma keeps_ret {A B} (part : Store → B) (a : A) : keeps part (ret a).
Proof. by intros s r s' [= _ <-]. Qed.

Lemma keeps_fail {A B} (part : Store → B) e : keeps part (@fail A e).
Proof. by intros s r s' [= _ <-]. Qed.

Lemma keeps_read {A B} (part : Store → B) (f : Store → A) : keeps part (read f).
Proof. by intros s r s' [= _ <-]. Qed.

Lemma keeps_round_trip {B} (part : Store → B) env c : keeps part (round_trip env c).
Proof. intros s r s'. unfold round_trip. by destruct (fails env c); intros [= _ <-]. Qed.

Lemma keeps_bind {A A' B} (part : Store → B) (c : M A) (k : A → M A') :
  keeps part c → (∀ a, keeps part (k a)) → keeps part (bind c k).
Proof.
  intros Hc Hk s r s'. unfold bind.
  destruct (c s) as [[a|e] s1] eqn:E.
  - intros Hrun. rewrite (Hk a _ _ _ Hrun). by eapply Hc.
  - intros [= _ <-]. by eapply Hc.
Qed.

Lemma keeps_catch {A B} (part : Store → B) (c : M A) : keeps part c → keeps part (catch c).
Proof.
  intros Hc s r s'. unfold catch. destruct (c s) as [r1 s1] eqn:E.
  intros [= _ <-]. by eapply Hc.
Qed.

Lemma keeps_ignore {A B} (part : Store → B) (c : M A) :
  keeps part c → keeps part (ignore c).
Proof.
  intros Hc s r s'. unfold ignore. destruct (c s) as [r1 s1] eqn:E.
  intros [= _ <-]. by eapply Hc.
Qed.

Lemma keeps_write {B} (part : Store → B) (f : Store → Store) :
  (∀ s, part (f s) = part s) → keeps part (write f).
Proof. intros Hf s r s' [= _ <-]. apply Hf. Qed.

(** Takes a computation apart; what is left are the writes to the part and
    the calls it does not know. *)
Ltac keeping :=
  repeat first
    [ apply keeps_ret | apply keeps_fail | apply keeps_read | apply keeps_round_trip
    | apply keeps_write; intros ?; reflexivity
    | apply keeps_catch | apply keeps_ignore
    | apply keeps_bind; [|intros ?]
    | match goal with
      | |- keeps _ (match ?x with _ => _ end) => destruct x
      | |- keeps _ (if ?b then _ else _) => destruct b
      | |- keeps _ (let '(_, _) := ?p in _) => destruct p
      end ].

Lemma keeps_Member_Get {B} (part : Store → B) env w u :
  keeps part (workspaceMemberRepository_GetByWorkspaceAndUser env w u).
Proof. unfold workspaceMemberRepository_GetByWorkspaceAndUser. keeping. Qed.

Lemma keeps_CheckUserAccess {B} (part : Store → B) env w u role :
  keeps part (workspaceService_CheckUserAccess env w u role).
Proof.
  unfold workspaceService_CheckUserAccess.
  apply keeps_bind; [apply keeps_catch, keeps_Member_Get|intros ?]. keeping.
Qed.

Lemma keeps_Workspace_GetByID {B} (part : Store → B) env id :
  keeps part (workspaceRepository_GetByID env id).
Proof. unfold workspaceRepository_GetByID. keeping. Qed.

Lemma keeps_Project_GetByID {B} (part : Store → B) env id :
  keeps part (projectRepository_GetByID env id).
Proof. unfold projectRepository_GetByID. keeping. Qed.

Lemma keeps_Base_GetByID {B} (part : Store → B) env id :
  keeps part (airtableBaseRepository_GetByID env id).
Proof. unfold airtableBaseRepository_GetByID. keeping. Qed.

Lemma keeps_load_base_project {B} (part : Store → B) env id :
  keeps part (load_base_project env id).
Proof.
  unfold load_base_project.
  apply keeps_bind; [apply keeps_Base_GetByID|intros base].
  destruct (AirtableBase_Project base); [keeping|].
  apply keeps_bind; [apply keeps_Project_GetByID|intros ?; keeping].
Qed.

Lemma keeps_Workspace_List {B} (part : Store → B) env flt :
  keeps part (workspaceRepository_List env flt).
Proof. unfold workspaceRepository_List. keeping. Qed.

Lemma keeps_Project_List {B} (part : Store → B) env flt :
  keeps part (projectRepository_List env flt).
Proof. unfold projectRepository_List. keeping. Qed.

Lemma keeps_Base_List {B} (part : Store → B) env flt :
  keeps part (airtableBaseRepository_List env flt).
Proof. unfold airtableBaseRepository_List. keeping. Qed.

Lemma keeps_Member_List {B} (part : Store → B) env w page pageSize :
  keeps part (workspaceMemberRepository_List env w page pageSize).
Proof. unfold workspaceMemberRepository_List. keeping. Qed.

Lemma keeps_Audit_List {B} (part : Store → B) env flt :
  keeps part (auditLogRepository_List env flt).
Proof. unfold auditLogRepository_List. keeping. Qed.

Lemma keeps_LogAction {B} (part : Store → B) env w u a rt rid ch :
  (∀ f s, part (set_workspace_audit_logs f s) = part s) →
  (∀ s, part (next_uuid s) = part s) →
  keeps part (auditService_LogAction env w u a rt rid ch).
Proof.
  intros Hlogs Huuid s r s'.
  unfold auditService_LogAction, auditLogRepository_Create,
    bind, catch, round_trip, read, write, ret.
  destruct (fails env _); [by intros [= _ <-]|].
  cbn. intros [= _ <-]. by rewrite Hlogs, Huuid.
Qed.

Lemma keeps_optional_LogAction {B} (part : Store → B) env (b : bool) w u a rt rid ch :
  (∀ f s, part (set_workspace_audit_logs f s) = part s) →
  (∀ s, part (next_uuid s) = part s) →
  keeps part (if b then ignore (auditService_LogAction env w u a rt rid ch) else ret tt).
Proof.
  intros Hlogs Huuid. destruct b; [|apply keeps_ret].
  by apply keeps_ignore, keeps_LogAction.
Qed.

(** ** Airtable bases *)

(** X9. [ListBases] turns every failure of its access check into an empty
    page. For a filter with a project ID whose project is found, a caller
    who is no member of the project's workspace, a member whose role is not
    one of the four roles, and a membership table that cannot be read all
    get a successful answer with no bases and a total of zero; the store is
    not changed. For a filter with no project ID there is no check: the
    answer is the same for every caller. *)
Theorem ListBases_hides_access_failures env flt userID s :
  (∀ project,
      AirtableBaseFilter_ProjectID flt ≠ "" →
      projectRepository_GetByID env (AirtableBaseFilter_ProjectID flt) s = (Ok project, s) →
      ¬ (fails env (SELECT_FIRST workspace_members_t) = false
         ∧ member_with_role s (Project_WorkspaceID project) userID WorkspaceRoleViewer) →
      airtableBaseService_ListBases env flt userID s = (Ok (no_bases flt), s))
  ∧ (AirtableBaseFilter_ProjectID flt = "" →
     ∀ other, airtableBaseService_ListBases env flt userID s
              = airtableBaseService_ListBases env flt other s).
Proof.
  split.
  - intros project Hid Hproject Hno.
    unfold airtableBaseService_ListBases.
    rewrite bool_decide_eq_true_2 by done.
    unfold bind at 1. rewrite Hproject. unfold bind at 1, catch.
    rewrite airtable_checkProjectAccess_run, CheckUserAccess_run.
    destruct (fails env (SELECT_FIRST _)); [done|].
    destruct (head _) as [m|] eqn:Hm; [|done].
    destruct (hasRequiredRole _ _) eqn:Hrole; [|done].
    destruct Hno. split; [done|]. by exists m.
  - intros Hid other. unfold airtableBaseService_ListBases.
    by rewrite bool_decide_eq_false_2 by (by intros ?).
Qed.

Lemma members_table_down_SELECT_FIRST :
  ¬ (fails (example_env (fun c => match c with
                                  | SELECT_FIRST workspace_members_t => true
                                  | _ => false
                                  end)) (SELECT_FIRST workspace_members_t) = false
     ∧ member_with_role acme_store "ws-1" "alice" WorkspaceRoleViewer).
Proof. by intros [? _]. Qed.

Lemma ListBases_hides_access_failures_witness :
  let flt := mkAirtableBaseFilter "p-1" None "" 1 20 "" "" in
  let down := example_env (fun c => match c with
                                    | SELECT_FIRST workspace_members_t => true
                                    | _ => false
                                    end) in
  airtableBaseService_ListBases down flt "alice" acme_store
  = (Ok (mkAirtableBaseListResponse [] 0 1 20 0), acme_store).
Proof.
  intros flt down.
  destruct (ListBases_hides_access_failures down flt "alice" acme_store) as [Hhide _].
  eapply Hhide; [done|reflexivity|exact members_table_down_SELECT_FIRST].
Defined.

Lemma airtableBaseRepository_Create_Ok env base s created s' :
  airtableBaseRepository_Create env base s = (Ok created, s') →
  created = AirtableBase_defaults env (gen_random_uuid env (uuid_seq s)) base
  ∧ airtable_bases s' = airtable_bases s ++ [AirtableBase_with_Project None created].
Proof.
  unfold airtableBaseRepository_Create, bind, read, write, ret, fail, round_trip.
  destruct (fails env (SELECT_COUNT _)); [intros [=]|].
  destruct (bool_decide (_ > 0)); [intros [=]|].
  destruct (fails env (INSERT _)); [intros [=]|].
  destruct (bool_decide (AirtableBase_ID base = "")); by intros [= <- <-].
Qed.

Lemma airtableBaseRepository_Update_Ok env base s stamped s' :
  airtableBaseRepository_Update env base s = (Ok stamped, s') →
  stamped = AirtableBase_with_UpdatedAt (time_Now env) base
  ∧ s' = set_airtable_bases
           (fmap (fun row => if decide (base_id_where (AirtableBase_ID base) row)
                             then AirtableBase_Updates env base row else row)) s.
Proof.
  unfold airtableBaseRepository_Update, bind, read, write, ret, fail, round_trip.
  destruct (bool_decide (AirtableBase_ID base = "")); [intros [=]|].
  destruct (fails env (UPDATE _)); [intros [=]|].
  case_bool_decide; by intros [= <- <-].
Qed.

Lemma optional_LogAction_bases env (b : bool) w u a rt rid ch s r s' :
  (if b then ignore (auditService_LogAction env w u a rt rid ch) else ret tt) s = (r, s') →
  airtable_bases s' = airtable_bases s.
Proof. apply keeps_optional_LogAction; done. Qed.

(** X10. Synchronisation cannot be switched off. A base connected with
    [sync_enabled] false comes back, and is stored, with the flag true; an
    update that asks for false returns a base that says false while the flag
    of every stored row is what it was before. *)
Theorem sync_cannot_be_switched_off env s userID :
  (∀ projectID req base s',
      airtableBaseService_ConnectBase env projectID userID req s = (Ok base, s') →
      AirtableBase_SyncEnabled base = true
      ∧ ∃ row, airtable_bases s' = airtable_bases s ++ [row]
               ∧ AirtableBase_SyncEnabled row = true
               ∧ AirtableBase_ProjectID row = projectID
               ∧ AirtableBase_BaseID row = CreateAirtableBaseRequest_BaseID req)
  ∧ (∀ baseID req base s',
        UpdateAirtableBaseRequest_SyncEnabled req = Some false →
        airtableBaseService_UpdateBase env baseID userID req s = (Ok base, s') →
        AirtableBase_SyncEnabled base = false
        ∧ AirtableBase_SyncEnabled <$> airtable_bases s'
          = AirtableBase_SyncEnabled <$> airtable_bases s).
Proof.
  split.
  - intros projectID req base s'. unfold airtableBaseService_ConnectBase.
    intros (project & s1 & Hget & Hrun)%bind_Ok_inv.
    apply (keeps_Project_GetByID id) in Hget as Hs1. simpl in Hs1. subst s1.
    apply bind_Ok_inv in Hrun as ([] & s2 & Hcheck & Hrun).
    rewrite airtable_checkProjectAccess_run in Hcheck.
    apply CheckUserAccess_state in Hcheck as ->.
    apply bind_Ok_inv in Hrun as (created & s3 & Hcreate & Hrun).
    apply airtableBaseRepository_Create_Ok in Hcreate as [-> Hrows].
    apply bind_Ok_inv in Hrun as ([] & s4 & Hlog & Hret).
    injection Hret as <- <-.
    assert (airtable_bases s4 = airtable_bases s3) as ->.
    { revert Hlog. apply (keeps_ignore airtable_bases), keeps_LogAction; done. }
    split; [done|]. eexists. split; [exact Hrows|]. done.
  - intros baseID req base s' Hreq. unfold airtableBaseService_UpdateBase.
    intros ([loaded project] & s1 & Hload & Hrun)%bind_Ok_inv.
    apply (keeps_load_base_project id) in Hload. simpl in Hload. subst s1.
    apply bind_Ok_inv in Hrun as ([] & s2 & Hcheck & Hrun).
    rewrite airtable_checkProjectAccess_run in Hcheck.
    apply CheckUserAccess_state in Hcheck as ->.
    rewrite Hreq in Hrun.
    destruct (UpdateAirtableBaseRequest_Name req), (UpdateAirtableBaseRequest_Description req);
      apply bind_Ok_inv in Hrun as (stamped & s3 & Hupdate & Hrun);
      apply airtableBaseRepository_Update_Ok in Hupdate as [-> ->];
      apply bind_Ok_inv in Hrun as ([] & s4 & Hlog & Hret);
      injection Hret as <- <-;
      match type of Hlog with
      | (if ?b then _ else _) _ = _ =>
          rewrite (optional_LogAction_bases env b _ _ _ _ _ _ _ _ _ Hlog)
      end;
      (split; [done|]); cbn [airtable_bases set_airtable_bases];
      rewrite <- list_fmap_compose; apply list_fmap_ext;
      intros i row _; simpl; by destruct (decide _).
Qed.

Lemma sync_cannot_be_switched_off_witness :
  let req := mkCreateAirtableBaseRequest "appABC" "Orders" "" false in
  ∃ base s',
    airtableBaseService_ConnectBase (example_env nothing_fails) "p-1" "bob" req acme_store
    = (Ok base, s')
    ∧ AirtableBase_SyncEnabled base = true
    ∧ AirtableBase_SyncEnabled <$> airtable_bases s' = [true; true].
Proof.
  intros req.
  assert (∃ base s',
    airtableBaseService_ConnectBase (example_env nothing_fails) "p-1" "bob" req acme_store
    = (Ok base, s')) as (base & s' & Hrun).
  { eexists _, _. vm_compute. reflexivity. }
  exists base, s'. split; [exact Hrun|].
  destruct (sync_cannot_be_switched_off (example_env nothing_fails) acme_store "bob")
    as [Hconnect _].
  destruct (Hconnect _ _ _ _ Hrun) as (Hbase & row & -> & Hrow & _).
  split; [exact Hbase|]. rewrite fmap_app. cbn. by rewrite Hrow.
Defined.

(** ** Rows that are soft-deleted *)

Ltac run_repository :=
  unfold bind, read, write, ret, fail, round_trip;
  repeat first
    [ match goal with
      | |- context [fails ?env ?c] => destruct (fails env c)
      | |- context [bool_decide ?P] => destruct (bool_decide P)
      end ].

Lemma lookup_fmap_unaffected {R} (f : R → R) (rows : list R) i row :
  rows !! i = Some row → f row = row → (f <$> rows) !! i = Some row.
Proof. intros Hi Hf. rewrite list_lookup_fmap, Hi. simpl. by rewrite Hf. Qed.

(** X11. A row that is soft-deleted is never touched again: [Create],
    [Update] and [Delete] of the workspace, project and base repositories,
    and [UpdateSyncTime], leave every row that has a deletion time at its
    place and as it is, whatever they are asked and whatever they return. *)
Theorem soft_deleted_rows_are_left_alone env :
  (∀ w, keeps_rows workspaces (fun row => Workspace_DeletedAt row ≠ None)
          (workspaceRepository_Create env w))
  ∧ (∀ w, keeps_rows workspaces (fun row => Workspace_DeletedAt row ≠ None)
            (workspaceRepository_Update env w))
  ∧ (∀ id, keeps_rows workspaces (fun row => Workspace_DeletedAt row ≠ None)
             (workspaceRepository_Delete env id))
  ∧ (∀ p, keeps_rows projects (fun row => Project_DeletedAt row ≠ None)
            (projectRepository_Create env p))
  ∧ (∀ p, keeps_rows projects (fun row => Project_DeletedAt row ≠ None)
            (projectRepository_Update env p))
  ∧ (∀ id, keeps_rows projects (fun row => Project_DeletedAt row ≠ None)
             (projectRepository_Delete env id))
  ∧ (∀ b, keeps_rows airtable_bases (fun row => AirtableBase_DeletedAt row ≠ None)
            (airtableBaseRepository_Create env b))
  ∧ (∀ b, keeps_rows airtable_bases (fun row => AirtableBase_DeletedAt row ≠ None)
            (airtableBaseRepository_Update env b))
  ∧ (∀ id, keeps_rows airtable_bases (fun row => AirtableBase_DeletedAt row ≠ None)
             (airtableBaseRepository_Delete env id))
  ∧ (∀ id t, keeps_rows airtable_bases (fun row => AirtableBase_DeletedAt row ≠ None)
               (airtableBaseRepository_UpdateSyncTime env id t)).
Proof.
  repeat split; intros; intros s r s' i row;
    unfold workspaceRepository_Create, workspaceRepository_Update,
      workspaceRepository_Delete, projectRepository_Create, projectRepository_Update,
      projectRepository_Delete, airtableBaseRepository_Create,
      airtableBaseRepository_Update, airtableBaseRepository_Delete,
      airtableBaseRepository_UpdateSyncTime;
    run_repository; intros [= _ <-] Hi Hdel; try done;
    cbn [workspaces projects airtable_bases set_workspaces set_projects
         set_airtable_bases next_uuid];
    first [ by apply lookup_app_l_Some
          | apply lookup_fmap_unaffected; [done|];
            rewrite decide_False; [done|by intros [_ ?]] ].
Qed.

(** ** The cache *)

Lemma prefix_app (p x : string) : String.prefix p (p ++ x)%string = true.
Proof.
  induction p as [|c p IH]; [by destruct x|].
  simpl. by destruct (ascii_dec c c).
Qed.

Lemma project_key_inj (a b : string) :
  (projectCachePrefix ++ a)%string = (projectCachePrefix ++ b)%string → a = b.
Proof. intros H. by injection H. Qed.

Lemma user_key_inj (a b : string) :
  (userWorkspacePrefix ++ a)%string = (userWorkspacePrefix ++ b)%string → a = b.
Proof. intros H. by injection H. Qed.

Lemma cacheRepository_GetProject_run env id s :
  cacheRepository_GetProject env id s =
  if fails env REDIS_GET then (Err io_failure, s)
  else match cached_project s id with
       | None => (Ok None, s)
       | Some data => match json_Unmarshal_Project data with
                      | Ok project => (Ok (Some project), s)
                      | Err e => (Err e, s)
                      end
       end.
Proof.
  unfold cacheRepository_GetProject, cached_project, bind, round_trip, read.
  destruct (fails env REDIS_GET); [done|].
  destruct (redis s !! _) as [data|]; [|done].
  by destruct (json_Unmarshal_Project data).
Qed.

(** X12. The three families of cache keys do not meet: writing or deleting
    the entry of a workspace changes no entry of a project or of a user and
    no entry of another workspace, and likewise for the entries of projects
    and of users, whatever the IDs are. *)
Theorem cache_families_do_not_meet env :
  (∀ w, (∀ p u, keeps (fun s => (cached_project s p, cached_user_workspaces s u))
                  (cacheRepository_SetWorkspace env w))
        ∧ ∀ id, id ≠ Workspace_ID w →
                keeps (fun s => cached_workspace s id) (cacheRepository_SetWorkspace env w))
  ∧ (∀ id, (∀ p u, keeps (fun s => (cached_project s p, cached_user_workspaces s u))
                     (cacheRepository_DeleteWorkspace env id))
           ∧ ∀ id', id' ≠ id →
                    keeps (fun s => cached_workspace s id')
                      (cacheRepository_DeleteWorkspace env id))
  ∧ (∀ p, (∀ w u, keeps (fun s => (cached_workspace s w, cached_user_workspaces s u))
                    (cacheRepository_SetProject env p))
          ∧ ∀ id, id ≠ Project_ID p →
                  keeps (fun s => cached_project s id) (cacheRepository_SetProject env p))
  ∧ (∀ id, (∀ w u, keeps (fun s => (cached_workspace s w, cached_user_workspaces s u))
                     (cacheRepository_DeleteProject env id))
           ∧ ∀ id', id' ≠ id →
                    keeps (fun s => cached_project s id')
                      (cacheRepository_DeleteProject env id))
  ∧ (∀ u ids, (∀ w p, keeps (fun s => (cached_workspace s w, cached_project s p))
                        (cacheRepository_SetUserWorkspaces env u ids))
              ∧ ∀ u', u' ≠ u →
                      keeps (fun s => cached_user_workspaces s u')
                        (cacheRepository_SetUserWorkspaces env u ids))
  ∧ (∀ u, (∀ w p, keeps (fun s => (cached_workspace s w, cached_project s p))
                    (cacheRepository_InvalidateUserCache env u))
          ∧ ∀ u', u' ≠ u →
                  keeps (fun s => cached_user_workspaces s u')
                    (cacheRepository_InvalidateUserCache env u)).
Proof.
  repeat split; intros;
    unfold cacheRepository_SetWorkspace, cacheRepository_DeleteWorkspace,
      cacheRepository_SetProject, cacheRepository_DeleteProject,
      cacheRepository_SetUserWorkspaces, cacheRepository_InvalidateUserCache;
    (apply keeps_bind; [apply keeps_round_trip|intros _]);
    apply keeps_write; intros s;
    unfold cached_workspace, cached_project, cached_user_workspaces;
    cbn [redis set_redis];
    lazymatch goal with |- (_, _) = (_, _) => f_equal | |- _ => idtac end;
    first [ apply lookup_insert_ne | apply lookup_delete_ne ];
    first [ by intros [=]
          | intros ?%workspace_key_inj; congruence
          | intros ?%project_key_inj; congruence
          | intros ?%user_key_inj; congruence ].
Qed.

Lemma InvalidateWorkspaceCache_run env workspaceID s :
  fails env REDIS_DEL = false → fails env REDIS_SCAN = false →
  cacheRepository_InvalidateWorkspaceCache env workspaceID s =
  (Ok tt,
   set_redis (fun m => filter (fun entry => scan_deletes env workspaceID entry = false)
                              (delete (workspaceCachePrefix ++ workspaceID)%string m)) s).
Proof.
  intros Hdel Hscan.
  unfold cacheRepository_InvalidateWorkspaceCache, cacheRepository_DeleteWorkspace,
    bind, round_trip, write.
  by rewrite Hdel, Hscan.
Qed.

(** X13. With redis answering, [InvalidateWorkspaceCache] removes what the
    cache holds of the workspace and nothing else: afterwards the workspace
    is a miss, no cached project belongs to the workspace, and every cached
    project of another workspace, every other workspace and every list of a
    user is still cached; the tables are not touched. *)
Theorem InvalidateWorkspaceCache_removes_the_workspace env workspaceID s :
  redis_reachable env →
  ∃ s',
    cacheRepository_InvalidateWorkspaceCache env workspaceID s = (Ok tt, s')
    ∧ durable s' = durable s
    ∧ cacheRepository_GetWorkspace env workspaceID s' = (Ok None, s')
    ∧ (∀ id project,
          cacheRepository_GetProject env id s' = (Ok (Some project), s') →
          Project_WorkspaceID project ≠ workspaceID)
    ∧ (∀ id project,
          cacheRepository_GetProject env id s = (Ok (Some project), s) →
          Project_WorkspaceID project ≠ workspaceID →
          cacheRepository_GetProject env id s' = (Ok (Some project), s'))
    ∧ (∀ id, id ≠ workspaceID → cached_workspace s' id = cached_workspace s id)
    ∧ (∀ u, cached_user_workspaces s' u = cached_user_workspaces s u).
Proof.
  intros (Hget & _ & Hdel & Hscan).
  eexists. split; [by apply InvalidateWorkspaceCache_run|].
  split; [done|].
  assert (Hother : ∀ key, String.prefix projectCachePrefix key = false →
                          key ≠ (workspaceCachePrefix ++ workspaceID)%string →
    filter (fun entry => scan_deletes env workspaceID entry = false)
           (delete (workspaceCachePrefix ++ workspaceID)%string (redis s)) !! key
    = redis s !! key).
  { intros key Hkey Hne. destruct (redis s !! key) as [blob|] eqn:Hk.
    - apply map_lookup_filter_Some. rewrite lookup_delete_ne by done.
      split; [done|]. unfold scan_deletes. cbn. by rewrite Hkey.
    - apply map_lookup_filter_None. left. by rewrite lookup_delete_ne. }
  split; [|split; [|split; [|split]]].
  - rewrite cacheRepository_GetWorkspace_run, Hget. cbn [redis set_redis].
    rewrite (proj2 (map_lookup_filter_None _ _ _)); [done|].
    left. apply lookup_delete_eq.
  - intros id project. rewrite cacheRepository_GetProject_run, Hget.
    unfold cached_project. cbn [redis set_redis].
    destruct (filter _ _ !! _) as [blob|] eqn:Hblob; [|done].
    apply map_lookup_filter_Some in Hblob as [_ Hkeep].
    unfold scan_deletes in Hkeep. cbn in Hkeep.
    rewrite prefix_app, Hget, Hdel in Hkeep. cbn in Hkeep.
    destruct (json_Unmarshal_Project blob) as [p|e]; [|done].
    intros [= <-]. rewrite andb_true_r in Hkeep. by apply bool_decide_eq_false in Hkeep.
  - intros id project. rewrite !cacheRepository_GetProject_run, Hget.
    unfold cached_project. cbn [redis set_redis].
    destruct (redis s !! _) as [blob|] eqn:Hblob; [|done].
    destruct (json_Unmarshal_Project blob) as [p|e] eqn:Hp; [|done].
    intros [= ->] Hws.
    rewrite (proj2 (map_lookup_filter_Some _ _ _ blob)); [by rewrite Hp|].
    split; [by rewrite lookup_delete_ne|].
    unfold scan_deletes. cbn. rewrite Hp, (bool_decide_eq_false_2 _ Hws).
    by rewrite andb_false_r.
  - intros id Hid. unfold cached_workspace. cbn [redis set_redis].
    apply Hother; [done|]. intros ?%workspace_key_inj. done.
  - intros u. unfold cached_user_workspaces. cbn [redis set_redis].
    by apply Hother.
Qed.

Lemma redis_never_fails : redis_reachable (example_env nothing_fails).
Proof. repeat split. Qed.

Lemma InvalidateWorkspaceCache_removes_the_workspace_witness :
  ∃ s',
    cacheRepository_InvalidateWorkspaceCache (example_env nothing_fails) "ws-1"
      warm_acme_store = (Ok tt, s')
    ∧ cacheRepository_GetWorkspace (example_env nothing_fails) "ws-1" s' = (Ok None, s')
    ∧ cached_workspace warm_acme_store "ws-1" = Some (blob_Workspace acme).
Proof.
  destruct (InvalidateWorkspaceCache_removes_the_workspace (example_env nothing_fails)
              "ws-1" warm_acme_store redis_never_fails)
    as (s' & Hrun & _ & Hmiss & _).
  exists s'. split; [exact Hrun|]. split; [exact Hmiss|]. reflexivity.
Defined.




Lemma lookup_foldl_insert_notin (cmds : list (string * Blob)) (m : gmap string Blob) key :
  key ∉ cmds.*1 →
  foldl (fun m cmd => <[cmd.1 := cmd.2]> m) m cmds !! key = m !! key.
Proof.
  revert m. induction cmds as [|[k v] cmds IH]; intros m Hkey; [done|].
  simpl in *. apply not_elem_of_cons in Hkey as [Hk Hkey].
  rewrite IH by done. by apply lookup_insert_ne.
Qed.

Lemma lookup_foldl_insert_in (cmds : list (string * Blob)) (m : gmap string Blob) key v :
  NoDup cmds.*1 → (key, v) ∈ cmds →
  foldl (fun m cmd => <[cmd.1 := cmd.2]> m) m cmds !! key = Some v.
Proof.
  revert m. induction cmds as [|[k v'] cmds IH]; intros m Hnd Hin.
  - by apply elem_of_nil in Hin.
  - simpl in *. apply NoDup_cons in Hnd as [Hk Hnd].
    apply elem_of_cons in Hin as [[= -> ->]|Hin].
    + rewrite lookup_foldl_insert_notin by done. apply lookup_insert_eq.
    + by apply IH.
Qed.

(** X15. After [WarmWorkspaceCache] has gone through, every workspace of the
    list is a cache hit that gives the workspace back, provided the IDs in
    the list are distinct; the entries of projects and of users and the
    tables are as before. With the round trip failing nothing is written. *)
Theorem WarmWorkspaceCache_makes_hits env warm s :
  NoDup (Workspace_ID <$> warm) →
  fails env REDIS_GET = false →
  ∃ r s',
    cacheRepository_WarmWorkspaceCache env warm s = (r, s')
    ∧ durable s' = durable s
    ∧ (∀ id u, cached_project s' id = cached_project s id
               ∧ cached_user_workspaces s' u = cached_user_workspaces s u)
    ∧ (fails env REDIS_SET = false →
       r = Ok tt
       ∧ ∀ w, w ∈ warm →
              cacheRepository_GetWorkspace env (Workspace_ID w) s' = (Ok (Some w), s'))
    ∧ (fails env REDIS_SET = true → warm ≠ [] → r = Err io_failure ∧ s' = s).
Proof.
  intros Hnd Hget. unfold cacheRepository_WarmWorkspaceCache.
  destruct warm as [|w0 warm'].
  { eexists _, _. split; [done|]. split; [done|]. split; [done|]. split; [|by intros _ ?].
    intros _. split; [done|]. intros w Hw. by apply elem_of_nil in Hw. }
  set (warm := w0 :: warm') in *.
  set (pipe := (fun workspace => ((workspaceCachePrefix ++ Workspace_ID workspace)%string,
                                  blob_Workspace workspace)) <$> warm).
  assert (Hkeys : pipe.*1 = (fun w => (workspaceCachePrefix ++ Workspace_ID w)%string) <$> warm).
  { unfold pipe. by rewrite <- list_fmap_compose. }
  change ((fun workspace => ((workspaceCachePrefix ++ Workspace_ID workspace)%string,
                             blob_Workspace workspace)) w0
          :: ((fun workspace => ((workspaceCachePrefix ++ Workspace_ID workspace)%string,
                                 blob_Workspace workspace)) <$> warm')) with pipe.
  cbn [fmap list_fmap]. fold pipe.
  unfold bind, round_trip, write.
  destruct (fails env REDIS_SET) eqn:Hset.
  { eexists _, _. split; [done|]. repeat split; done. }
  eexists _, _. split; [done|]. split; [done|].
  assert (Hfamilies : ∀ key, String.prefix workspaceCachePrefix key = false →
    foldl (fun m cmd => <[cmd.1 := cmd.2]> m) (redis s) pipe !! key = redis s !! key).
  { intros key Hkey. apply lookup_foldl_insert_notin. rewrite Hkeys.
    intros (w & -> & _)%list_elem_of_fmap. by rewrite prefix_app in Hkey. }
  split; [|split; [|done]].
  - intros id u. unfold cached_project, cached_user_workspaces. cbn [redis set_redis].
    by rewrite !Hfamilies.
  - intros _. split; [done|]. intros w Hw.
    rewrite cacheRepository_GetWorkspace_run, Hget. cbn [redis set_redis].
    rewrite (lookup_foldl_insert_in pipe _ _ (blob_Workspace w)); [done| |].
    + rewrite Hkeys.
      rewrite (list_fmap_compose Workspace_ID (fun id => (workspaceCachePrefix ++ id)%string)).
      apply NoDup_fmap_2; [|done]. intros a b. apply workspace_key_inj.
    + unfold pipe. apply list_elem_of_fmap. by exists w.
Qed.

Lemma WarmWorkspaceCache_makes_hits_witness :
  ∃ s',
    cacheRepository_WarmWorkspaceCache (example_env nothing_fails) [acme] acme_store
    = (Ok tt, s')
    ∧ cacheRepository_GetWorkspace (example_env nothing_fails) "ws-1" s' = (Ok (Some acme), s').
Proof.
  destruct (WarmWorkspaceCache_makes_hits (example_env nothing_fails) [acme] acme_store)
    as (r & s' & Hrun & _ & _ & Hhit & _); [apply NoDup_singleton|reflexivity|].
  destruct (Hhit eq_refl) as [-> Hget].
  exists s'. split; [exact Hrun|]. apply (Hget acme). left.
Defined.

(** ** Soft deletion *)

Lemma set_workspaces_same (f : list Workspace → list Workspace) (s : Store) :
  f (workspaces s) = workspaces s → set_workspaces f s = s.
Proof. intros Hf. destruct s. unfold set_workspaces. cbn in *. by rewrite Hf. Qed.

Lemma no_live_row_after_Delete env id (rows : list Workspace) :
  filter (workspace_id_where id)
    ((fun row => if decide (workspace_id_where id row)
                 then Workspace_with_DeletedAt (Some (time_Now env)) row else row) <$> rows)
  = [].
Proof.
  apply filter_none. intros row (row0 & -> & _)%list_elem_of_fmap.
  destruct (decide (workspace_id_where id row0)) as [H|H]; [|done].
  by intros [_ ?].
Qed.

(** X16. A workspace that was deleted is gone for the repository and its
    name is free again. After a [Delete] that succeeded the table has as
    many rows as before; [GetByID] and a second [Delete] for the ID fail,
    with [ErrWorkspaceNotFound] when the query answers, and change nothing;
    and a [Create] under the name of the deleted workspace, in its tenant,
    succeeds when that workspace was the only live holder of the name. *)
Theorem deleted_workspace_is_gone_and_its_name_free env id s s1 :
  workspaceRepository_Delete env id s = (Ok tt, s1) →
  length (workspaces s1) = length (workspaces s)
  ∧ (∃ e, workspaceRepository_GetByID env id s1 = (Err e, s1)
          ∧ (fails env (SELECT_FIRST workspaces_t) = false →
             e = repositories_ErrWorkspaceNotFound))
  ∧ workspaceRepository_Delete env id s1 = (Err repositories_ErrWorkspaceNotFound, s1)
  ∧ ∀ w,
      (∀ holder, holder ∈ name_holders s (Workspace_TenantID w) (Workspace_Name w) →
                 Workspace_ID holder = id) →
      Workspace_ID w = "" → Workspace_DeletedAt w = None →
      fails env (SELECT_COUNT workspaces_t) = false →
      fails env (INSERT workspaces_t) = false →
      ∃ created s2,
        workspaceRepository_Create env w s1 = (Ok created, s2)
        ∧ name_holders s2 (Workspace_TenantID w) (Workspace_Name w) = [created].
Proof.
  unfold workspaceRepository_Delete at 1. unfold bind, round_trip, read, write.
  destruct (fails env (DELETE _)) eqn:Hdelete; [done|].
  case_bool_decide as Hrows; [done|]. intros [= <-].
  set (s1 := set_workspaces _ s).
  assert (Hnone : filter (workspace_id_where id) (workspaces s1) = [])
    by apply no_live_row_after_Delete.
  split; [unfold s1; cbn [workspaces set_workspaces]; by rewrite length_fmap|].
  split; [|split].
  - rewrite workspaceRepository_GetByID_run, Hnone.
    destruct (fails env (SELECT_FIRST _)); eexists; split; done.
  - unfold workspaceRepository_Delete, bind, round_trip, read, write.
    rewrite Hdelete, Hnone. cbn. f_equal. apply set_workspaces_same.
    rewrite <- (list_fmap_id (workspaces s1)) at 2. apply list_fmap_ext.
    intros i row Hrow. rewrite decide_False; [done|].
    intros Hlive. apply list_elem_of_lookup_2 in Hrow.
    assert (row ∈ filter (workspace_id_where id) (workspaces s1)) as Hin
      by (by apply list_elem_of_filter).
    rewrite Hnone in Hin. by apply elem_of_nil in Hin.
  - intros w Hholders Hid Hlive Hcount Hinsert.
    assert (Hfree : name_holders s1 (Workspace_TenantID w) (Workspace_Name w) = []).
    { apply filter_none. intros row (row0 & -> & Hrow0)%list_elem_of_fmap.
      destruct (decide (workspace_id_where id row0)) as [H|H]; [by intros (_ & _ & ?)|].
      intros (Ht & Hn & Hlive0). apply H. split; [|done].
      apply Hholders. by apply list_elem_of_filter. }
    eexists _, _. split.
    + by apply workspaceRepository_Create_run.
    + unfold name_holders in *. cbn [workspaces set_workspaces next_uuid].
      rewrite filter_app, Hfree. cbn [app].
      rewrite filter_cons_True, filter_nil; [done|]. by cbn.
Qed.

Lemma deleted_workspace_is_gone_and_its_name_free_witness :
  let env := example_env nothing_fails in
  ∃ s1,
    workspaceRepository_Delete env "ws-1" acme_store = (Ok tt, s1)
    ∧ workspaceRepository_GetByID env "ws-1" s1 = (Err repositories_ErrWorkspaceNotFound, s1)
    ∧ workspaceRepository_Delete env "ws-1" s1 = (Err repositories_ErrWorkspaceNotFound, s1).
Proof.
  intros env. eexists. split; [reflexivity|].
  match goal with
  | |- workspaceRepository_GetByID env "ws-1" ?s1 = _ ∧ _ =>
      destruct (deleted_workspace_is_gone_and_its_name_free env "ws-1" acme_store s1 eq_refl)
        as (_ & (e & Hget & He) & Hdelete & _)
  end.
  rewrite (He eq_refl) in Hget. split; [exact Hget | exact Hdelete].
Defined.

Lemma projectRepository_List_run env flt s :
  projectRepository_List env flt s =
  if fails env (SELECT_COUNT projects_t) then (Err io_failure, s)
  else if fails env (SELECT_FIND projects_t) then (Err io_failure, s)
  else if fails env (SELECT_FIND workspaces_t) then (Err io_failure, s)
  else
    (Ok (preload_Workspace s <$>
           gorm_Limit (paging (ProjectFilter_Page flt) (ProjectFilter_PageSize flt) 20).2
             (gorm_Offset (paging (ProjectFilter_Page flt) (ProjectFilter_PageSize flt) 20).1
                (order_projects env
                   (order_clause env (ProjectFilter_SortBy flt) (ProjectFilter_SortOrder flt))
                   (filter (project_filter_where env flt) (projects s)))),
         count_rows (filter (project_filter_where env flt) (projects s))), s).
Proof.
  unfold projectRepository_List, bind, read, ret, round_trip.
  destruct (fails env (SELECT_COUNT _)); [done|].
  destruct (paging _ _ _) as [offset pageSize].
  destruct (fails env (SELECT_FIND projects_t)); [done|].
  by destruct (fails env (SELECT_FIND workspaces_t)).
Qed.

(** X17. The [IncludeDeleted] flag of the workspace and project filters
    makes no difference: the listing with the flag set is the listing
    without it, soft-deleted rows left out. *)
Theorem IncludeDeleted_makes_no_difference env s :
  (∀ tenantID search createdBy page pageSize sortBy sortOrder,
      workspaceRepository_List env
        (mkWorkspaceFilter tenantID search createdBy page pageSize sortBy sortOrder true) s
      = workspaceRepository_List env
          (mkWorkspaceFilter tenantID search createdBy page pageSize sortBy sortOrder false) s)
  ∧ (∀ workspaceID status search createdBy page pageSize sortBy sortOrder,
        projectRepository_List env
          (mkProjectFilter workspaceID status search createdBy page pageSize sortBy sortOrder
                           true) s
        = projectRepository_List env
            (mkProjectFilter workspaceID status search createdBy page pageSize sortBy
                             sortOrder false) s)
  ∧ (∀ flt rows total w,
        workspaceRepository_List env flt s = (Ok (rows, total), s) →
        (∀ clause l, order_workspaces env clause l ≡ₚ l) →
        w ∈ rows → Workspace_DeletedAt w = None).
Proof.
  split; [|split].
  - intros. rewrite !workspaceRepository_List_run. cbn.
    assert (Hsame : ∀ rows : list Workspace,
      filter (workspace_filter_where env
                (mkWorkspaceFilter tenantID search createdBy page pageSize sortBy sortOrder
                                   true)) rows
      = filter (workspace_filter_where env
                  (mkWorkspaceFilter tenantID search createdBy page pageSize sortBy
                                     sortOrder false)) rows).
    { intros rows. apply list_filter_iff. intros w.
      unfold workspace_filter_where. cbn. intuition congruence. }
    by rewrite Hsame.
  - intros. rewrite !projectRepository_List_run. cbn.
    assert (Hsame : ∀ rows : list Project,
      filter (project_filter_where env
                (mkProjectFilter workspaceID status search createdBy page pageSize sortBy
                                 sortOrder true)) rows
      = filter (project_filter_where env
                  (mkProjectFilter workspaceID status search createdBy page pageSize sortBy
                                   sortOrder false)) rows).
    { intros rows. apply list_filter_iff. intros p.
      unfold project_filter_where. cbn. intuition congruence. }
    by rewrite Hsame.
  - intros flt rows total w. rewrite workspaceRepository_List_run.
    destruct (fails env (SELECT_COUNT _)); [done|].
    destruct (fails env (SELECT_FIND _)); [done|].
    intros [= <- _] Hperm Hw.
    unfold gorm_Limit, gorm_Offset in Hw.
    assert (w ∈ filter (workspace_filter_where env flt) (workspaces s)) as Hin.
    { rewrite <- (Hperm (order_clause env (WorkspaceFilter_SortBy flt)
                                    (WorkspaceFilter_SortOrder flt))).
      repeat case_bool_decide;
        repeat match goal with
               | H : _ ∈ take _ _ |- _ =>
                   apply elem_of_take in H as (? & H & _);
                   apply list_elem_of_lookup_2 in H
               | H : _ ∈ drop _ _ |- _ =>
                   apply list_elem_of_lookup in H as [? H]; rewrite lookup_drop in H;
                   apply list_elem_of_lookup_2 in H
               end; done. }
    apply list_elem_of_filter in Hin as [Hwhere _].
    unfold workspace_filter_where in Hwhere. tauto.
Qed.

Lemma IncludeDeleted_makes_no_difference_witness :
  let env := example_env nothing_fails in
  let s1 := (workspaceRepository_Delete env "ws-1" acme_store).2 in
  workspaceRepository_List env (mkWorkspaceFilter "t1" "" "" 1 20 "" "" true) s1
  = (Ok ([], 0), s1).
Proof.
  intros env s1.
  destruct (IncludeDeleted_makes_no_difference env s1) as [-> _]. reflexivity.
Defined.

(** ** Pages *)

Lemma take_add_app {A} (a b : nat) (l : list A) :
  take (a + b) l = take a l ++ take b (drop a l).
Proof.
  revert l. induction a as [|a IH]; intros l; [done|].
  destruct l as [|x l]; [by rewrite !take_nil, drop_nil, take_nil|].
  simpl. by rewrite IH.
Qed.

Lemma page_of_take_drop {A} (rows : list A) (p : nat) (pageSize : Z) :
  1 <= pageSize <= 100 → 1 <= Z.of_nat p → Z.of_nat p * pageSize < 2 ^ 63 →
  page_of rows (Z.of_nat p) pageSize
  = take (Z.to_nat pageSize) (drop ((p - 1) * Z.to_nat pageSize) rows).
Proof.
  intros Hsize Hp Hfit. unfold page_of, paging. cbv zeta.
  rewrite (bool_decide_eq_false_2 (Z.of_nat p < 1)) by lia.
  rewrite (bool_decide_eq_false_2 (pageSize < 1)) by lia.
  rewrite (bool_decide_eq_false_2 (pageSize > 100)) by lia.
  assert (0 <= (Z.of_nat p - 1) * pageSize <= Z.of_nat p * pageSize) by nia.
  rewrite int_wrap_id by (unfold is_int; lia).
  unfold gorm_Limit, gorm_Offset. rewrite (bool_decide_eq_true_2 (pageSize >= 0)) by lia.
  f_equal. case_bool_decide as Hoff.
  - f_equal. nia.
  - assert (p = 1%nat) as -> by nia. done.
Qed.

(** X18. The pages of a listing cover it. For a page size between 1 and
    100, pages 1 to [k] laid end to end are the first [k] times
    page-size rows of the listing, in order and without repetition; up to
    the number of pages the services report, they are the whole listing. *)
Theorem pages_cover_the_listing {A} (rows : list A) (pageSize : Z) :
  1 <= pageSize <= 100 →
  count_rows rows + 100 < 2 ^ 63 →
  (∀ k : nat,
      Z.of_nat k * pageSize < 2 ^ 63 →
      concat ((fun p => page_of rows (Z.of_nat p) pageSize) <$> seq 1 k)
      = take (k * Z.to_nat pageSize) rows)
  ∧ concat ((fun p => page_of rows (Z.of_nat p) pageSize)
              <$> seq 1 (Z.to_nat (totalPages_of (count_rows rows) pageSize)))
    = rows.
Proof.
  intros Hsize Hfit.
  assert (Hpages : ∀ k : nat,
    Z.of_nat k * pageSize < 2 ^ 63 →
    concat ((fun p => page_of rows (Z.of_nat p) pageSize) <$> seq 1 k)
    = take (k * Z.to_nat pageSize) rows).
  { induction k as [|k IH]; intros Hk; [done|].
    rewrite seq_S, fmap_app, concat_app, IH by nia. cbn [fmap list_fmap concat].
    rewrite app_nil_r, page_of_take_drop by (try done; lia).
    replace ((1 + k - 1) * Z.to_nat pageSize)%nat with (k * Z.to_nat pageSize)%nat by lia.
    rewrite <- take_add_app. f_equal. lia. }
  split; [exact Hpages|].
  unfold count_rows in *.
  rewrite totalPages_of_ceiling by lia.
  set (n := Z.of_nat (length rows)) in *.
  assert (Hceil : n <= (n + pageSize - 1) `div` pageSize * pageSize < n + pageSize).
  { pose proof (Z.div_mod (n + pageSize - 1) pageSize ltac:(lia)) as Hdm.
    pose proof (Z.mod_pos_bound (n + pageSize - 1) pageSize ltac:(lia)) as Hb. nia. }
  assert (0 <= (n + pageSize - 1) `div` pageSize) by (apply Z.div_pos; lia).
  rewrite Hpages by (rewrite Z2Nat.id by done; lia).
  apply take_ge. subst n. nia.
Qed.

Lemma pages_cover_the_listing_witness :
  concat ((fun p => page_of ["a"; "b"; "c"; "d"; "e"] (Z.of_nat p) 2) <$> seq 1 3)
  = ["a"; "b"; "c"; "d"; "e"].
Proof.
  destruct (pages_cover_the_listing ["a"; "b"; "c"; "d"; "e"] 2) as [_ Hall];
    [lia | unfold count_rows; simpl; lia |].
  exact Hall.
Defined.
(** ** The errors of the services and the answers of the handlers *)

Lemma raises_ret {A} (a : A) P : raises (ret a) P.
Proof. by intros s e s'. Qed.

Lemma raises_read {A} (f : Store → A) P : raises (read f) P.
Proof. by intros s e s'. Qed.

Lemma raises_write (f : Store → Store) P : raises (write f) P.
Proof. by intros s e s'. Qed.

Lemma raises_fail {A} e (P : error → Prop) : P e → raises (@fail A e) P.
Proof. by intros He s e' s' [= <- _]. Qed.

Lemma raises_round_trip env c (P : error → Prop) :
  P io_failure → raises (round_trip env c) P.
Proof. intros Hio s e s'. unfold round_trip. by destruct (fails env c); intros [= <- _]. Qed.

Lemma raises_ignore {A} (c : M A) P : raises (ignore c) P.
Proof. intros s e s'. unfold ignore. by destruct (c s). Qed.

Lemma raises_catch {A} (c : M A) P : raises (catch c) P.
Proof. intros s e s'. unfold catch. by destruct (c s). Qed.

Lemma raises_bind {A B} (c : M A) (k : A → M B) P :
  raises c P → (∀ a, raises (k a) P) → raises (bind c k) P.
Proof.
  intros Hc Hk s e s'. unfold bind.
  destruct (c s) as [[a|e1] s1] eqn:E.
  - apply Hk.
  - intros [= <- _]. by eapply Hc.
Qed.

(** An error that was caught is still one the computation could end with. *)
Lemma raises_catch_bind {A B} (c : M A) (k : Result A → M B) (P : error → Prop) :
  raises c P → (∀ r, (∀ e, r = Err e → P e) → raises (k r) P) →
  raises (bind (catch c) k) P.
Proof.
  intros Hc Hk s e s'. unfold bind, catch.
  destruct (c s) as [r s1] eqn:E. apply Hk.
  intros e1 ->. by eapply Hc.
Qed.

Create HintDb raises discriminated.

(** Takes a computation apart down to the errors it fails with; [known]
    closes the calls whose errors are known. *)
Ltac raising_with known :=
  repeat first
    [ apply raises_ret | apply raises_read | apply raises_write | apply raises_ignore
    | apply raises_round_trip; by right
    | apply raises_fail;
        first [ by left | by right
              | match goal with H : ∀ e, _ = Err e → _ |- _ => by apply H end ]
    | known
    | apply raises_catch_bind; [known|intros ? ?]
    | apply raises_bind; [|intros ?]
    | progress cbv zeta
    | match goal with
      | |- raises (match ?x with _ => _ end) _ => destruct x
      | |- raises (if ?b then _ else _) _ => destruct b
      | |- raises (let '(_, _) := ?p in _) _ => destruct p
      | |- raises (bind (if ?b then _ else _) _) _ => destruct b
      end ].

Ltac raising := raising_with ltac:(solve [eauto with raises]).

Lemma raises_Member_Get env w u :
  raises (workspaceMemberRepository_GetByWorkspaceAndUser env w u) forbidden_or_internal.
Proof. unfold workspaceMemberRepository_GetByWorkspaceAndUser. raising. Qed.
#[local] Hint Resolve raises_Member_Get : raises.

Lemma raises_Member_IsLastOwner env w u :
  raises (workspaceMemberRepository_IsLastOwner env w u) forbidden_or_internal.
Proof.
  unfold workspaceMemberRepository_IsLastOwner, workspaceMemberRepository_CountOwners.
  raising.
Qed.
#[local] Hint Resolve raises_Member_IsLastOwner : raises.

Lemma raises_repositories env :
  (∀ m, raises (workspaceMemberRepository_Add env m) forbidden_or_internal)
  ∧ (∀ w u role, raises (workspaceMemberRepository_UpdateRole env w u role)
                        forbidden_or_internal)
  ∧ (∀ w u, raises (workspaceMemberRepository_Remove env w u) forbidden_or_internal)
  ∧ (∀ w page pageSize, raises (workspaceMemberRepository_List env w page pageSize)
                               forbidden_or_internal)
  ∧ (∀ w, raises (workspaceRepository_Create env w) forbidden_or_internal)
  ∧ (∀ id, raises (workspaceRepository_GetByID env id) forbidden_or_internal)
  ∧ (∀ w, raises (workspaceRepository_Update env w) forbidden_or_internal)
  ∧ (∀ id, raises (workspaceRepository_Delete env id) forbidden_or_internal)
  ∧ (∀ flt, raises (workspaceRepository_List env flt) forbidden_or_internal)
  ∧ (∀ t, raises (workspaceRepository_GetStats env t) forbidden_or_internal)
  ∧ (∀ p, raises (projectRepository_Create env p) forbidden_or_internal)
  ∧ (∀ id, raises (projectRepository_GetByID env id) forbidden_or_internal)
  ∧ (∀ p, raises (projectRepository_Update env p) forbidden_or_internal)
  ∧ (∀ id, raises (projectRepository_Delete env id) forbidden_or_internal)
  ∧ (∀ flt, raises (projectRepository_List env flt) forbidden_or_internal)
  ∧ (∀ w, raises (projectRepository_CountByWorkspace env w) forbidden_or_internal)
  ∧ (∀ b, raises (airtableBaseRepository_Create env b) forbidden_or_internal)
  ∧ (∀ id, raises (airtableBaseRepository_GetByID env id) forbidden_or_internal)
  ∧ (∀ b, raises (airtableBaseRepository_Update env b) forbidden_or_internal)
  ∧ (∀ id, raises (airtableBaseRepository_Delete env id) forbidden_or_internal)
  ∧ (∀ flt, raises (airtableBaseRepository_List env flt) forbidden_or_internal)
  ∧ (∀ id t, raises (airtableBaseRepository_UpdateSyncTime env id t) forbidden_or_internal)
  ∧ (∀ flt, raises (auditLogRepository_List env flt) forbidden_or_internal)
  ∧ (∀ add days, raises (auditLogRepository_DeleteOlderThan env add days)
                        forbidden_or_internal)
  ∧ (∀ id, raises (cacheRepository_GetWorkspace env id) forbidden_or_internal)
  ∧ (∀ id, raises (cacheRepository_GetProject env id) forbidden_or_internal)
  ∧ (∀ u, raises (cacheRepository_GetUserWorkspaces env u) forbidden_or_internal)
  ∧ raises (Repositories_BeginTx env) forbidden_or_internal
  ∧ (∀ tx, raises (Tx_Rollback tx) forbidden_or_internal)
  ∧ (∀ tx, raises (Tx_Commit env tx) forbidden_or_internal).
Proof.
  repeat split; intros;
    first
      [ solve [ intros s e s';
                rewrite ?cacheRepository_GetWorkspace_run, ?cacheRepository_GetProject_run,
                  ?cacheRepository_GetUserWorkspaces_run;
                unfold Repositories_BeginTx, cached_project;
                destruct (fails env _); [intros [= <- _]; by right|];
                try done;
                destruct (redis s !! _) as [[]|]; cbn; intros [= <- _]; by right ]
      | unfold workspaceMemberRepository_Add, workspaceMemberRepository_UpdateRole,
          workspaceMemberRepository_Remove, workspaceMemberRepository_List,
          workspaceRepository_Create, workspaceRepository_GetByID,
          workspaceRepository_Update, workspaceRepository_Delete, workspaceRepository_List,
          workspaceRepository_GetStats,
          projectRepository_Create, projectRepository_GetByID, projectRepository_Update,
          projectRepository_Delete, projectRepository_List,
          projectRepository_CountByWorkspace,
          airtableBaseRepository_Create, airtableBaseRepository_GetByID,
          airtableBaseRepository_Update, airtableBaseRepository_Delete,
          airtableBaseRepository_List, airtableBaseRepository_UpdateSyncTime,
          auditLogRepository_List, auditLogRepository_DeleteOlderThan,
          Tx_Rollback, Tx_Commit;
        raising ].
Qed.

(** Follows a service method through the repository calls it makes. *)
Ltac raising_service :=
  raising_with ltac:(first [apply raises_repositories | solve [eauto with raises]]).

Lemma raises_CheckUserAccess env w u role :
  raises (workspaceService_CheckUserAccess env w u role) forbidden_or_internal.
Proof. unfold workspaceService_CheckUserAccess. raising_service. Qed.

Lemma raises_checkProjectAccess env p u role :
  raises (projectService_checkProjectAccess env p u role) forbidden_or_internal.
Proof. unfold projectService_checkProjectAccess. raising_service. Qed.

Lemma raises_airtable_checkProjectAccess env p u role :
  raises (airtableBaseService_checkProjectAccess env p u role) forbidden_or_internal.
Proof. unfold airtableBaseService_checkProjectAccess. raising_service. Qed.

Lemma raises_load_base_project env id :
  raises (load_base_project env id) forbidden_or_internal.
Proof. unfold load_base_project. raising_service. Qed.

Lemma raises_load_workspaces env ids acc :
  raises (load_workspaces env ids acc) forbidden_or_internal.
Proof.
  revert acc. induction ids as [|id ids IH]; intros acc; cbn [load_workspaces].
  - apply raises_ret.
  - apply raises_bind; [apply raises_catch|intros [w|e]]; apply IH.
Qed.

Lemma raises_member_workspaces env u all acc ids :
  raises (member_workspaces env u all acc ids) forbidden_or_internal.
Proof.
  revert acc ids. induction all as [|w all IH]; intros acc ids; cbn [member_workspaces].
  - apply raises_ret.
  - apply raises_bind; [apply raises_catch|intros [m|e]]; apply IH.
Qed.

#[local] Hint Resolve raises_CheckUserAccess raises_checkProjectAccess
  raises_airtable_checkProjectAccess raises_load_base_project raises_load_workspaces
  raises_member_workspaces : raises.

(** X19. No service method ends with an error that the handlers answer with
    404 or 400: whatever error one of them returns, [handleError] turns it
    into 403 or into 500. The sentinels for "not found" the handlers test
    for belong to the services package, and the services only pass on those
    of the repositories package. *)
Theorem service_errors_are_answered_403_or_500 env :
  (∀ t u req, raises (workspaceService_CreateWorkspace env t u req) forbidden_or_internal)
  ∧ (∀ id u, raises (workspaceService_GetWorkspace env id u) forbidden_or_internal)
  ∧ (∀ id u req, raises (workspaceService_UpdateWorkspace env id u req) forbidden_or_internal)
  ∧ (∀ id u, raises (workspaceService_DeleteWorkspace env id u) forbidden_or_internal)
  ∧ (∀ flt u, raises (workspaceService_ListWorkspaces env flt u) forbidden_or_internal)
  ∧ (∀ t u, raises (workspaceService_GetWorkspaceStats env t u) forbidden_or_internal)
  ∧ (∀ id u req, raises (projectService_CreateProject env id u req) forbidden_or_internal)
  ∧ (∀ id u, raises (projectService_GetProject env id u) forbidden_or_internal)
  ∧ (∀ id u req, raises (projectService_UpdateProject env id u req) forbidden_or_internal)
  ∧ (∀ id u, raises (projectService_DeleteProject env id u) forbidden_or_internal)
  ∧ (∀ flt u, raises (projectService_ListProjects env flt u) forbidden_or_internal)
  ∧ (∀ id u req, raises (memberService_AddMember env id u req) forbidden_or_internal)
  ∧ (∀ id m u req, raises (memberService_UpdateMemberRole env id m u req)
                          forbidden_or_internal)
  ∧ (∀ id m u, raises (memberService_RemoveMember env id m u) forbidden_or_internal)
  ∧ (∀ id u page pageSize, raises (memberService_ListMembers env id u page pageSize)
                                  forbidden_or_internal)
  ∧ (∀ u, raises (memberService_GetUserWorkspaces env u) forbidden_or_internal)
  ∧ (∀ id u req, raises (airtableBaseService_ConnectBase env id u req) forbidden_or_internal)
  ∧ (∀ id u, raises (airtableBaseService_GetBase env id u) forbidden_or_internal)
  ∧ (∀ id u req, raises (airtableBaseService_UpdateBase env id u req) forbidden_or_internal)
  ∧ (∀ id u, raises (airtableBaseService_DisconnectBase env id u) forbidden_or_internal)
  ∧ (∀ flt u, raises (airtableBaseService_ListBases env flt u) forbidden_or_internal)
  ∧ (∀ id, raises (airtableBaseService_UpdateSyncStatus env id) forbidden_or_internal)
  ∧ (∀ flt u, raises (auditService_GetAuditLogs env flt u) forbidden_or_internal)
  ∧ (∀ add days, raises (auditService_CleanupOldLogs env add days) forbidden_or_internal).
Proof.
  repeat split; intros;
    unfold workspaceService_CreateWorkspace, workspaceService_GetWorkspace,
      workspaceService_UpdateWorkspace, workspaceService_DeleteWorkspace,
      workspaceService_ListWorkspaces, workspaceService_GetWorkspaceStats,
      projectService_CreateProject, projectService_GetProject, projectService_UpdateProject,
      projectService_DeleteProject, projectService_ListProjects,
      memberService_AddMember, memberService_UpdateMemberRole, memberService_RemoveMember,
      memberService_ListMembers, memberService_GetUserWorkspaces,
      airtableBaseService_ConnectBase, airtableBaseService_GetBase,
      airtableBaseService_UpdateBase, airtableBaseService_DisconnectBase,
      airtableBaseService_ListBases, airtableBaseService_UpdateSyncStatus,
      auditService_GetAuditLogs, auditService_CleanupOldLogs;
    raising_service.
Qed.
(** ** The handlers of the workspace routes *)

(** What a handler does with the outcome of its service call. *)
Lemma handler_answer {A} (c : M A) (ok : A → Response) s :
  raises c forbidden_or_internal →
  ∃ resp s',
    (r <- catch c ;;
     match r with
     | Err err => ret (Handlers_handleError err)
     | Ok a => ret (ok a)
     end) s = (Ok resp, s')
    ∧ ((∃ a, resp = ok a)
       ∨ Response_Status resp = fiber_StatusForbidden
       ∨ Response_Status resp = fiber_StatusInternalServerError).
Proof.
  intros Hc. unfold bind, catch, ret.
  destruct (c s) as [[a|e] s1] eqn:E.
  - eexists _, _. split; [done|]. left. by exists a.
  - eexists _, _. split; [done|]. right. by eapply Hc.
Qed.

Lemma raises_GetWorkspace env id u :
  raises (workspaceService_GetWorkspace env id u) forbidden_or_internal.
Proof. unfold workspaceService_GetWorkspace. raising_service. Qed.

Lemma raises_DeleteWorkspace env id u :
  raises (workspaceService_DeleteWorkspace env id u) forbidden_or_internal.
Proof. unfold workspaceService_DeleteWorkspace. raising_service. Qed.

Lemma raises_GetWorkspaceStats env t u :
  raises (workspaceService_GetWorkspaceStats env t u) forbidden_or_internal.
Proof. unfold workspaceService_GetWorkspaceStats. raising_service. Qed.

(** X20. The handlers [GetWorkspace], [DeleteWorkspace] and
    [GetWorkspaceStats] always answer, and never with 404: the status is 401
    for a request without the user (or, for the statistics, the tenant) in
    its locals, else 200 (204 for the delete), 403 or 500. A request for a
    workspace that has no live row and no cache entry is answered with 500
    "Internal server error", with the database and redis reachable. *)
Theorem workspace_handlers_never_answer_404 env c s :
  (∃ resp s', Handlers_GetWorkspace env c s = (Ok resp, s')
              ∧ Response_Status resp ∈ [200; 401; 403; 500]
              ∧ (Ctx_Locals c !! "user_id" = None → Response_Status resp = 401))
  ∧ (∃ resp s', Handlers_DeleteWorkspace env c s = (Ok resp, s')
                ∧ Response_Status resp ∈ [204; 401; 403; 500]
                ∧ (Ctx_Locals c !! "user_id" = None → Response_Status resp = 401))
  ∧ (∃ resp s', Handlers_GetWorkspaceStats env c s = (Ok resp, s')
                ∧ Response_Status resp ∈ [200; 401; 403; 500]
                ∧ (Ctx_Locals c !! "user_id" = None ∨ Ctx_Locals c !! "tenant_id" = None →
                   Response_Status resp = 401))
  ∧ (Handlers_getUserID c ≠ "" →
     fails env REDIS_GET = false →
     fails env (SELECT_FIRST workspaces_t) = false →
     cached_workspace s (c_Params c "id") = None →
     (∀ w, w ∈ workspaces s → ¬ workspace_id_where (c_Params c "id") w) →
     Handlers_GetWorkspace env c s
     = (Ok (mkResponse 500 (body_Map [("error", JString "Internal server error")])), s)).
Proof.
  split; [|split; [|split]].
  - unfold Handlers_GetWorkspace, Handlers_getUserID.
    destruct (Ctx_Locals c !! "user_id") as [u|] eqn:Hu; cbv zeta;
      [|eexists _, _; split; [done|]; split; [set_solver|done]].
    case_bool_decide; [eexists _, _; split; [done|]; split; [set_solver|done]|].
    destruct (handler_answer (workspaceService_GetWorkspace env (c_Params c "id") u)
                (fun w => mkResponse fiber_StatusOK (body_Workspace w)) s
                (raises_GetWorkspace _ _ _)) as (resp & s' & -> & Hresp).
    eexists _, _. split; [done|]. split; [|done].
    destruct Hresp as [[w ->]|[->| ->]]; set_solver.
  - unfold Handlers_DeleteWorkspace, Handlers_getUserID.
    destruct (Ctx_Locals c !! "user_id") as [u|] eqn:Hu; cbv zeta;
      [|eexists _, _; split; [done|]; split; [set_solver|done]].
    case_bool_decide; [eexists _, _; split; [done|]; split; [set_solver|done]|].
    destruct (handler_answer (workspaceService_DeleteWorkspace env (c_Params c "id") u)
                (fun _ => mkResponse fiber_StatusNoContent body_empty) s
                (raises_DeleteWorkspace _ _ _)) as (resp & s' & -> & Hresp).
    eexists _, _. split; [done|]. split; [|done].
    destruct Hresp as [[w ->]|[->| ->]]; set_solver.
  - unfold Handlers_GetWorkspaceStats, Handlers_getUserID, Handlers_getTenantID.
    destruct (Ctx_Locals c !! "tenant_id") as [t|] eqn:Ht; cbv zeta;
      [|eexists _, _; split; [done|]; split; [set_solver|done]].
    destruct (Ctx_Locals c !! "user_id") as [u|] eqn:Hu; cbv zeta;
      [|eexists _, _; rewrite orb_true_r; split; [done|]; split; [set_solver|done]].
    destruct (bool_decide (t = "") || bool_decide (u = "")) eqn:Hempty;
      [eexists _, _; split; [done|]; split; [set_solver|by intros [|]]|].
    destruct (handler_answer (workspaceService_GetWorkspaceStats env t u)
                (fun stats => mkResponse fiber_StatusOK (body_WorkspaceStats stats)) s
                (raises_GetWorkspaceStats _ _ _)) as (resp & s' & -> & Hresp).
    eexists _, _. split; [done|]. split; [|by intros [|]].
    destruct Hresp as [[w ->]|[->| ->]]; set_solver.
  - intros Huser Hredis Hdb Hmiss Hrow. unfold Handlers_GetWorkspace.
    cbv zeta. rewrite bool_decide_eq_false_2 by done.
    unfold bind at 1, catch, workspaceService_GetWorkspace. unfold bind at 1, catch.
    rewrite cacheRepository_GetWorkspace_run, Hredis.
    unfold cached_workspace in Hmiss. rewrite Hmiss.
    unfold bind at 1. rewrite workspaceRepository_GetByID_run, Hdb.
    rewrite filter_none by done. done.
Qed.

Lemma workspace_handlers_never_answer_404_witness :
  Handlers_GetWorkspace (example_env nothing_fails)
    (mkCtx {["user_id" := "alice"]} {["id" := "ws-404"]}) acme_store
  = (Ok (mkResponse 500 (body_Map [("error", JString "Internal server error")])),
     acme_store).
Proof.
  destruct (workspace_handlers_never_answer_404 (example_env nothing_fails)
              (mkCtx {["user_id" := "alice"]} {["id" := "ws-404"]}) acme_store)
    as (_ & _ & _ & Hmissing).
  apply Hmissing; [by vm_compute|reflexivity|reflexivity|by vm_compute|].
  intros w ->%list_elem_of_singleton [Hid _]. by vm_compute in Hid.
Defined.

(** ** Project statuses *)

(** X21. [UpdateProject] with a status other than "active" and "archived"
    changes nothing, whatever else the request carries: the call returns an
    error and the store is as before. For a member of the project's
    workspace the error is "invalid status: " followed by the status. *)
Theorem UpdateProject_rejects_other_statuses env projectID userID req status s :
  UpdateProjectRequest_Status req = Some status →
  status ≠ "active" → status ≠ "archived" →
  ∃ e, projectService_UpdateProject env projectID userID req s = (Err e, s)
       ∧ (∀ project,
             projectRepository_GetByID env projectID s = (Ok project, s) →
             fails env (SELECT_FIRST workspace_members_t) = false →
             member_with_role s (Project_WorkspaceID project) userID WorkspaceRoleMember →
             e = fmt_Errorf_s "invalid status: %s" status).
Proof.
  intros Hstatus Hactive Harchived.
  assert (existsb (String.eqb status) validStatuses = false) as Hvalid.
  { cbn. by rewrite !(proj2 (String.eqb_neq _ _)). }
  unfold projectService_UpdateProject. unfold bind at 1.
  destruct (projectRepository_GetByID env projectID s) as [[project|e] s1] eqn:Hget.
  - assert (s1 = s) as ->.
    { rewrite projectRepository_GetByID_run in Hget.
      destruct (fails env (SELECT_FIRST _)); [by injection Hget|].
      destruct (head _); [|by injection Hget].
      destruct (fails env (SELECT_FIND _)); by injection Hget. }
    unfold bind at 1. rewrite checkProjectAccess_run, CheckUserAccess_run.
    destruct (fails env (SELECT_FIRST workspace_members_t)) eqn:Hmembers.
    { eexists. split; [done|]. by intros ? _ ?. }
    destruct (head _) as [m|] eqn:Hm.
    + destruct (hasRequiredRole _ _) eqn:Hrole.
      * destruct (UpdateProjectRequest_Name req), (UpdateProjectRequest_Description req);
          cbv beta iota zeta; rewrite Hstatus, Hvalid; cbn;
          (eexists; split; [done|]; by intros).
      * eexists. split; [done|]. intros p [= <-] _ (m' & Hm' & Hrole').
        rewrite Hm in Hm'. injection Hm' as <-. congruence.
    + eexists. split; [done|]. intros p [= <-] _ (m' & Hm' & _). congruence.
  - assert (s1 = s) as ->.
    { rewrite projectRepository_GetByID_run in Hget.
      destruct (fails env (SELECT_FIRST _)); [by injection Hget|].
      destruct (head _); [|by injection Hget].
      destruct (fails env (SELECT_FIND _)); by injection Hget. }
    eexists. split; [done|]. intros p Hp. congruence.
Qed.

Lemma UpdateProject_rejects_other_statuses_witness :
  ∃ e, projectService_UpdateProject (example_env nothing_fails) "p-1" "alice"
         (mkUpdateProjectRequest (Some "renamed") None (Some "deleted") None) acme_store
       = (Err e, acme_store).
Proof.
  destruct (UpdateProject_rejects_other_statuses (example_env nothing_fails) "p-1" "alice"
              (mkUpdateProjectRequest (Some "renamed") None (Some "deleted") None)
              "deleted" acme_store eq_refl) as (e & He & _); [done|done|].
  by exists e.
Defined.
(** ** Projects and their workspaces *)

Lemma preserves_ret {A} I (a : A) : preserves I (ret a).
Proof. by intros s r s' HI [= _ <-]. Qed.

Lemma preserves_fail {A} I e : preserves I (@fail A e).
Proof. by intros s r s' HI [= _ <-]. Qed.

Lemma preserves_bind {A B} I (c : M A) (k : A → M B) :
  preserves I c → (∀ a, preserves I (k a)) → preserves I (bind c k).
Proof.
  intros Hc Hk s r s' HI. unfold bind.
  destruct (c s) as [[a|e] s1] eqn:E.
  - apply Hk. by eapply Hc.
  - intros [= _ <-]. by eapply Hc.
Qed.

Lemma preserves_catch {A} I (c : M A) : preserves I c → preserves I (catch c).
Proof.
  intros Hc s r s' HI. unfold catch. destruct (c s) as [r1 s1] eqn:E.
  intros [= _ <-]. by eapply Hc.
Qed.

Lemma preserves_ignore {A} I (c : M A) : preserves I c → preserves I (ignore c).
Proof.
  intros Hc s r s' HI. unfold ignore. destruct (c s) as [r1 s1] eqn:E.
  intros [= _ <-]. by eapply Hc.
Qed.

(** A computation that leaves the two tables alone keeps the invariant. *)
Lemma preserves_keeps {A} (c : M A) :
  keeps workspaces_and_projects c → preserves projects_have_workspaces c.
Proof.
  intros Hc s r s' HI Hrun. apply Hc in Hrun as [= Hw Hp].
  unfold projects_have_workspaces. by rewrite Hw, Hp.
Qed.

Lemma bind_inv {A B} (c : M A) (k : A → M B) s r s' :
  bind c k s = (r, s') →
  (∃ e, c s = (Err e, s') ∧ r = Err e) ∨ (∃ a s1, c s = (Ok a, s1) ∧ k a s1 = (r, s')).
Proof.
  unfold bind. destruct (c s) as [[a|e] s1].
  - intros Hk. right. by exists a, s1.
  - intros [= <- <-]. left. by exists e.
Qed.

(** The writes to the two tables. *)

Lemma appended_workspace w s :
  projects_have_workspaces s →
  projects_have_workspaces (set_workspaces (fun rows => rows ++ [w]) s).
Proof.
  intros HI p Hp Hlive. destruct (HI p Hp Hlive) as (w0 & Hw0 & Hid).
  exists w0. split; [|done]. apply elem_of_app. by left.
Qed.

Lemma updated_workspace env src s :
  Workspace_DeletedAt src = None →
  projects_have_workspaces s →
  projects_have_workspaces
    (set_workspaces
       (fmap (fun row => if decide (workspace_id_where (Workspace_ID src) row)
                         then Workspace_Updates env src row else row)) s).
Proof.
  intros Hsrc HI p Hp Hlive. destruct (HI p Hp Hlive) as (w0 & Hw0 & Hid & Hd).
  eexists. split; [apply list_elem_of_fmap; by exists w0|].
  destruct (decide _); [|done]. split; [done|]. cbn. by rewrite Hsrc.
Qed.

Lemma deleted_workspace env id s :
  workspace_projects s id = [] →
  projects_have_workspaces s →
  projects_have_workspaces
    (set_workspaces
       (fmap (fun row => if decide (workspace_id_where id row)
                         then Workspace_with_DeletedAt (Some (time_Now env)) row
                         else row)) s).
Proof.
  intros Hnone HI p Hp Hlive. destruct (HI p Hp Hlive) as (w0 & Hw0 & Hid & Hd).
  destruct (decide (workspace_id_where id w0)) as [[Hw0id _]|Hother].
  - assert (p ∈ workspace_projects s id) as Hin.
    { apply list_elem_of_filter. split; [|done]. split; [congruence|done]. }
    rewrite Hnone in Hin. by apply elem_of_nil in Hin.
  - exists w0. split; [|done].
    apply list_elem_of_fmap. exists w0. by rewrite decide_False.
Qed.

Lemma appended_project p s :
  (∃ w, w ∈ workspaces s ∧ workspace_id_where (Project_WorkspaceID p) w) →
  projects_have_workspaces s →
  projects_have_workspaces (set_projects (fun rows => rows ++ [p]) s).
Proof.
  intros Hw HI p' [Hp'|Hp']%elem_of_app Hlive; [by apply HI|].
  by apply list_elem_of_singleton in Hp' as ->.
Qed.

Lemma updated_project env src s :
  (∃ w, w ∈ workspaces s ∧ workspace_id_where (Project_WorkspaceID src) w) →
  projects_have_workspaces s →
  projects_have_workspaces
    (set_projects
       (fmap (fun row => if decide (project_id_where (Project_ID src) row)
                         then Project_Updates env src row else row)) s).
Proof.
  intros Hsrc HI p (row & -> & Hrow)%list_elem_of_fmap Hlive.
  destruct (decide _) as [[_ Hd]|]; [|by apply HI].
  cbn in *. case_bool_decide; [by apply HI|done].
Qed.

Lemma deleted_project env id s :
  projects_have_workspaces s →
  projects_have_workspaces
    (set_projects
       (fmap (fun row => if decide (project_id_where id row)
                         then Project_with_DeletedAt (Some (time_Now env)) row
                         else row)) s).
Proof.
  intros HI p (row & -> & Hrow)%list_elem_of_fmap Hlive.
  destruct (decide _); [done|by apply HI].
Qed.

(** The repository methods that write to them. *)

Lemma preserves_Workspace_Create env w :
  preserves projects_have_workspaces (workspaceRepository_Create env w).
Proof.
  intros s r s' HI.
  unfold workspaceRepository_Create, bind, read, write, ret, fail, round_trip.
  destruct (fails env (SELECT_COUNT _)); [by intros [= _ <-]|].
  destruct (bool_decide (_ > 0)); [by intros [= _ <-]|].
  destruct (fails env (INSERT _)); [by intros [= _ <-]|].
  destruct (bool_decide (Workspace_ID w = "")); intros [= _ <-];
    by apply appended_workspace.
Qed.

Lemma preserves_Workspace_Update env src :
  Workspace_DeletedAt src = None →
  preserves projects_have_workspaces (workspaceRepository_Update env src).
Proof.
  intros Hsrc s r s' HI.
  unfold workspaceRepository_Update, bind, read, write, ret, fail, round_trip.
  destruct (bool_decide (Workspace_Name src ≠ "")).
  - destruct (fails env (SELECT_COUNT _)); [intros [= _ <-]; done|].
    destruct (bool_decide (_ > 0)); [intros [= _ <-]; done|].
    destruct (bool_decide (Workspace_ID src = "")); [by intros [= _ <-]|].
    destruct (fails env (UPDATE _)); [by intros [= _ <-]|].
    destruct (bool_decide (_ = 0)); intros [= _ <-]; by apply updated_workspace.
  - destruct (bool_decide (Workspace_ID src = "")); [by intros [= _ <-]|].
    destruct (fails env (UPDATE _)); [by intros [= _ <-]|].
    destruct (bool_decide (_ = 0)); intros [= _ <-]; by apply updated_workspace.
Qed.

Lemma Workspace_Delete_preserves env id s r s' :
  workspace_projects s id = [] →
  projects_have_workspaces s →
  workspaceRepository_Delete env id s = (r, s') →
  projects_have_workspaces s'.
Proof.
  intros Hnone HI.
  unfold workspaceRepository_Delete, bind, read, write, ret, fail, round_trip.
  destruct (fails env (DELETE _)); [by intros [= _ <-]|].
  destruct (bool_decide (_ = 0)); intros [= _ <-]; by apply deleted_workspace.
Qed.

Lemma Project_Create_preserves env p s r s' :
  (∃ w, w ∈ workspaces s ∧ workspace_id_where (Project_WorkspaceID p) w) →
  projects_have_workspaces s →
  projectRepository_Create env p s = (r, s') →
  projects_have_workspaces s'.
Proof.
  intros Hw HI.
  unfold projectRepository_Create, bind, read, write, ret, fail, round_trip.
  destruct (fails env (SELECT_COUNT _)); [by intros [= _ <-]|].
  destruct (bool_decide (_ > 0)); [by intros [= _ <-]|].
  destruct (fails env (INSERT _)); [by intros [= _ <-]|].
  destruct (bool_decide (Project_ID p = "")); intros [= _ <-];
    by apply appended_project.
Qed.

Lemma Project_Update_preserves env src s r s' :
  (∃ w, w ∈ workspaces s ∧ workspace_id_where (Project_WorkspaceID src) w) →
  projects_have_workspaces s →
  projectRepository_Update env src s = (r, s') →
  projects_have_workspaces s'.
Proof.
  intros Hsrc HI.
  unfold projectRepository_Update, bind, read, write, ret, fail, round_trip.
  destruct (bool_decide (Project_Name src ≠ "")).
  - destruct (fails env (SELECT_COUNT _)); [intros [= _ <-]; done|].
    destruct (bool_decide (_ > 0)); [intros [= _ <-]; done|].
    destruct (bool_decide (Project_ID src = "")); [by intros [= _ <-]|].
    destruct (fails env (UPDATE _)); [by intros [= _ <-]|].
    destruct (bool_decide (_ = 0)); intros [= _ <-]; by apply updated_project.
  - destruct (bool_decide (Project_ID src = "")); [by intros [= _ <-]|].
    destruct (fails env (UPDATE _)); [by intros [= _ <-]|].
    destruct (bool_decide (_ = 0)); intros [= _ <-]; by apply updated_project.
Qed.

Lemma preserves_Project_Delete env id :
  preserves projects_have_workspaces (projectRepository_Delete env id).
Proof.
  intros s r s' HI.
  unfold projectRepository_Delete, bind, read, write, ret, fail, round_trip.
  destruct (fails env (DELETE _)); [by intros [= _ <-]|].
  destruct (bool_decide (_ = 0)); intros [= _ <-]; by apply deleted_project.
Qed.

Lemma preserves_Tx_Commit env tx :
  Tx_statements tx = [] → preserves projects_have_workspaces (Tx_Commit env tx).
Proof.
  intros Hst s r s' HI. unfold Tx_Commit. destruct (Tx_Error tx); [by intros [= _ <-]|].
  unfold bind, round_trip, write. rewrite Hst.
  by destruct (fails env TX_COMMIT); intros [= _ <-].
Qed.

(** Opens the calls that do not write to the workspaces table. *)
Ltac unfold_calls :=
  unfold workspaceService_CheckUserAccess, projectService_checkProjectAccess,
    airtableBaseService_checkProjectAccess, load_base_project,
    auditService_LogAction, auditLogRepository_Create,
    workspaceMemberRepository_Add, workspaceMemberRepository_UpdateRole,
    workspaceMemberRepository_Remove, workspaceMemberRepository_IsLastOwner,
    workspaceMemberRepository_CountOwners, workspaceMemberRepository_GetByWorkspaceAndUser,
    workspaceRepository_GetByID, workspaceRepository_List,
    projectRepository_GetByID, projectRepository_CountByWorkspace,
    airtableBaseRepository_Create, airtableBaseRepository_GetByID,
    airtableBaseRepository_Update, airtableBaseRepository_Delete,
    airtableBaseRepository_List,
    cacheRepository_SetWorkspace, cacheRepository_DeleteWorkspace,
    cacheRepository_SetProject, cacheRepository_DeleteProject,
    cacheRepository_InvalidateWorkspaceCache, cacheRepository_InvalidateUserCache.

(** A call that writes to neither table. *)
Ltac untouched := apply preserves_keeps; unfold_calls; solve [keeping].

(** Follows a computation to its writes to the two tables. *)
Ltac preserving :=
  repeat first
    [ apply preserves_ret | apply preserves_fail
    | apply preserves_Workspace_Create | apply preserves_Project_Delete
    | solve [untouched]
    | apply preserves_catch | apply preserves_ignore
    | apply preserves_bind; [|intros ?]
    | match goal with
      | |- preserves _ (match ?x with _ => _ end) => destruct x
      | |- preserves _ (if ?b then _ else _) => destruct b
      | |- preserves _ (let '(_, _) := ?p in _) => destruct p
      | |- preserves _ (bind (if ?b then _ else _) _) => destruct b
      end ].

(** The closing steps of a mutation, from a store that has the invariant. *)
Ltac closing HI Hrun :=
  refine ((_ : preserves projects_have_workspaces _) _ _ _ HI Hrun); preserving.

Lemma UpdateWorkspace_preserves env id u req :
  preserves projects_have_workspaces (workspaceService_UpdateWorkspace env id u req).
Proof.
  intros s r s' HI Hrun. unfold workspaceService_UpdateWorkspace in Hrun.
  apply bind_inv in Hrun as [(e & Hc & ->)|([] & s1 & Hc & Hrun)];
    apply CheckUserAccess_state in Hc as ->; [done|].
  apply bind_inv in Hrun as [(e & Hc & ->)|(w & s1 & Hc & Hrun)].
  { by apply (keeps_Workspace_GetByID (fun s => s)) in Hc as ->. }
  apply workspaceRepository_GetByID_Ok in Hc as (-> & _ & _ & Hlive).
  destruct (UpdateWorkspaceRequest_Name req), (UpdateWorkspaceRequest_Description req),
    (UpdateWorkspaceRequest_Settings req); cbv beta iota zeta in Hrun;
    (apply bind_inv in Hrun as [(e & Hc & ->)|(w' & s2 & Hc & Hrun)];
     (apply preserves_Workspace_Update in Hc; [|done..]);
     [done|closing Hc Hrun]).
Qed.

Lemma keeps_Project_CountByWorkspace {B} (part : Store → B) env w :
  keeps part (projectRepository_CountByWorkspace env w).
Proof. unfold projectRepository_CountByWorkspace. keeping. Qed.

Lemma DeleteWorkspace_preserves env id u :
  preserves projects_have_workspaces (workspaceService_DeleteWorkspace env id u).
Proof.
  intros s r s' HI Hrun. unfold workspaceService_DeleteWorkspace in Hrun.
  apply bind_inv in Hrun as [(e & Hc & ->)|([] & s1 & Hc & Hrun)];
    apply CheckUserAccess_state in Hc as ->; [done|].
  apply bind_inv in Hrun as [(e & Hc & ->)|(n & s1 & Hc & Hrun)].
  { by apply (keeps_Project_CountByWorkspace (fun s => s)) in Hc as ->. }
  rewrite CountByWorkspace_run in Hc.
  destruct (fails env (SELECT_COUNT _)); [done|]. injection Hc as <- <-.
  case_bool_decide as Hcount; [by injection Hrun as _ <-|].
  assert (workspace_projects s id = []) as Hnone.
  { destruct (workspace_projects s id); [done|].
    unfold count_rows in Hcount. cbn [length] in Hcount. lia. }
  apply bind_inv in Hrun as [(e & Hc & ->)|([] & s2 & Hc & Hrun)];
    (apply Workspace_Delete_preserves in Hc; [|done..]); [done|closing Hc Hrun].
Qed.

Lemma CreateProject_preserves env id u req :
  preserves projects_have_workspaces (projectService_CreateProject env id u req).
Proof.
  intros s r s' HI Hrun. unfold projectService_CreateProject in Hrun.
  apply bind_inv in Hrun as [(e & Hc & ->)|(w & s1 & Hc & Hrun)].
  { by apply (keeps_Workspace_GetByID (fun s => s)) in Hc as ->. }
  apply workspaceRepository_GetByID_Ok in Hc as (-> & Hw & Hid).
  apply bind_inv in Hrun as [(e & Hc & ->)|(m & s1 & Hc & Hrun)];
    apply (keeps_catch (fun s => s)) in Hc; try apply keeps_Member_Get;
    cbv beta in Hc; subst; [done|].
  destruct m as [m|e]; [|by destruct e; injection Hrun as _ <-].
  destruct (negb _); [by injection Hrun as _ <-|].
  apply bind_inv in Hrun as [(e & Hc & ->)|(n & s1 & Hc & Hrun)];
    apply (keeps_Project_CountByWorkspace (fun s => s)) in Hc; cbv beta in Hc; subst;
    [done|].
  destruct (bool_decide (_ >= _)); [by injection Hrun as _ <-|].
  cbv zeta in Hrun.
  apply bind_inv in Hrun as [(e & Hc & ->)|(p & s1 & Hc & Hrun)];
    (apply Project_Create_preserves in Hc;
     [|destruct (CreateProjectRequest_Settings req); by exists w|done]);
    [done|closing Hc Hrun].
Qed.

Lemma UpdateProject_preserves env id u req :
  preserves projects_have_workspaces (projectService_UpdateProject env id u req).
Proof.
  intros s r s' HI Hrun. unfold projectService_UpdateProject in Hrun.
  apply bind_inv in Hrun as [(e & Hc & ->)|(p & s1 & Hc & Hrun)].
  { by apply (keeps_Project_GetByID (fun s => s)) in Hc as ->. }
  assert (s1 = s ∧ ∃ w, w ∈ workspaces s ∧ workspace_id_where (Project_WorkspaceID p) w)
    as [-> Hw].
  { rewrite projectRepository_GetByID_run in Hc.
    destruct (fails env (SELECT_FIRST _)); [done|].
    destruct (head _) as [row|] eqn:Hrow; [|done].
    destruct (fails env (SELECT_FIND _)); [done|]. injection Hc as <- <-.
    split; [done|]. apply head_filter_Some_elem in Hrow as [Hrow [_ Hlive]].
    exact (HI row Hrow Hlive). }
  clear Hc.
  apply bind_inv in Hrun as [(e & Hc & ->)|([] & s1 & Hc & Hrun)];
    rewrite checkProjectAccess_run in Hc; apply CheckUserAccess_state in Hc as ->;
    [done|].
  destruct (UpdateProjectRequest_Name req), (UpdateProjectRequest_Description req),
    (UpdateProjectRequest_Status req) as [status|],
    (UpdateProjectRequest_Settings req); cbv beta iota zeta in Hrun;
    try (destruct (negb (existsb (String.eqb status) validStatuses));
         [by injection Hrun as _ <-|]);
    (apply bind_inv in Hrun as [(e & Hc & ->)|(p' & s2 & Hc & Hrun)];
     (apply Project_Update_preserves in Hc; [|done..]);
     [done|closing Hc Hrun]).
Qed.

(** X22. Every live project belongs to a live workspace, and the twelve
    mutations of the services keep it so, whatever they return: a workspace
    is only deleted when no live project is left in it, a project is only
    created in a workspace that was found, and no update moves a project to
    another workspace or revives a row. *)
Theorem projects_keep_their_workspaces env :
  (∀ t u req, preserves projects_have_workspaces
                (workspaceService_CreateWorkspace env t u req))
  ∧ (∀ id u req, preserves projects_have_workspaces
                   (workspaceService_UpdateWorkspace env id u req))
  ∧ (∀ id u, preserves projects_have_workspaces (workspaceService_DeleteWorkspace env id u))
  ∧ (∀ id u req, preserves projects_have_workspaces
                   (projectService_CreateProject env id u req))
  ∧ (∀ id u req, preserves projects_have_workspaces
                   (projectService_UpdateProject env id u req))
  ∧ (∀ id u, preserves projects_have_workspaces (projectService_DeleteProject env id u))
  ∧ (∀ id u req, preserves projects_have_workspaces (memberService_AddMember env id u req))
  ∧ (∀ id m u req, preserves projects_have_workspaces
                     (memberService_UpdateMemberRole env id m u req))
  ∧ (∀ id m u, preserves projects_have_workspaces (memberService_RemoveMember env id m u))
  ∧ (∀ id u req, preserves projects_have_workspaces
                   (airtableBaseService_ConnectBase env id u req))
  ∧ (∀ id u req, preserves projects_have_workspaces
                   (airtableBaseService_UpdateBase env id u req))
  ∧ (∀ id u, preserves projects_have_workspaces
               (airtableBaseService_DisconnectBase env id u)).
Proof.
  split; [|split; [|split; [|split; [|split; [|split; [|split; [|split; [|split;
    [|split; [|split]]]]]]]]]].
  - intros t u req. unfold workspaceService_CreateWorkspace.
    apply preserves_bind; [untouched|intros [? count]].
    destruct (bool_decide _); [apply preserves_fail|].
    intros s r s' HI. unfold bind at 1.
    destruct (BeginTx_run env s) as (tx & -> & Htx). revert s r s' HI.
    fold (preserves (A:=Workspace) projects_have_workspaces).
    apply preserves_bind; [apply preserves_catch, preserves_Workspace_Create|intros [w|e]];
      [|preserving].
    apply preserves_bind; [apply preserves_catch; untouched|intros [m|e]]; [|preserving].
    apply preserves_bind; [by apply preserves_Tx_Commit|intros ?]. preserving.
  - apply UpdateWorkspace_preserves.
  - apply DeleteWorkspace_preserves.
  - apply CreateProject_preserves.
  - apply UpdateProject_preserves.
  - intros id u. unfold projectService_DeleteProject. preserving.
  - intros id u req. unfold memberService_AddMember. preserving.
  - intros id m u req. unfold memberService_UpdateMemberRole. preserving.
  - intros id m u. unfold memberService_RemoveMember. preserving.
  - intros id u req. unfold airtableBaseService_ConnectBase. preserving.
  - intros id u req. unfold airtableBaseService_UpdateBase. preserving.
  - intros id u. unfold airtableBaseService_DisconnectBase. preserving.
Qed.

Lemma acme_store_projects_have_workspaces : projects_have_workspaces acme_store.
Proof.
  intros p ->%list_elem_of_singleton _. exists acme. split; [|done].
  by apply list_elem_of_singleton.
Qed.

Lemma projects_keep_their_workspaces_witness :
  projects_have_workspaces acme_store
  ∧ projects_have_workspaces
      (workspaceService_DeleteWorkspace (example_env nothing_fails) "ws-1" "alice"
         acme_store).2.
Proof.
  split; [exact acme_store_projects_have_workspaces|].
  destruct (projects_keep_their_workspaces (example_env nothing_fails))
    as (_ & _ & Hdelete & _).
  eapply (Hdelete "ws-1" "alice" acme_store); [exact acme_store_projects_have_workspaces|].
  apply surjective_pairing.
Defined.
(** ** Reads and the database *)

Lemma keeps_load_workspaces {B} (part : Store → B) env ids acc :
  keeps part (load_workspaces env ids acc).
Proof.
  revert acc. induction ids as [|id ids IH]; intros acc; cbn [load_workspaces].
  - apply keeps_ret.
  - apply keeps_bind; [apply keeps_catch, keeps_Workspace_GetByID|intros [w|e]]; apply IH.
Qed.

Lemma keeps_member_workspaces {B} (part : Store → B) env u all acc ids :
  keeps part (member_workspaces env u all acc ids).
Proof.
  revert acc ids. induction all as [|w all IH]; intros acc ids; cbn [member_workspaces].
  - apply keeps_ret.
  - apply keeps_bind; [apply keeps_catch, keeps_Member_Get|intros [m|e]]; apply IH.
Qed.

(** X23. The read methods of the services never write to the database: the
    five tables are the same after the call as before, whatever the call
    returns. What a read may change is the cache. *)
Theorem reads_leave_the_database_alone env :
  (∀ id u role, keeps durable (workspaceService_CheckUserAccess env id u role))
  ∧ (∀ id u, keeps durable (workspaceService_GetWorkspace env id u))
  ∧ (∀ flt u, keeps durable (workspaceService_ListWorkspaces env flt u))
  ∧ (∀ t u, keeps durable (workspaceService_GetWorkspaceStats env t u))
  ∧ (∀ id u, keeps durable (projectService_GetProject env id u))
  ∧ (∀ flt u, keeps durable (projectService_ListProjects env flt u))
  ∧ (∀ id u page pageSize, keeps durable (memberService_ListMembers env id u page pageSize))
  ∧ (∀ u, keeps durable (memberService_GetUserWorkspaces env u))
  ∧ (∀ id u, keeps durable (airtableBaseService_GetBase env id u))
  ∧ (∀ flt u, keeps durable (airtableBaseService_ListBases env flt u))
  ∧ (∀ flt u, keeps durable (auditService_GetAuditLogs env flt u)).
Proof.
  split; [|split; [|split; [|split; [|split; [|split; [|split; [|split; [|split;
    [|split]]]]]]]]].
  - intros. apply keeps_CheckUserAccess.
  - intros. unfold workspaceService_GetWorkspace, workspaceService_CheckUserAccess,
      cacheRepository_GetWorkspace, cacheRepository_SetWorkspace,
      workspaceRepository_GetByID, workspaceMemberRepository_GetByWorkspaceAndUser.
    keeping.
  - intros. unfold workspaceService_ListWorkspaces, cacheRepository_GetUserWorkspaces,
      workspaceRepository_List.
    keeping.
  - intros. unfold workspaceService_GetWorkspaceStats, workspaceRepository_GetStats.
    keeping.
  - intros. unfold projectService_GetProject, projectService_checkProjectAccess,
      cacheRepository_GetProject, cacheRepository_SetProject,
      projectRepository_GetByID, workspaceMemberRepository_GetByWorkspaceAndUser.
    keeping.
  - intros. unfold projectService_ListProjects, projectRepository_List,
      workspaceMemberRepository_GetByWorkspaceAndUser.
    keeping.
  - intros. unfold memberService_ListMembers, workspaceMemberRepository_List,
      workspaceMemberRepository_GetByWorkspaceAndUser.
    keeping.
  - intros. unfold memberService_GetUserWorkspaces.
    apply keeps_bind;
      [unfold cacheRepository_GetUserWorkspaces; keeping|intros [[ids|]|e]].
    + apply keeps_load_workspaces.
    + apply keeps_bind; [apply keeps_Workspace_List|intros [all ?]].
      apply keeps_bind; [apply keeps_member_workspaces|intros [mine ids]].
      unfold cacheRepository_SetUserWorkspaces. keeping.
    + apply keeps_bind; [apply keeps_Workspace_List|intros [all ?]].
      apply keeps_bind; [apply keeps_member_workspaces|intros [mine ids]].
      unfold cacheRepository_SetUserWorkspaces. keeping.
  - intros. unfold airtableBaseService_GetBase.
    apply keeps_bind; [apply keeps_load_base_project|intros [base project]].
    unfold airtableBaseService_checkProjectAccess,
      workspaceMemberRepository_GetByWorkspaceAndUser.
    keeping.
  - intros. unfold airtableBaseService_ListBases, airtableBaseService_checkProjectAccess,
      airtableBaseRepository_List, projectRepository_GetByID,
      workspaceMemberRepository_GetByWorkspaceAndUser.
    keeping.
  - intros. unfold auditService_GetAuditLogs, auditLogRepository_List,
      workspaceMemberRepository_GetByWorkspaceAndUser.
    keeping.
Qed.

(** ** The creator of a workspace *)

Lemma catch_inv {A} (c : M A) s r s' : catch c s = (Ok r, s') → c s = (r, s').
Proof. unfold catch. destruct (c s). by intros [= <- <-]. Qed.

Lemma workspaceRepository_Create_Ok env workspace s created s' :
  workspaceRepository_Create env workspace s = (Ok created, s') →
  (Workspace_TenantID created = Workspace_TenantID workspace
   ∧ Workspace_CreatedBy created = Workspace_CreatedBy workspace
   ∧ Workspace_Name created = Workspace_Name workspace)
  ∧ workspaces s' = workspaces s ++ [created]
  ∧ workspace_members s' = workspace_members s.
Proof.
  unfold workspaceRepository_Create, bind, read, write, ret, fail, round_trip.
  destruct (fails env (SELECT_COUNT _)); [intros [=]|].
  destruct (bool_decide (_ > 0)); [intros [=]|].
  destruct (fails env (INSERT _)); [intros [=]|].
  destruct (bool_decide (Workspace_ID workspace = "")); by intros [= <- <-].
Qed.

Lemma workspaceMemberRepository_Add_Ok env member s added s' :
  workspaceMemberRepository_Add env member s = (Ok added, s') →
  workspace_members s' = workspace_members s ++ [WorkspaceMember_defaults env member]
  ∧ workspaces s' = workspaces s.
Proof.
  unfold workspaceMemberRepository_Add, bind, round_trip, read, write, ret.
  destruct (fails env (SELECT_COUNT _)); [intros [=]|].
  case_bool_decide; [intros [=]|].
  destruct (fails env (INSERT _)); [intros [=]|]. by intros [= _ <-].
Qed.

Lemma Tx_Commit_Ok env tx s s' :
  Tx_statements tx = [] → Tx_Commit env tx s = (Ok tt, s') → s' = s.
Proof.
  intros Hst. unfold Tx_Commit. destruct (Tx_Error tx); [intros [=]|].
  unfold bind, round_trip, write. rewrite Hst.
  by destruct (fails env TX_COMMIT); intros [= <-].
Qed.

(** X24. A workspace that [CreateWorkspace] returns has its creator as an
    owner: after a successful call the workspace is the last row of the
    workspaces table, with the caller's tenant and the caller as creator,
    and the last row of the members table makes the caller an owner of
    it. *)
Theorem created_workspace_has_its_creator_as_owner env tenantID userID req s w s' :
  workspaceService_CreateWorkspace env tenantID userID req s = (Ok w, s') →
  workspaces s' = workspaces s ++ [w]
  ∧ Workspace_TenantID w = tenantID
  ∧ Workspace_CreatedBy w = userID
  ∧ Workspace_Name w = CreateWorkspaceRequest_Name req
  ∧ (∃ joined, workspace_members s'
               = workspace_members s
                   ++ [mkWorkspaceMember (Workspace_ID w) userID WorkspaceRoleOwner joined])
  ∧ has_owner s' (Workspace_ID w).
Proof.
  unfold workspaceService_CreateWorkspace.
  intros ([ws count] & s1 & Hlist & Hrun)%bind_Ok_inv.
  apply (keeps_Workspace_List (fun s => s)) in Hlist. cbv beta in Hlist. subst s1.
  destruct (bool_decide (count >= _)); [done|]. cbv zeta in Hrun.
  apply bind_Ok_inv in Hrun as (tx & s1 & Htx & Hrun).
  destruct (BeginTx_run env s) as (tx' & Hbegin & Hst).
  rewrite Hbegin in Htx. injection Htx as <- <-.
  apply bind_Ok_inv in Hrun as (r & s1 & Hcreate%catch_inv & Hrun).
  destruct r as [created|e]; [|done].
  apply workspaceRepository_Create_Ok in Hcreate as (Hcreated & Hrows & Hmembers).
  apply bind_Ok_inv in Hrun as (r & s2 & Hadd%catch_inv & Hrun).
  destruct r as [added|e]; [|done].
  apply workspaceMemberRepository_Add_Ok in Hadd as (Hadded & Hrows2).
  apply bind_Ok_inv in Hrun as ([] & s3 & Hcommit & Hrun).
  apply (Tx_Commit_Ok _ _ _ _ Hst) in Hcommit as ->.
  assert (keeps (fun s => (workspaces s, workspace_members s))
            (ignore (cacheRepository_SetWorkspace env created) ;;
             ignore (auditService_LogAction env (Workspace_ID created) userID
                       "workspace.created" "workspace" (Workspace_ID created)
                       (Some [("name", JString (Workspace_Name created));
                              ("description", JString (Workspace_Description created));
                              ("tenant_id", JString (Workspace_TenantID created))])) ;;
             ret created)) as Htail.
  { unfold cacheRepository_SetWorkspace, auditService_LogAction, auditLogRepository_Create.
    keeping. }
  pose proof (Htail _ _ _ Hrun) as [= Hw Hm].
  assert (w = created) as ->.
  { revert Hrun. unfold bind, ignore, ret.
    destruct (cacheRepository_SetWorkspace _ _ _) as [? s4].
    destruct (auditService_LogAction _ _ _ _ _ _ _ s4). by intros [= <- _]. }
  unfold has_owner. rewrite Hw, !Hm, !Hadded, Hrows2, Hrows, !Hmembers.
  destruct Hcreated as (Htenant & Hby & Hname).
  split; [done|].
  split; [by rewrite Htenant; destruct (CreateWorkspaceRequest_Settings req)|].
  split; [by rewrite Hby; destruct (CreateWorkspaceRequest_Settings req)|].
  split; [by rewrite Hname; destruct (CreateWorkspaceRequest_Settings req)|].
  split.
  - eexists. reflexivity.
  - eexists. split; [apply elem_of_app; right; by apply list_elem_of_singleton|]. done.
Qed.

Lemma created_workspace_has_its_creator_as_owner_witness :
  ∃ w s', workspaceService_CreateWorkspace (example_env nothing_fails) "t1" "carol"
            (mkCreateWorkspaceRequest "Labs" "" None) acme_store = (Ok w, s')
          ∧ has_owner s' (Workspace_ID w).
Proof.
  assert (∃ w s', workspaceService_CreateWorkspace (example_env nothing_fails) "t1" "carol"
                    (mkCreateWorkspaceRequest "Labs" "" None) acme_store = (Ok w, s'))
    as (w & s' & Hrun).
  { eexists _, _. vm_compute. reflexivity. }
  exists w, s'. split; [done|].
  by destruct (created_workspace_has_its_creator_as_owner _ _ _ _ _ _ _ Hrun)
    as (_ & _ & _ & _ & _ & Howner).
Defined.
(** ** Workspace names *)

Lemma names_keeps {A} (c : M A) : keeps workspaces c → preserves names_unique c.
Proof.
  intros Hc s r s' HI Hrun. apply Hc in Hrun.
  unfold names_unique, live_workspaces. by rewrite Hrun.
Qed.

Lemma appended_name w s :
  filter (fun row => Workspace_TenantID row = Workspace_TenantID w
                     ∧ Workspace_Name row = Workspace_Name w
                     ∧ Workspace_DeletedAt row = None) (workspaces s) = [] →
  names_unique s →
  names_unique (set_workspaces (fun rows => rows ++ [w]) s).
Proof.
  intros Hfree HI. unfold names_unique, live_workspaces. cbn [workspaces set_workspaces].
  rewrite filter_app, fmap_app. apply NoDup_app. split; [done|]. split.
  - intros key (row & -> & [Hlive Hrow]%list_elem_of_filter)%list_elem_of_fmap Hw.
    rewrite filter_cons, filter_nil in Hw. destruct (decide _); [|by apply elem_of_nil in Hw].
    apply list_elem_of_singleton in Hw as [= Ht Hn].
    assert (row ∈ @nil Workspace) as Hin; [|by apply elem_of_nil in Hin].
    rewrite <- Hfree. by apply list_elem_of_filter.
  - rewrite filter_cons, filter_nil. destruct (decide _); [apply NoDup_singleton|].
    apply NoDup_nil_2.
Qed.

Lemma deleted_name env id s :
  names_unique s →
  names_unique
    (set_workspaces
       (fmap (fun row => if decide (workspace_id_where id row)
                         then Workspace_with_DeletedAt (Some (time_Now env)) row
                         else row)) s).
Proof.
  unfold names_unique, live_workspaces. cbn [workspaces set_workspaces].
  intros HI. eapply sublist_NoDup; [exact HI|clear HI].
  induction (workspaces s) as [|row rows IH]; [done|].
  rewrite fmap_cons, !filter_cons.
  destruct (decide (workspace_id_where id row)) as [[_ Hlive]|Hother].
  - rewrite decide_False by done. rewrite decide_True by done.
    rewrite fmap_cons. by apply sublist_cons.
  - destruct (decide (Workspace_DeletedAt row = None)); [|done].
    rewrite !fmap_cons. by apply sublist_skip.
Qed.

Lemma live_after_Updates env src (rows : list Workspace) :
  Workspace_DeletedAt src = None →
  filter (fun w => Workspace_DeletedAt w = None)
    ((fun row => if decide (workspace_id_where (Workspace_ID src) row)
                 then Workspace_Updates env src row else row) <$> rows)
  = (fun row => if decide (workspace_id_where (Workspace_ID src) row)
                then Workspace_Updates env src row else row)
      <$> filter (fun w => Workspace_DeletedAt w = None) rows.
Proof.
  intros Hsrc. induction rows as [|row rows IH]; [done|].
  rewrite fmap_cons, !filter_cons, IH.
  destruct (decide (workspace_id_where (Workspace_ID src) row)) as [Hrow|Hother].
  - pose proof Hrow as [_ Hlive].
    assert (Workspace_DeletedAt (Workspace_Updates env src row) = None) as Hupdated
        by (cbn; by rewrite Hsrc).
    rewrite !decide_True by done. rewrite fmap_cons. by rewrite decide_True by done.
  - destruct (decide (Workspace_DeletedAt row = None)); [|done].
    rewrite fmap_cons. by rewrite decide_False by done.
Qed.

Lemma updated_name env src w s :
  workspaces_primary_key s →
  w ∈ workspaces s → workspace_id_where (Workspace_ID src) w →
  Workspace_TenantID src = Workspace_TenantID w →
  Workspace_DeletedAt src = None →
  Workspace_Name src = ""
  ∨ filter (fun row => Workspace_TenantID row = Workspace_TenantID src
                       ∧ Workspace_Name row = Workspace_Name src
                       ∧ Workspace_ID row ≠ Workspace_ID src
                       ∧ Workspace_DeletedAt row = None) (workspaces s) = [] →
  names_unique s →
  names_unique
    (set_workspaces
       (fmap (fun row => if decide (workspace_id_where (Workspace_ID src) row)
                         then Workspace_Updates env src row else row)) s).
Proof.
  intros Hpk Hw [Hid _] Htenant Hsrc Hcheck HI.
  unfold names_unique, live_workspaces in *. cbn [workspaces set_workspaces].
  rewrite live_after_Updates by done. rewrite <- list_fmap_compose.
  assert (∀ x y,
            x ∈ filter (fun w => Workspace_DeletedAt w = None) (workspaces s) →
            y ∈ filter (fun w => Workspace_DeletedAt w = None) (workspaces s) →
            workspace_id_where (Workspace_ID src) x →
            ¬ workspace_id_where (Workspace_ID src) y →
            workspace_key (Workspace_Updates env src x) = workspace_key y → x = y)
    as Hmixed.
  { intros x y Hx Hy [Hxid _] Hyid Hkey.
    assert (x = w) as ->.
    { apply list_elem_of_filter in Hx as [_ Hx].
      eapply NoDup_fmap_inj_on; [exact Hpk|done..|congruence]. }
    unfold workspace_key in Hkey. cbn in Hkey. injection Hkey as Ht Hn.
    rewrite Htenant in Ht.
    assert (Workspace_TenantID w = Workspace_TenantID y) as Ht'
        by (by destruct (bool_decide _)).
    destruct Hcheck as [Hname|Hnone].
    - rewrite bool_decide_eq_true_2 in Hn by done.
      eapply NoDup_fmap_inj_on; [exact HI|done..|]. unfold workspace_key. congruence.
    - case_bool_decide as Hname.
      + eapply NoDup_fmap_inj_on; [exact HI|done..|]. unfold workspace_key. congruence.
      + assert (y ∈ @nil Workspace) as Hin; [|by apply elem_of_nil in Hin].
        apply list_elem_of_filter in Hy as [Hylive Hy].
        rewrite <- Hnone. apply list_elem_of_filter. split; [|done].
        split; [congruence|]. split; [done|]. split; [|done].
        intros Hyid'. by apply Hyid. }
  apply NoDup_fmap_2_strong; [|by eapply NoDup_fmap_1].
  intros x y Hx Hy. cbn.
  destruct (decide (workspace_id_where (Workspace_ID src) x)) as [Hxid|Hxid],
    (decide (workspace_id_where (Workspace_ID src) y)) as [Hyid|Hyid]; intros Hkey.
  - apply list_elem_of_filter in Hx as [_ Hx]. apply list_elem_of_filter in Hy as [_ Hy].
    eapply NoDup_fmap_inj_on; [exact Hpk|done..|]. destruct Hxid, Hyid. congruence.
  - by apply Hmixed.
  - symmetry. by apply Hmixed.
  - by eapply NoDup_fmap_inj_on.
Qed.

Lemma names_Workspace_Create env w :
  preserves names_unique (workspaceRepository_Create env w).
Proof.
  intros s r s' HI.
  unfold workspaceRepository_Create, bind, read, write, ret, fail, round_trip.
  destruct (fails env (SELECT_COUNT _)); [by intros [= _ <-]|].
  case_bool_decide as Hcount; [by intros [= _ <-]|].
  assert (filter (fun row => Workspace_TenantID row = Workspace_TenantID w
                             ∧ Workspace_Name row = Workspace_Name w
                             ∧ Workspace_DeletedAt row = None) (workspaces s) = [])
    as Hfree.
  { destruct (filter _ _); [done|]. unfold count_rows in Hcount. cbn [length] in Hcount.
    lia. }
  destruct (fails env (INSERT _)); [by intros [= _ <-]|].
  destruct (bool_decide (Workspace_ID w = "")); intros [= _ <-];
    by apply (appended_name (Workspace_defaults env _ w)).
Qed.

Lemma names_Workspace_Delete env id :
  preserves names_unique (workspaceRepository_Delete env id).
Proof.
  intros s r s' HI.
  unfold workspaceRepository_Delete, bind, read, write, ret, fail, round_trip.
  destruct (fails env (DELETE _)); [by intros [= _ <-]|].
  destruct (bool_decide (_ = 0)); intros [= _ <-]; by apply deleted_name.
Qed.

Lemma Workspace_Update_names env src w s r s' :
  workspaces_primary_key s →
  w ∈ workspaces s → workspace_id_where (Workspace_ID src) w →
  Workspace_TenantID src = Workspace_TenantID w →
  Workspace_DeletedAt src = None →
  names_unique s →
  workspaceRepository_Update env src s = (r, s') →
  names_unique s'.
Proof.
  intros Hpk Hw Hid Htenant Hsrc HI.
  unfold workspaceRepository_Update, bind, read, write, ret, fail, round_trip.
  case_bool_decide as Hname.
  - destruct (fails env (SELECT_COUNT _)); [intros [= _ <-]; done|].
    case_bool_decide as Hcount; [intros [= _ <-]; done|].
    destruct (bool_decide (Workspace_ID src = "")); [by intros [= _ <-]|].
    destruct (fails env (UPDATE _)); [by intros [= _ <-]|].
    destruct (bool_decide (_ = 0)); intros [= _ <-];
      (eapply updated_name; [done..| |done]); right;
      (destruct (filter _ _); [done|]; unfold count_rows in Hcount;
       cbn [length] in Hcount; lia).
  - destruct (bool_decide (Workspace_ID src = "")); [by intros [= _ <-]|].
    destruct (fails env (UPDATE _)); [by intros [= _ <-]|].
    destruct (bool_decide (_ = 0)); intros [= _ <-];
      (eapply updated_name; [done..| |done]); by left.
Qed.

(** Follows a computation to its writes to the workspaces table. *)
Ltac naming :=
  repeat first
    [ apply preserves_ret | apply preserves_fail
    | apply names_Workspace_Create | apply names_Workspace_Delete
    | solve [apply names_keeps; unfold_calls;
             unfold projectRepository_Create, projectRepository_Update,
               projectRepository_Delete;
             solve [keeping]]
    | apply preserves_catch | apply preserves_ignore
    | apply preserves_bind; [|intros ?]
    | match goal with
      | |- preserves _ (match ?x with _ => _ end) => destruct x
      | |- preserves _ (if ?b then _ else _) => destruct b
      | |- preserves _ (let '(_, _) := ?p in _) => destruct p
      | |- preserves _ (bind (if ?b then _ else _) _) => destruct b
      end ].

Lemma names_Tx_Commit env tx :
  Tx_statements tx = [] → preserves names_unique (Tx_Commit env tx).
Proof.
  intros Hst s r s' HI. unfold Tx_Commit. destruct (Tx_Error tx); [by intros [= _ <-]|].
  unfold bind, round_trip, write. rewrite Hst.
  by destruct (fails env TX_COMMIT); intros [= _ <-].
Qed.

(** X25. Within a tenant no two live workspaces have the same name, and the
    services keep it so: [CreateWorkspace] and [DeleteWorkspace] always,
    [UpdateWorkspace] when the IDs of the workspaces table are distinct. The
    name of a deleted workspace does not count. *)
Theorem workspace_names_stay_unique env :
  (∀ t u req, preserves names_unique (workspaceService_CreateWorkspace env t u req))
  ∧ (∀ id u, preserves names_unique (workspaceService_DeleteWorkspace env id u))
  ∧ (∀ id u req s r s',
        workspaces_primary_key s → names_unique s →
        workspaceService_UpdateWorkspace env id u req s = (r, s') →
        names_unique s').
Proof.
  split; [|split].
  - intros t u req. unfold workspaceService_CreateWorkspace.
    apply preserves_bind; [naming|intros [? count]].
    destruct (bool_decide _); [apply preserves_fail|].
    intros s r s' HI. unfold bind at 1.
    destruct (BeginTx_run env s) as (tx & -> & Htx). revert s r s' HI.
    fold (preserves (A:=Workspace) names_unique).
    apply preserves_bind; [apply preserves_catch, names_Workspace_Create|intros [w|e]];
      [|naming].
    apply preserves_bind; [naming|intros [m|e]]; [|naming].
    apply preserves_bind; [by apply names_Tx_Commit|intros ?]. naming.
  - intros id u. unfold workspaceService_DeleteWorkspace. naming.
  - intros id u req s r s' Hpk HI Hrun. unfold workspaceService_UpdateWorkspace in Hrun.
    apply bind_inv in Hrun as [(e & Hc & ->)|([] & s1 & Hc & Hrun)];
      apply CheckUserAccess_state in Hc as ->; [done|].
    apply bind_inv in Hrun as [(e & Hc & ->)|(w & s1 & Hc & Hrun)].
    { by apply (keeps_Workspace_GetByID (fun s => s)) in Hc as ->. }
    apply workspaceRepository_GetByID_Ok in Hc as (-> & Hw & Hid & Hlive).
    destruct (UpdateWorkspaceRequest_Name req), (UpdateWorkspaceRequest_Description req),
      (UpdateWorkspaceRequest_Settings req); cbv beta iota zeta in Hrun;
      (apply bind_inv in Hrun as [(e & Hc & ->)|(w' & s2 & Hc & Hrun)];
       (eapply (Workspace_Update_names _ _ w) in Hc;
        [|done|done|by split|done|exact Hlive|done]);
       [done|refine ((_ : preserves names_unique _) _ _ _ Hc Hrun); naming]).
Qed.

Lemma acme_store_names_unique : names_unique acme_store.
Proof. apply NoDup_singleton. Qed.

Lemma workspace_names_stay_unique_witness :
  names_unique
    (workspaceService_UpdateWorkspace (example_env nothing_fails) "ws-1" "alice"
       (mkUpdateWorkspaceRequest (Some "Acme Labs") None None) acme_store).2.
Proof.
  destruct (workspace_names_stay_unique (example_env nothing_fails)) as (_ & _ & Hupdate).
  eapply (Hupdate "ws-1" "alice" _ acme_store);
    [apply NoDup_singleton|exact acme_store_names_unique|apply surjective_pairing].
Defined.
(** ** The lookup of a workspace by its name *)

Lemma name_holders_live s tenantID name :
  name_holders s tenantID name `sublist_of` live_workspaces s.
Proof.
  unfold name_holders, live_workspaces.
  induction (workspaces s) as [|row rows IH]; [done|]. rewrite !filter_cons.
  destruct (decide (_ ∧ _ ∧ _)) as [(_ & _ & Hlive)|];
    destruct (decide (Workspace_DeletedAt row = None)); try done.
  - by apply sublist_skip.
  - by apply sublist_cons.
Qed.

(** With unique names a name has one holder at most. *)
Lemma one_name_holder s tenantID name w :
  names_unique s → w ∈ name_holders s tenantID name → name_holders s tenantID name = [w].
Proof.
  intros HI Hw.
  assert (∀ x y, x ∈ name_holders s tenantID name → y ∈ name_holders s tenantID name →
                 x = y) as Hone.
  { intros x y (Hx & Hxin)%list_elem_of_filter (Hy & Hyin)%list_elem_of_filter.
    destruct Hx as (Hxt & Hxn & Hxl), Hy as (Hyt & Hyn & Hyl).
    eapply (NoDup_fmap_inj_on workspace_key); [exact HI| | |].
    - by apply list_elem_of_filter.
    - by apply list_elem_of_filter.
    - unfold workspace_key. congruence. }
  assert (NoDup (name_holders s tenantID name)) as Hnd.
  { eapply sublist_NoDup; [|apply name_holders_live]. eapply NoDup_fmap_1. exact HI. }
  destruct (name_holders s tenantID name) as [|x [|y l]] eqn:Hh.
  - by apply elem_of_nil in Hw.
  - by apply list_elem_of_singleton in Hw as ->.
  - apply NoDup_cons in Hnd as [Hx _]. destruct Hx.
    rewrite (Hone x y); [left|left|right; left].
Qed.

(** X26. [GetByTenantAndName] is the inverse of the name check: with unique
    names and an [ORDER BY] that only reorders, it returns the live
    workspace that holds the name in the tenant, whichever row that is, and
    [ErrWorkspaceNotFound] when no live workspace holds it. The store is
    not changed. *)
Theorem GetByTenantAndName_finds_the_holder env s tenantID name :
  fails env (SELECT_FIRST workspaces_t) = false →
  (∀ clause rows, order_workspaces env clause rows ≡ₚ rows) →
  names_unique s →
  (∀ w, w ∈ name_holders s tenantID name →
        workspaceRepository_GetByTenantAndName env tenantID name s = (Ok w, s))
  ∧ (name_holders s tenantID name = [] →
     workspaceRepository_GetByTenantAndName env tenantID name s
     = (Err repositories_ErrWorkspaceNotFound, s)).
Proof.
  intros Hdb Horder HI.
  unfold workspaceRepository_GetByTenantAndName, bind, round_trip, read.
  rewrite Hdb. fold (name_holders s tenantID name). split.
  - intros w Hw. rewrite (one_name_holder _ _ _ _ HI Hw).
    pose proof (Horder "workspaces.id" [w]) as Hperm.
    apply Permutation_singleton_r in Hperm. by rewrite Hperm.
  - intros ->. pose proof (Horder "workspaces.id" []) as Hperm.
    apply Permutation_nil_r in Hperm. by rewrite Hperm.
Qed.

Lemma GetByTenantAndName_finds_the_holder_witness :
  workspaceRepository_GetByTenantAndName (example_env nothing_fails) "t1" "Acme" acme_store
  = (Ok acme, acme_store).
Proof.
  destruct (GetByTenantAndName_finds_the_holder (example_env nothing_fails) acme_store
              "t1" "Acme" eq_refl example_order_is_a_permutation acme_store_names_unique)
    as [Hfound _].
  apply Hfound. by apply list_elem_of_singleton.
Defined.
